(** * kubectl-kanvas-snapshot: manifest submission and snapshot trigger

    A shallow embedding of [cmd/kanvas-snapshot/cmd.go] (the variant that
    degrades to an offline identifier, called lenient below) and of the
    second copy of the same package kept in the repository (the variant that
    fails hard, called strict below), together with the parts of the Go
    standard library they lean on: [strings], [path/filepath.Walk],
    [encoding/json] decoding into [interface{}], [regexp] matching of the
    e-mail pattern and [time.Format] for the layout [20060102150405].

    Go strings are byte sequences; they are modelled by [string], whose
    characters are the bytes. *)

From Stdlib Require Import String Ascii List ZArith Lia Bool Arith.
From Stdlib Require Import DecimalString.
Import ListNotations.

Open Scope string_scope.
Open Scope bool_scope.

Set Warnings "-register-all".

(* ================================================================== *)
(** ** Package [strings] *)
(* ================================================================== *)

Module GoStrings.

(** [s[n:]] for [n <= len(s)]. *)
Fixpoint drop (n : nat) (s : string) : string :=
  match n, s with
  | O, _ => s
  | S n', String _ r => drop n' r
  | S _, EmptyString => EmptyString
  end.

(** [strings.HasPrefix]: [len(s) >= len(prefix) && s[:len(prefix)] == prefix]. *)
Definition HasPrefix (s prefix : string) : bool := String.prefix prefix s.

(** [strings.HasSuffix]:
    [len(s) >= len(suffix) && s[len(s)-len(suffix):] == suffix]. *)
Definition HasSuffix (s suffix : string) : bool :=
  (String.length suffix <=? String.length s)%nat
  && String.eqb (drop (String.length s - String.length suffix) s) suffix.

(** [strings.Contains]: some position of [s] starts with [substr]. *)
Fixpoint Contains (s substr : string) : bool :=
  HasPrefix s substr
  || match s with
     | EmptyString => false
     | String _ r => Contains r substr
     end.

(** ASCII lower-casing of one byte. *)
Definition lower_byte (c : ascii) : ascii :=
  let n := nat_of_ascii c in
  if (65 <=? n)%nat && (n <=? 90)%nat then ascii_of_nat (n + 32) else c.

(** [strings.ToLower] on the bytes [A]..[Z]; bytes outside ASCII are left
    as they are (Go lower-cases by Unicode rune; no rune outside ASCII
    lower-cases to a byte of [.yaml] or [.yml]). *)
Fixpoint ToLower (s : string) : string :=
  match s with
  | EmptyString => EmptyString
  | String c r => String (lower_byte c) (ToLower r)
  end.

(** [strings.ReplaceAll s old new] for a non-empty [old]: the
    non-overlapping occurrences of [old], left to right, become [new].
    [skip] counts the bytes of a matched occurrence still to be passed. *)
Fixpoint replace_from (old new : string) (skip : nat) (s : string) : string :=
  match s with
  | EmptyString => EmptyString
  | String c r =>
      match skip with
      | S k => replace_from old new k r
      | O =>
          if HasPrefix s old
          then new ++ replace_from old new (String.length old - 1) r
          else String c (replace_from old new 0 r)
      end
  end.

Definition ReplaceAll (s old new : string) : string := replace_from old new 0 s.

(** [strings.TrimSuffix]. *)
Fixpoint take (n : nat) (s : string) : string :=
  match n, s with
  | O, _ => EmptyString
  | S n', String c r => String c (take n' r)
  | S _, EmptyString => EmptyString
  end.

Definition TrimSuffix (s suffix : string) : string :=
  if HasSuffix s suffix then take (String.length s - String.length suffix) s else s.

(** [strings.Join]. *)
Fixpoint Join (elems : list string) (sep : string) : string :=
  match elems with
  | [] => EmptyString
  | [x] => x
  | x :: rest => x ++ sep ++ Join rest sep
  end.

End GoStrings.

(* ================================================================== *)
(** ** Package [time]: the wall clock and [Format] *)
(* ================================================================== *)

Module GoTime.

(** What [time.Now()] is read for: the civil date and clock of the instant. *)
Record Time : Type := mkTime {
  Year : Z;
  Month : nat;
  Day : nat;
  Hour : nat;
  Minute : nat;
  Second : nat;
  Nanosecond : nat
}.

Definition decimal (n : nat) : string := NilEmpty.string_of_uint (Nat.to_uint n).

Fixpoint zeros (n : nat) : string :=
  match n with
  | O => EmptyString
  | S k => String "0" (zeros k)
  end.

(** [appendInt(b, x, width)]: sign, then the decimal digits padded with
    zeros on the left up to [width]. *)
Definition appendInt (x : Z) (width : nat) : string :=
  let digits := decimal (Z.to_nat (Z.abs x)) in
  let body := zeros (width - String.length digits) ++ digits in
  if (x <? 0)%Z then "-" ++ body else body.

(** [t.Format("20060102150405")]: the layout elements [2006 01 02 15 04 05],
    that is year (4), month, day, hour, minute, second (2 each). *)
Definition Format20060102150405 (t : Time) : string :=
  appendInt (Year t) 4
  ++ appendInt (Z.of_nat (Month t)) 2
  ++ appendInt (Z.of_nat (Day t)) 2
  ++ appendInt (Z.of_nat (Hour t)) 2
  ++ appendInt (Z.of_nat (Minute t)) 2
  ++ appendInt (Z.of_nat (Second t)) 2.



Definition is_digit (c : ascii) : bool :=
  let n := nat_of_ascii c in (48 <=? n)%nat && (n <=? 57)%nat.


End GoTime.

(* ================================================================== *)
(** ** Package [encoding/json]: decoding into [interface{}] *)
(* ================================================================== *)

Module GoJson.

(** The dynamic values [json.Unmarshal] stores in an [interface{}]:
    [nil], [bool], [float64] (kept as the literal read), [string],
    [[]interface{}] and [map[string]interface{}].  A map is kept as the
    members in the order read; a later member overrides an earlier one
    with the same key, as the decoder's assignment does. *)
Inductive value : Type :=
| JNil : value
| JBool : bool -> value
| JNumber : string -> value
| JString : string -> value
| JArray : list value -> value
| JObject : list (string * value) -> value.

Definition dquote : ascii := ascii_of_nat 34.
Definition backslash : ascii := ascii_of_nat 92.

Definition is_ws (c : ascii) : bool :=
  let n := nat_of_ascii c in
  (n =? 32)%nat || (n =? 9)%nat || (n =? 10)%nat || (n =? 13)%nat.

Fixpoint skip_ws (s : string) : string :=
  match s with
  | String c r => if is_ws c then skip_ws r else s
  | EmptyString => s
  end.

Definition hex_val (c : ascii) : option N :=
  let n := N_of_ascii c in
  if (48 <=? n)%N && (n <=? 57)%N then Some (n - 48)%N
  else if (97 <=? n)%N && (n <=? 102)%N then Some (n - 87)%N
  else if (65 <=? n)%N && (n <=? 70)%N then Some (n - 55)%N
  else None.

Definition hex4 (a b c d : ascii) : option N :=
  match hex_val a, hex_val b, hex_val c, hex_val d with
  | Some x, Some y, Some z, Some w => Some (((x * 16 + y) * 16 + z) * 16 + w)%N
  | _, _, _, _ => None
  end.

Definition byte_of (n : N) : string := String (ascii_of_N n) EmptyString.

(** [utf8.EncodeRune]. *)
Definition utf8 (cp : N) : string :=
  if (cp <? 128)%N then byte_of cp
  else if (cp <? 2048)%N then
    byte_of (192 + cp / 64) ++ byte_of (128 + cp mod 64)
  else if (cp <? 65536)%N then
    byte_of (224 + cp / 4096) ++ byte_of (128 + (cp / 64) mod 64)
    ++ byte_of (128 + cp mod 64)
  else
    byte_of (240 + cp / 262144) ++ byte_of (128 + (cp / 4096) mod 64)
    ++ byte_of (128 + (cp / 64) mod 64) ++ byte_of (128 + cp mod 64).

Definition replacement_char : string := utf8 65533.

Definition is_high_surrogate (u : N) : bool := (55296 <=? u)%N && (u <? 56320)%N.
Definition is_low_surrogate (u : N) : bool := (56320 <=? u)%N && (u <? 57344)%N.

(** What a surrogate left without its partner decodes to. *)
Definition flush (pending : option N) : string :=
  match pending with
  | Some _ => replacement_char
  | None => EmptyString
  end.

Definition simple_escape (e : ascii) : option ascii :=
  let n := nat_of_ascii e in
  if (n =? 34)%nat then Some dquote
  else if (n =? 92)%nat then Some backslash
  else if (n =? 47)%nat then Some "/"%char
  else if (n =? 98)%nat then Some (ascii_of_nat 8)
  else if (n =? 102)%nat then Some (ascii_of_nat 12)
  else if (n =? 110)%nat then Some (ascii_of_nat 10)
  else if (n =? 114)%nat then Some (ascii_of_nat 13)
  else if (n =? 116)%nat then Some (ascii_of_nat 9)
  else None.

Definition prepend (p : string) (x : option (string * string)) : option (string * string) :=
  match x with
  | Some (v, rest) => Some (p ++ v, rest)
  | None => None
  end.

(** [utf8.DecodeRune] on the bytes of a literal: the well-formed
    encodings of two, three and four bytes, by the ranges of their first
    and second byte.  Every other byte above ASCII is ill-formed, alone. *)
Definition in_bytes (c : ascii) (lo hi : nat) : bool :=
  let n := nat_of_ascii c in (lo <=? n)%nat && (n <=? hi)%nat.

Definition rune2 (c c2 : ascii) : bool :=
  in_bytes c 194 223 && in_bytes c2 128 191.

Definition rune3 (c c2 c3 : ascii) : bool :=
  ((in_bytes c 224 224 && in_bytes c2 160 191)
   || (in_bytes c 225 236 && in_bytes c2 128 191)
   || (in_bytes c 237 237 && in_bytes c2 128 159)
   || (in_bytes c 238 239 && in_bytes c2 128 191))
  && in_bytes c3 128 191.

Definition rune4 (c c2 c3 c4 : ascii) : bool :=
  ((in_bytes c 240 240 && in_bytes c2 144 191)
   || (in_bytes c 241 243 && in_bytes c2 128 191)
   || (in_bytes c 244 244 && in_bytes c2 128 143))
  && in_bytes c3 128 191 && in_bytes c4 128 191.

(** The text of a string literal after its opening quote: the decoded
    string and the input that follows the closing quote.  [pending] is a
    high surrogate read from a [\u] escape and waiting for its low half.
    A byte of ASCII and a well-formed encoding are copied; every
    ill-formed byte becomes U+FFFD, as the decoder's [unquote] coerces
    the literal to well-formed UTF-8. *)
Fixpoint parse_string (pending : option N) (s : string) : option (string * string) :=
  match s with
  | EmptyString => None
  | String c r =>
      if Ascii.eqb c dquote then Some (flush pending, r)
      else if Ascii.eqb c backslash then
        match r with
        | String e r1 =>
            if Ascii.eqb e "u"%char then
              match r1 with
              | String h1 (String h2 (String h3 (String h4 r2))) =>
                  match hex4 h1 h2 h3 h4 with
                  | None => None
                  | Some u =>
                      match pending with
                      | Some hi =>
                          if is_low_surrogate u
                          then prepend (utf8 (65536 + (hi - 55296) * 1024 + (u - 56320))%N)
                                       (parse_string None r2)
                          else if is_high_surrogate u
                          then prepend replacement_char (parse_string (Some u) r2)
                          else prepend (replacement_char ++ utf8 u) (parse_string None r2)
                      | None =>
                          if is_high_surrogate u then parse_string (Some u) r2
                          else if is_low_surrogate u
                          then prepend replacement_char (parse_string None r2)
                          else prepend (utf8 u) (parse_string None r2)
                      end
                  end
              | _ => None
              end
            else
              match simple_escape e with
              | Some x => prepend (flush pending ++ String x EmptyString) (parse_string None r1)
              | None => None
              end
        | EmptyString => None
        end
      else if (nat_of_ascii c <? 32)%nat then None
      else if (nat_of_ascii c <? 128)%nat
      then prepend (flush pending ++ String c EmptyString) (parse_string None r)
      else
        let ill_formed := prepend (flush pending ++ replacement_char) (parse_string None r) in
        match r with
        | String c2 r2 =>
            if rune2 c c2
            then prepend (flush pending ++ String c (String c2 EmptyString))
                         (parse_string None r2)
            else
              match r2 with
              | String c3 r3 =>
                  if rune3 c c2 c3
                  then prepend (flush pending ++ String c (String c2 (String c3 EmptyString)))
                               (parse_string None r3)
                  else
                    match r3 with
                    | String c4 r4 =>
                        if rune4 c c2 c3 c4
                        then prepend
                               (flush pending
                                ++ String c (String c2 (String c3 (String c4 EmptyString))))
                               (parse_string None r4)
                        else ill_formed
                    | EmptyString => ill_formed
                    end
              | EmptyString => ill_formed
              end
        | EmptyString => ill_formed
        end
  end.

Fixpoint span_digits (s : string) : string * string :=
  match s with
  | String c r =>
      if GoTime.is_digit c
      then let '(d, rest) := span_digits r in (String c d, rest)
      else (EmptyString, s)
  | EmptyString => (EmptyString, EmptyString)
  end.

Definition is_char (c : ascii) (n : nat) : bool := (nat_of_ascii c =? n)%nat.

(** A number literal: an optional minus sign; then a single zero, or a
    non-zero digit followed by digits; then optionally a dot and at least
    one digit; then optionally [e] or [E], an optional sign and at least
    one digit.  The literal is returned as read. *)
Definition number_literal (s : string) : option (string * string) :=
  let '(sign, s1) :=
    match s with
    | String c r => if is_char c 45 then ("-", r) else (EmptyString, s)
    | EmptyString => (EmptyString, s)
    end in
  let '(int, s2) := span_digits s1 in
  let int_ok :=
    match int with
    | EmptyString => false
    | String c EmptyString => true
    | String c _ => negb (is_char c 48)
    end in
  if negb int_ok then None else
  let frac :=
    match s2 with
    | String c r =>
        if is_char c 46 then
          let '(d, rest) := span_digits r in
          match d with
          | EmptyString => None
          | _ => Some ("." ++ d, rest)
          end
        else Some (EmptyString, s2)
    | EmptyString => Some (EmptyString, s2)
    end in
  match frac with
  | None => None
  | Some (fr, s3) =>
      match s3 with
      | String c r =>
          if is_char c 101 || is_char c 69 then
            let '(sg, r1) :=
              match r with
              | String d r' =>
                  if is_char d 43 || is_char d 45
                  then (String d EmptyString, r') else (EmptyString, r)
              | EmptyString => (EmptyString, r)
              end in
            let '(d, rest) := span_digits r1 in
            match d with
            | EmptyString => None
            | _ => Some (sign ++ int ++ fr ++ String c EmptyString ++ sg ++ d, rest)
            end
          else Some (sign ++ int ++ fr, s3)
      | EmptyString => Some (sign ++ int ++ fr, s3)
      end
  end.

(** The digits of a literal as a number. *)
Fixpoint digits_value (acc : N) (s : string) : N :=
  match s with
  | String c r => digits_value (acc * 10 + (N_of_ascii c - 48))%N r
  | EmptyString => acc
  end.

(** The exponent as [strconv] reads it: a digit is taken in while the
    exponent read so far is below 10000. *)
Fixpoint exponent_value (acc : N) (s : string) : N :=
  match s with
  | String c r =>
      exponent_value (if (acc <? 10000)%N then acc * 10 + (N_of_ascii c - 48) else acc)%N r
  | EmptyString => acc
  end.

(** The least magnitude that rounds to infinity in [float64]: half way
    between the largest finite value and [2^1024]. *)
Definition float64_limit : Z := (2 ^ 1024 - 2 ^ 970)%Z.

(** Whether [strconv.ParseFloat(lit, 64)] answers a number literal with
    a range error: the value of the literal, with the exponent as read
    above, has a magnitude of [float64_limit] at least.  A value too
    small for [float64] is read as zero and is no error. *)
Definition float64_overflows (lit : string) : bool :=
  let s1 :=
    match lit with
    | String c r => if is_char c 45 then r else lit
    | EmptyString => lit
    end in
  let '(int, s2) := span_digits s1 in
  let '(frac, s3) :=
    match s2 with
    | String c r => if is_char c 46 then span_digits r else (EmptyString, s2)
    | EmptyString => (EmptyString, s2)
    end in
  let exponent : Z :=
    match s3 with
    | String _ (String d r) =>
        if is_char d 45 then (- Z.of_N (exponent_value 0 r))%Z
        else if is_char d 43 then Z.of_N (exponent_value 0 r)
        else Z.of_N (exponent_value 0 (String d r))
    | _ => 0%Z
    end in
  let mantissa := Z.of_N (digits_value 0 (int ++ frac)) in
  let scale := (exponent - Z.of_nat (String.length frac))%Z in
  if (mantissa =? 0)%Z then false
  else if (0 <=? scale)%Z then
    if (400 <? scale)%Z then true
    else (float64_limit <=? mantissa * 10 ^ scale)%Z
  else (float64_limit * 10 ^ (- scale) <=? mantissa)%Z.

(** A number as the decoder stores it in an [interface{}]: a literal
    outside the range of [float64] is an [UnmarshalTypeError], which
    [json.Unmarshal] returns once the document is read; the reading
    fails here, at the literal. *)
Definition parse_number (s : string) : option (string * string) :=
  match number_literal s with
  | Some (lit, rest) => if float64_overflows lit then None else Some (lit, rest)
  | None => None
  end.

Definition parse_literal (lit : string) (v : value) (s : string) : option (value * string) :=
  if GoStrings.HasPrefix s lit
  then Some (v, GoStrings.drop (String.length lit) s)
  else None.

(** The scanner refuses a document whose objects and arrays are nested
    deeper than this. *)
Definition maxNestingDepth : N := 10000.

(** One JSON value at the head of the input, after optional white
    space; [members] and [elems] read what follows the opening of an
    object and of an array.  [depth] counts the objects and arrays that
    are open around the value. *)
Definition value_step (depth : N)
    (members : string -> option (list (string * value) * string))
    (elems : string -> option (list value * string))
    (s : string) : option (value * string) :=
  match skip_ws s with
  | EmptyString => None
  | String c r =>
      if (is_char c 123 || is_char c 91) && negb (depth <? maxNestingDepth)%N then None
      else if is_char c 123 then
        match skip_ws r with
        | String c' r' =>
            if is_char c' 125 then Some (JObject [], r')
            else match members (skip_ws r) with
                 | Some (m, rest) => Some (JObject m, rest)
                 | None => None
                 end
        | EmptyString => None
        end
      else if is_char c 91 then
        match skip_ws r with
        | String c' r' =>
            if is_char c' 93 then Some (JArray [], r')
            else match elems r with
                 | Some (l, rest) => Some (JArray l, rest)
                 | None => None
                 end
        | EmptyString => None
        end
      else if Ascii.eqb c dquote then
        match parse_string None r with
        | Some (x, rest) => Some (JString x, rest)
        | None => None
        end
      else if is_char c 116 then parse_literal "true" (JBool true) (String c r)
      else if is_char c 102 then parse_literal "false" (JBool false) (String c r)
      else if is_char c 110 then parse_literal "null" JNil (String c r)
      else match parse_number (String c r) with
           | Some (n, rest) => Some (JNumber n, rest)
           | None => None
           end
  end.

(** The elements of an array, up to its closing bracket. *)
Definition elems_step
    (value_at : string -> option (value * string))
    (elems : string -> option (list value * string))
    (s : string) : option (list value * string) :=
  match value_at s with
  | None => None
  | Some (v, r) =>
      match skip_ws r with
      | String c r' =>
          if is_char c 93 then Some ([v], r')
          else if is_char c 44 then
            match elems r' with
            | Some (l, rest) => Some (v :: l, rest)
            | None => None
            end
          else None
      | EmptyString => None
      end
  end.

(** The members of an object, from the quote of the first key up to the
    closing brace. *)
Definition members_step
    (value_at : string -> option (value * string))
    (members : string -> option (list (string * value) * string))
    (s : string) : option (list (string * value) * string) :=
  match s with
  | String q r0 =>
      if Ascii.eqb q dquote then
        match parse_string None r0 with
        | None => None
        | Some (k, r1) =>
            match skip_ws r1 with
            | String c r2 =>
                if is_char c 58 then
                  match value_at r2 with
                  | None => None
                  | Some (v, r3) =>
                      match skip_ws r3 with
                      | String d r4 =>
                          if is_char d 125 then Some ([(k, v)], r4)
                          else if is_char d 44 then
                            match members (skip_ws r4) with
                            | Some (m, rest) => Some ((k, v) :: m, rest)
                            | None => None
                            end
                          else None
                      | EmptyString => None
                      end
                  end
                else None
            | EmptyString => None
            end
        end
      else None
  | EmptyString => None
  end.

(** The recursive descent, by fuel.  Every call is made on a strictly
    shorter input, or is the reading of the first element of an array;
    the fuel [decode] gives, twice the length of the document and two
    more, is enough (lemma [parse_value_fuel]). *)
Fixpoint parse_value (fuel : nat) (depth : N) (s : string) : option (value * string) :=
  match fuel with
  | O => None
  | S f => value_step depth (parse_members f (depth + 1)) (parse_elems f (depth + 1)) s
  end

with parse_elems (fuel : nat) (depth : N) (s : string) : option (list value * string) :=
  match fuel with
  | O => None
  | S f => elems_step (parse_value f depth) (parse_elems f depth) s
  end

with parse_members (fuel : nat) (depth : N) (s : string)
  : option (list (string * value) * string) :=
  match fuel with
  | O => None
  | S f => members_step (parse_value f depth) (parse_members f depth) s
  end.

(** The value a whole document decodes to; [None] when [json.Unmarshal]
    into an [interface{}] returns an error: the document is not valid
    JSON or is nested too deep (a [SyntaxError]), or it holds a number
    outside the range of [float64] (an [UnmarshalTypeError]). *)
Definition decode (s : string) : option value :=
  match parse_value (2 * String.length s + 2) 0 s with
  | Some (v, rest) =>
      match skip_ws rest with
      | EmptyString => Some v
      | _ => None
      end
  | None => None
  end.

(** [json.Unmarshal(body, &m)] with [m] a nil [map[string]interface{}]:
    an object fills the map, [null] leaves it nil and is no error, any
    other value is an [UnmarshalTypeError]. *)
Definition Unmarshal_map (body : string) : option (list (string * value)) :=
  match decode body with
  | Some (JObject m) => Some m
  | Some JNil => Some []
  | _ => None
  end.

(** [json.Unmarshal(body, &a)] with [a] a nil [[]interface{}]. *)
Definition Unmarshal_slice (body : string) : option (list value) :=
  match decode body with
  | Some (JArray l) => Some l
  | Some JNil => Some []
  | _ => None
  end.

(** The value stored last under [key], if any. *)
Fixpoint lookup (m : list (string * value)) (key : string) : option value :=
  match m with
  | [] => None
  | (k, v) :: rest =>
      match lookup rest key with
      | Some x => Some x
      | None => if String.eqb k key then Some v else None
      end
  end.

(** [m[key]] on a [map[string]interface{}]: the value under [key], and
    the nil interface when the key is absent (also on a nil map). *)
Definition index (m : list (string * value)) (key : string) : value :=
  match lookup m key with
  | Some v => v
  | None => JNil
  end.

(** [x.(string)] in its two-valued form. *)
Definition assert_string (x : value) : string * bool :=
  match x with
  | JString s => (s, true)
  | _ => (EmptyString, false)
  end.

(** The name [%T] prints for the dynamic type of an [interface{}]. *)
Definition type_name (x : value) : string :=
  match x with
  | JNil => "nil"
  | JBool _ => "bool"
  | JNumber _ => "float64"
  | JString _ => "string"
  | JArray _ => "[]interface {}"
  | JObject _ => "map[string]interface {}"
  end.

End GoJson.

(* ================================================================== *)
(** ** Package [regexp]: matching by derivatives *)
(* ================================================================== *)

Module GoRegexp.

(** Regular expressions over bytes.  A character class is the list of its
    ranges [lo-hi]; a single character is the range from itself to itself. *)
Inductive regex : Type :=
| Empty : regex
| Eps : regex
| Class : list (ascii * ascii) -> regex
| Cat : regex -> regex -> regex
| Alt : regex -> regex -> regex
| Star : regex -> regex.

Definition in_range (c : ascii) (r : ascii * ascii) : bool :=
  (nat_of_ascii (fst r) <=? nat_of_ascii c)%nat
  && (nat_of_ascii c <=? nat_of_ascii (snd r))%nat.

Definition in_class (ranges : list (ascii * ascii)) (c : ascii) : bool :=
  existsb (in_range c) ranges.

(** The operators of the pattern syntax: a literal, [r+] and [r{n,}]. *)
Definition Lit (c : ascii) : regex := Class [(c, c)].
Definition Plus (r : regex) : regex := Cat r (Star r).

Fixpoint AtLeast (n : nat) (r : regex) : regex :=
  match n with
  | O => Star r
  | S k => Cat r (AtLeast k r)
  end.

Fixpoint nullable (r : regex) : bool :=
  match r with
  | Empty => false
  | Eps => true
  | Class _ => false
  | Cat a b => nullable a && nullable b
  | Alt a b => nullable a || nullable b
  | Star _ => true
  end.

Fixpoint deriv (c : ascii) (r : regex) : regex :=
  match r with
  | Empty => Empty
  | Eps => Empty
  | Class ranges => if in_class ranges c then Eps else Empty
  | Cat a b =>
      if nullable a
      then Alt (Cat (deriv c a) b) (deriv c b)
      else Cat (deriv c a) b
  | Alt a b => Alt (deriv c a) (deriv c b)
  | Star a => Cat (deriv c a) (Star a)
  end.

(** The whole of [s] is a word of [r]. *)
Fixpoint matches (r : regex) (s : string) : bool :=
  match s with
  | EmptyString => nullable r
  | String c rest => matches (deriv c r) rest
  end.

(** A compiled pattern: its body, and whether it opens with [^] and
    closes with [$] (without the [m] flag these are the beginning and the
    end of the text). *)
Record Regexp : Type := mkRegexp {
  begin_text : bool;
  body : regex;
  end_text : bool
}.

Definition any_byte : regex := Class [(ascii_of_nat 0, ascii_of_nat 255)].

(** [re.MatchString(s)]: [s] contains a match of the pattern; a side that
    is not anchored may be preceded or followed by any bytes. *)
Definition MatchString (re : Regexp) (s : string) : bool :=
  matches
    (Cat (if begin_text re then Eps else Star any_byte)
         (Cat (body re) (if end_text re then Eps else Star any_byte)))
    s.

(** The words of a regular expression. *)
Inductive Lang : regex -> string -> Prop :=
| LEps : Lang Eps EmptyString
| LClass ranges c : in_class ranges c = true -> Lang (Class ranges) (String c EmptyString)
| LCat a b s t : Lang a s -> Lang b t -> Lang (Cat a b) (s ++ t)
| LAltL a b s : Lang a s -> Lang (Alt a b) s
| LAltR a b s : Lang b s -> Lang (Alt a b) s
| LStarNil a : Lang (Star a) EmptyString
| LStarCons a s t : Lang a s -> Lang (Star a) t -> Lang (Star a) (s ++ t).

(** Every byte of [s] satisfies [p]. *)
Fixpoint all_bytes (p : ascii -> bool) (s : string) : bool :=
  match s with
  | EmptyString => true
  | String c r => p c && all_bytes p r
  end.

End GoRegexp.

(* ================================================================== *)
(** ** The file system and [filepath.Walk] *)
(* ================================================================== *)

Module GoFS.

(** What [os.Lstat] finds at a path.  [File r]: anything that is no
    directory (a regular file, a symbolic link, a device), [r] being
    what [os.ReadFile] gives on the path, which follows links: [inl
    data], or [inr op] when it fails in the operation [op] ([open] when
    the file cannot be opened, [read] when its bytes cannot be read, as
    on a link to a directory).  [Dir listable entries]: a directory and
    its entries in the order [readDirNames] yields them (sorted by
    name); [listable] is false when the listing fails.  [Broken]:
    [os.Lstat] fails on the path.  The same type describes what
    [os.Stat] finds, which follows links: on a link to a directory,
    [os.Lstat] finds a [File] and [os.Stat] a [Dir]. *)
Inductive node : Type :=
| File : string + string -> node
| Dir : bool -> list (string * node) -> node
| Broken : node.

(** [info.IsDir()]. *)
Definition IsDir (n : node) : bool :=
  match n with
  | Dir _ _ => true
  | _ => false
  end.

(** The errors of the package, [error] values of Go. *)
Inductive fserror : Type :=
| SkipDir : fserror                      (* filepath.SkipDir *)
| PathError : string -> string -> fserror. (* *fs.PathError: operation, path *)

Definition ErrStat (path : string) : fserror := PathError "stat" path.
Definition ErrLstat (path : string) : fserror := PathError "lstat" path.
Definition ErrReadDir (path : string) : fserror := PathError "open" path.
Definition ErrReadFile (op path : string) : fserror := PathError op path.

Definition is_SkipDir (e : fserror) : bool :=
  match e with
  | SkipDir => true
  | _ => false
  end.

(** [filepath.Join(path, name)] for an entry name and a [path] that
    [filepath.Clean] leaves as it is: the path, the separator and the
    name.  (On another path Go also cleans the result, which changes
    how the path is written, not what it names.) *)
Definition Join (path name : string) : string := path ++ "/" ++ name.

(** [os.ReadFile] on a path where [n] was found.  The callers read
    files only; a directory cannot be read, and a path that cannot be
    examined cannot be opened. *)
Definition ReadFile (path : string) (n : node) : string + fserror :=
  match n with
  | File (inl data) => inl data
  | File (inr op) => inr (ErrReadFile op path)
  | Dir _ _ => inr (ErrReadFile "read" path)
  | Broken => inr (ErrReadFile "open" path)
  end.

Section Walk.

(** The state the callback closes over. *)
Variable St : Type.

(** [walkFn(path, info, err)]; the node stands for [info] (nil together
    with a non-nil [err] when [Lstat] failed) and for the file at [path]. *)
Variable walkFn : string -> node -> option fserror -> St -> St * option fserror.

(** The loop of [filepath.walk] over the entries of a directory.  An
    entry whose [Lstat] fails is passed to the callback with that
    error, and the loop goes on when the callback returns nil or
    [SkipDir].  [SkipDir] from the walk of a directory entry skips that
    directory only; any other error, and [SkipDir] from a file, ends
    the loop. *)
Fixpoint walkEntries (walk : string -> node -> St -> St * option fserror)
    (path : string) (names : list (string * node)) (st : St) {struct names}
  : St * option fserror :=
  match names with
  | [] => (st, None)
  | (name, child) :: rest =>
      let filename := Join path name in
      match child with
      | Broken =>
          let '(st', e) := walkFn filename Broken (Some (ErrLstat filename)) st in
          match e with
          | Some e' => if is_SkipDir e' then walkEntries walk path rest st' else (st', Some e')
          | None => walkEntries walk path rest st'
          end
      | _ =>
          let '(st', e) := walk filename child st in
          match e with
          | Some e' =>
              if negb (IsDir child) || negb (is_SkipDir e')
              then (st', Some e')
              else walkEntries walk path rest st'
          | None => walkEntries walk path rest st'
          end
      end
  end.

(** [filepath.walk]: a file is passed to the callback; a directory is
    listed first, then passed to the callback with the error of the
    listing, and its entries are walked when both went well. *)
Fixpoint walk (path : string) (info : node) (st : St) {struct info}
  : St * option fserror :=
  match info with
  | Dir listable entries =>
      let err := if listable then None else Some (ErrReadDir path) in
      let '(st1, err1) := walkFn path info err st in
      match err, err1 with
      | None, None => walkEntries walk path entries st1
      | _, _ => (st1, err1)
      end
  | _ => walkFn path info None st
  end.

(** [filepath.Walk(root, fn)]. *)
Definition Walk (root : string) (info : node) (st : St) : St * option fserror :=
  let '(st', err) :=
    match info with
    | Broken => walkFn root Broken (Some (ErrLstat root)) st
    | _ => walk root info st
    end in
  match err with
  | Some SkipDir => (st', None)
  | _ => (st', err)
  end.

End Walk.

(** [filepath.Ext]: the suffix of the path from the last dot of its last
    element, empty when that element has no dot.  [scan] reads the path
    from its end, [acc] being the bytes already passed. *)
Fixpoint ext_scan (rev_path : list ascii) (acc : string) : string :=
  match rev_path with
  | [] => EmptyString
  | c :: before =>
      if Ascii.eqb c "/"%char then EmptyString
      else if Ascii.eqb c "."%char then String c acc
      else ext_scan before (String c acc)
  end.

Definition Ext (path : string) : string :=
  ext_scan (rev (list_ascii_of_string path)) EmptyString.

(** [filepath.Base] for Unix paths. *)
Fixpoint strip_trailing_slashes (rev_path : list ascii) : list ascii :=
  match rev_path with
  | c :: before => if Ascii.eqb c "/"%char then strip_trailing_slashes before else rev_path
  | [] => []
  end.

Fixpoint last_element (rev_path : list ascii) (acc : string) : string :=
  match rev_path with
  | [] => acc
  | c :: before => if Ascii.eqb c "/"%char then acc else last_element before (String c acc)
  end.

Definition Base (path : string) : string :=
  match path with
  | EmptyString => "."
  | _ =>
      match strip_trailing_slashes (rev (list_ascii_of_string path)) with
      | [] => "/"
      | stripped => last_element stripped EmptyString
      end
  end.

End GoFS.

(* ================================================================== *)
(** ** Package [encoding/base64] *)
(* ================================================================== *)

Module GoBase64.

Definition alphabet (n : N) : ascii :=
  if (n <? 26)%N then ascii_of_N (65 + n)
  else if (n <? 52)%N then ascii_of_N (97 + (n - 26))
  else if (n <? 62)%N then ascii_of_N (48 + (n - 52))
  else if (n =? 62)%N then "+"%char
  else "/"%char.

Definition pad : ascii := "="%char.

(** [base64.StdEncoding.EncodeToString]. *)
Fixpoint EncodeToString (src : string) : string :=
  match src with
  | EmptyString => EmptyString
  | String a EmptyString =>
      let x := N_of_ascii a in
      String (alphabet (x / 4))
        (String (alphabet ((x mod 4) * 16)) (String pad (String pad EmptyString)))
  | String a (String b EmptyString) =>
      let x := N_of_ascii a in
      let y := N_of_ascii b in
      String (alphabet (x / 4))
        (String (alphabet ((x mod 4) * 16 + y / 16))
           (String (alphabet ((y mod 16) * 4)) (String pad EmptyString)))
  | String a (String b (String c rest)) =>
      let x := N_of_ascii a in
      let y := N_of_ascii b in
      let z := N_of_ascii c in
      String (alphabet (x / 4))
        (String (alphabet ((x mod 4) * 16 + y / 16))
           (String (alphabet ((y mod 16) * 4 + z / 64))
              (String (alphabet (z mod 64)) (EncodeToString rest))))
  end.

End GoBase64.

(* ================================================================== *)
(** ** Errors, the log, HTTP and the process state *)
(* ================================================================== *)

Module Runtime.

Inductive fmtarg : Type :=
| FStr : string -> fmtarg
| FInt : Z -> fmtarg.

(** The [error] values of the program.  The last constructors are the
    MeshKit errors of [pkg/snapshot/errors], each wrapping its cause. *)
Inductive error : Type :=
| FSError : GoFS.fserror -> error
| URLError : string -> error                 (* http.NewRequest: the URL does not parse *)
| TransportError : string -> error           (* client.Do: connection, timeout *)
| BodyReadError : string -> error            (* io.ReadAll *)
| JSONError : error                          (* json.Unmarshal *)
| Errorf : string -> list fmtarg -> error    (* fmt.Errorf *)
| ErrDecodingAPI : error -> error
| ErrHTTPPostRequest : error -> error
| ErrCreatingMesheryDesign : error -> error
| ErrInvalidEmailFormat : string -> error
| ErrGeneratingSnapshot : error -> error
| ErrReadingManifestFile : error -> error.

Inductive level : Type := LDebug | LInfo | LWarn | LError.

Inductive logarg : Type :=
| AStr : string -> logarg
| AInt : Z -> logarg
| AErr : error -> logarg.

Record Request : Type := mkRequest {
  Method : string;
  URL : string;
  Header : list (string * string);
  (** the JSON document [json.Marshal] wrote, as its tree *)
  Payload : GoJson.value
}.

(** [http.Client]: the timeout in seconds and whether a cookie jar is set. *)
Record Client : Type := mkClient {
  Timeout : nat;
  Jar : bool
}.

Record Response : Type := mkResponse {
  Status : string;
  StatusCode : Z;
  (** what [io.ReadAll(resp.Body)] returns: the bytes read, and the
      error that stopped the reading, if any *)
  Body : string * option error
}.

(** What the program does to the outside, in order. *)
Inductive event : Type :=
| EvLog : level -> string -> list logarg -> event
| EvHTTP : Client -> Request -> event.

Definition is_http (e : event) : bool :=
  match e with
  | EvHTTP _ _ => true
  | EvLog _ _ _ => false
  end.

(** The outbound HTTP calls of a trace. *)
Definition http_calls (t : list event) : list event := filter is_http t.

Record MesheryConfig : Type := mkMesheryConfig {
  ConfigURL : string;
  SnapshotEndpoint : string
}.

(** The package-level variables the functions read, and the outside
    world they call: the clock, the file system, URL parsing and the
    network. *)
Record World : Type := mkWorld {
  ProviderToken : string;
  MesheryAPIBaseURL : string;
  Config : option MesheryConfig;       (* nil, or Config.Meshery *)
  manifestPath : string;
  repoOwner : string;
  repoName : string;
  workflowID : string;
  now : GoTime.Time;                   (* time.Now() *)
  fs : string -> GoFS.node;            (* os.Lstat, of filepath.Walk *)
  stat : string -> GoFS.node;          (* os.Stat, which follows links *)
  url_parses : string -> bool;         (* http.NewRequest accepts the URL *)
  transport : Client -> Request -> Response + error  (* client.Do *)
}.

(** A Go call returns or panics. *)
Inductive outcome (A : Type) : Type :=
| Returns : A -> outcome A
| Panics : string -> outcome A.

Arguments Returns {A} _.
Arguments Panics {A} _.

(** A computation: the events it emits and how it ends. *)
Definition M (A : Type) : Type := list event * outcome A.

Definition ret {A : Type} (a : A) : M A := ([], Returns a).

Definition bind {A B : Type} (m : M A) (k : A -> M B) : M B :=
  match m with
  | (t, Returns a) => let '(t', o) := k a in ((t ++ t')%list, o)
  | (t, Panics msg) => (t, Panics msg)
  end.

Definition panic {A : Type} (msg : string) : M A := ([], Panics msg).

Definition log (l : level) (format : string) (args : list logarg) : M unit :=
  ([EvLog l format args], Returns tt).

Definition trace {A : Type} (m : M A) : list event := fst m.
Definition result {A : Type} (m : M A) : outcome A := snd m.

(** [req.Header.Set(key, value)]. *)
Definition SetHeader (req : Request) (key value : string) : Request :=
  mkRequest (Method req) (URL req)
    ((key, value) :: filter (fun kv => negb (String.eqb (fst kv) key)) (Header req))
    (Payload req).

(** [http.NewRequest(method, url, body)]. *)
Definition NewRequest (w : World) (method url : string) (payload : GoJson.value)
  : Request + error :=
  if url_parses w url
  then inl (mkRequest method url [] payload)
  else inr (URLError url).

(** [client.Do(req)]: one outbound call. *)
Definition Do (w : World) (client : Client) (req : Request) : M (Response + error) :=
  ([EvHTTP client req], Returns (transport w client req)).

End Runtime.

Declare Scope go_scope.
Delimit Scope go_scope with go.
Notation "x <- m ;; k" := (Runtime.bind m (fun x => k))
  (at level 61, m at next level, right associativity) : go_scope.
Notation "m ;;; k" := (Runtime.bind m (fun _ => k))
  (at level 61, right associativity) : go_scope.

(* ================================================================== *)
(** ** Package [kanvas_snapshot]: what both variants share *)
(* ================================================================== *)

Module Kanvas.

Import GoStrings GoFS GoRegexp Runtime.
Local Open Scope go_scope.

Definition one (c : ascii) : ascii * ascii := (c, c).

Definition local_class : list (ascii * ascii) :=
  [("a"%char, "z"%char); ("0"%char, "9"%char);
   one "."%char; one "_"%char; one "%"%char; one "+"%char; one "-"%char].

Definition domain_class : list (ascii * ascii) :=
  [("a"%char, "z"%char); ("0"%char, "9"%char); one "."%char; one "-"%char].

Definition lower_class : list (ascii * ascii) := [("a"%char, "z"%char)].

(** [regexp.MustCompile(`^[a-z0-9._%+\-]+@[a-z0-9.\-]+\.[a-z]{2,}$`)]. *)
Definition emailRegex : Regexp :=
  mkRegexp true
    (Cat (Plus (Class local_class))
       (Cat (Lit "@"%char)
          (Cat (Plus (Class domain_class))
             (Cat (Lit "."%char) (AtLeast 2 (Class lower_class))))))
    true.

(** [isValidEmail]. *)
Definition isValidEmail (email : string) : bool := MatchString emailRegex email.

(** The test of the callback on a file: the lower-cased path ends in
    [.yaml] or in [.yml]. *)
Definition isYAMLPath (path : string) : bool :=
  HasSuffix (ToLower path) ".yaml" || HasSuffix (ToLower path) ".yml".

(** What the callback of [processDirectory] closes over: [manifests],
    and the lines it has logged. *)
Definition walk_state : Type := (list string * list event)%type.

(** The callback [walkFn] of [processDirectory]. *)
Definition walkFn (dirPath : string) (recursive : bool)
    (path : string) (info : node) (err : option fserror) (st : walk_state)
  : walk_state * option fserror :=
  match err with
  | Some e => (st, Some e)
  | None =>
      if IsDir info then
        if negb (String.eqb path dirPath) && negb recursive
        then (st, Some SkipDir)
        else (st, None)
      else if isYAMLPath path then
        match ReadFile path info with
        | inr e => (st, Some e)
        | inl content =>
            ((fst st ++ [content],
              snd st ++ [EvLog LInfo "Added manifest file: %s" [AStr path]])%list,
             None)
        end
      else (st, None)
  end.

(** [processDirectory]: the manifests gathered and the error of the walk
    (both are returned, also when the walk failed). *)
Definition processDirectory (w : World) (dirPath : string) (recursive : bool)
  : M (list string * option fserror) :=
  let '((manifests, logged), err) :=
    Walk walk_state (walkFn dirPath recursive) dirPath (fs w dirPath) ([], []) in
  (logged, Returns (manifests, err)).

(** [getManifestContents].  [os.Stat] decides between the directory and
    the single file; the walk of [processDirectory] examines the same
    path with [os.Lstat]. *)
Definition getManifestContents (w : World) (path : string) (recursive : bool)
  : M (list string * option error) :=
  match stat w path with
  | Broken => ret ([], Some (ErrReadingManifestFile (FSError (ErrStat path))))
  | fileInfo =>
      if IsDir fileInfo then
        r <- processDirectory w path recursive ;;
        match snd r with
        | Some e => ret ([], Some (ErrReadingManifestFile (FSError e)))
        | None =>
            if (List.length (fst r) =? 0)%nat
            then ret ([], Some (ErrReadingManifestFile
                                  (Errorf "no YAML files found in the specified directory" [])))
            else ret (fst r, None)
        end
      else
        match ReadFile path fileInfo with
        | inr e => ret ([], Some (ErrReadingManifestFile (FSError e)))
        | inl content => ret ([content], None)
        end
  end.

(** [ExtractNameFromPath]. *)
Definition ExtractNameFromPath (path : string) : string :=
  let filename := Base path in
  TrimSuffix filename (Ext filename).

(** [trimString]. *)
Definition trimString (s : string) (maxLen : nat) : string :=
  if (String.length s <=? maxLen)%nat then s else take maxLen s ++ "...".

(** The two HTML markers of an authentication redirect. *)
Definition looksLikeHTML (body : string) : bool :=
  Contains body "<!DOCTYPE html>" || Contains body "<html".

(** The endpoint of the submission: the configured one when there is a
    configuration and its endpoint is not empty. *)
Definition endpointOr (w : World) (default : string) : string :=
  match Config w with
  | Some c => if String.eqb (SnapshotEndpoint c) "" then default else SnapshotEndpoint c
  | None => default
  end.

(** Lines 256-294 of [CreateMesheryDesign] (249-284 in the strict copy),
    the same in both variants: [designID] as the probes leave it.

    The object branch.  The second probe asserts
    [responseData["pattern_file"].(map[string]interface{})] in the
    one-valued form, which panics unless the value is a map. *)
Definition probeObject (responseData : list (string * GoJson.value)) : M string :=
  let '(id, ok) := GoJson.assert_string (GoJson.index responseData "id") in
  if ok then
    log LInfo "Successfully created Meshery design. ID: %s" [AStr id] ;;; ret id
  else
    match GoJson.index responseData "pattern_file" with
    | GoJson.JObject pattern_file =>
        let '(id, ok) := GoJson.assert_string (GoJson.index pattern_file "id") in
        if ok then
          log LInfo "Successfully created Meshery design. ID: %s" [AStr id] ;;; ret id
        else
          let '(id, ok) := GoJson.assert_string (GoJson.index responseData "pattern_id") in
          if ok then
            log LInfo "Successfully created Meshery design. ID: %s" [AStr id] ;;; ret id
          else ret EmptyString
    | other =>
        panic ("interface conversion: interface {} is " ++ GoJson.type_name other
               ++ ", not map[string]interface {}")
    end.

(** The array branch: the [id] of the first element when it is an object. *)
Definition probeArray (responseArray : list GoJson.value) : M string :=
  match responseArray with
  | GoJson.JObject firstItem :: _ =>
      let '(id, ok) := GoJson.assert_string (GoJson.index firstItem "id") in
      if ok then
        log LInfo "Successfully created Meshery design. ID: %s" [AStr id] ;;; ret id
      else ret EmptyString
  | _ => ret EmptyString
  end.

(** A flag of the repository, or its default with the line logged. *)
Definition orDefault (value default what : string) : M string :=
  if String.eqb value "" then
    log LInfo ("No " ++ what ++ " specified, using default: %s") [AStr default] ;;;
    ret default
  else ret value.

Definition StatusOK : Z := 200.
Definition StatusCreated : Z := 201.
Definition StatusNoContent : Z := 204.

(** The dispatch of [GenerateSnapshot], the same in both variants: from
    the defaults of the repository to the reading of the status.
    [json.Marshal] of a map of strings does not fail, so its error branch
    is left out. *)
Definition dispatchWorkflow (w : World) (designID assetLocation token : string)
  : M (option error) :=
  repoOwnerValue <- orDefault (repoOwner w) "layer5labs" "repository owner" ;;
  repoNameValue <- orDefault (repoName w) "kubectl-kanvas-snapshot" "repository name" ;;
  workflowIDValue <- orDefault (workflowID w) "kanvas.yaml" "workflow ID" ;;
  assetLocation <-
    (if String.eqb assetLocation "" then
       let location :=
         "https://raw.githubusercontent.com/layer5labs/meshery-extensions-packages/master/action-assets/kubectl-plugin-assets/"
         ++ designID ++ ".png" in
       log LInfo "Using default asset location: %s" [AStr location] ;;; ret location
     else ret assetLocation) ;;
  log LInfo "Triggering GitHub workflow to generate snapshot..." [] ;;;
  let apiURL :=
    "https://api.github.com/repos/" ++ repoOwnerValue ++ "/" ++ repoNameValue
    ++ "/actions/workflows/" ++ workflowIDValue ++ "/dispatches" in
  let payload :=
    GoJson.JObject
      [("inputs", GoJson.JObject [("assetLocation", GoJson.JString assetLocation);
                                  ("designID", GoJson.JString designID)]);
       ("ref", GoJson.JString "master")] in
  match NewRequest w "POST" apiURL payload with
  | inr err =>
      log LError "Failed to create request: %v" [AErr err] ;;;
      ret (Some (ErrGeneratingSnapshot err))
  | inl req =>
      let req := SetHeader req "Accept" "application/vnd.github.v3+json" in
      let req := SetHeader req "Authorization" ("token " ++ token) in
      let req := SetHeader req "Content-Type" "application/json" in
      let client := mkClient 30 false in
      resp <- Do w client req ;;
      match resp with
      | inr err =>
          log LError "Failed to trigger workflow: %v" [AErr err] ;;;
          ret (Some (ErrGeneratingSnapshot err))
      | inl resp =>
          if negb (StatusCode resp =? StatusNoContent)%Z
             && negb (StatusCode resp =? StatusOK)%Z
          then
            let body := fst (Body resp) in
            log LError "Workflow trigger failed with status %d: %s"
                [AInt (StatusCode resp); AStr body] ;;;
            ret (Some (ErrGeneratingSnapshot
                         (Errorf "workflow trigger failed with status %d: %s"
                                 [FInt (StatusCode resp); FStr body])))
          else
            log LInfo "Workflow triggered successfully!" [] ;;;
            log LInfo "Your design snapshot will be available at: %s" [AStr assetLocation] ;;;
            log LInfo "This process may take a few minutes to complete..." [] ;;;
            ret None
      end
  end.

End Kanvas.

(* ================================================================== *)
(** ** The lenient variant: [cmd/kanvas-snapshot/cmd.go] *)
(* ================================================================== *)

Module Lenient.

Import GoStrings Runtime Kanvas.
Local Open Scope go_scope.

Section Program.

Variable w : World.

(** [generateDummyID]; the clock is read once. *)
Definition generateDummyID (name : string) : string :=
  let timestamp := GoTime.Format20060102150405 (now w) in
  let safeName := ReplaceAll name " " "-" in
  let safeName := if String.eqb safeName "" then "design" else safeName in
  "offline-mode-" ++ safeName ++ "-" ++ timestamp.

(** [getDesignViewURL]. *)
Definition getDesignViewURL (designID : string) : string :=
  TrimSuffix (MesheryAPIBaseURL w) "/api" ++ "/extension/meshmap/design/" ++ designID.

(** [CreateMesheryDesign].  [json.Marshal] of the payload, a struct of
    strings and a boolean, does not fail; its error branch is left out. *)
Definition CreateMesheryDesign (manifest name email : string)
  : M (string * option error) :=
  let payload :=
    GoJson.JObject
      [("save", GoJson.JBool true);
       ("manifest", GoJson.JString manifest);
       ("name", GoJson.JString name);
       ("email", GoJson.JString email);
       ("pattern_source_type", GoJson.JString "Kubernetes Manifest")] in
  let endpoint := endpointOr w "/api/pattern/import" in
  let fullURL := MesheryAPIBaseURL w ++ endpoint in
  log LInfo "Sending request to: %s" [AStr fullURL] ;;;
  match NewRequest w "POST" fullURL payload with
  | inr err =>
      log LError "Failed to create new request: %v" [AErr err] ;;;
      ret (EmptyString, Some (ErrHTTPPostRequest err))
  | inl req =>
      let req := SetHeader req "Content-Type" "application/json" in
      req <-
        (if negb (String.eqb (ProviderToken w) "") then
           log LInfo "Using Meshery token for authentication" [] ;;;
           ret (SetHeader req "Cookie"
                  ("token=" ++ ProviderToken w ++ ";meshery-provider=Meshery"))
         else
           log LWarn "No Meshery token provided, authentication will likely fail" [] ;;;
           ret req) ;;
      let client := mkClient 30 true in
      resp <- Do w client req ;;
      match resp with
      | inr err =>
          log LError "HTTP request failed: %v" [AErr err] ;;;
          log LInfo "Using offline mode with dummy design ID" [] ;;;
          let dummyID := generateDummyID name in
          log LInfo "Created design with dummy ID: %s (offline mode)" [AStr dummyID] ;;;
          log LInfo "To use online mode, set the MESHERY_TOKEN environment variable with a valid token" [] ;;;
          ret (dummyID, None)
      | inl resp =>
          match Body resp with
          | (_, Some err) =>
              log LError "Failed to read response body: %v" [AErr err] ;;;
              ret (EmptyString, Some (ErrHTTPPostRequest err))
          | (body, None) =>
              log LInfo "Response status: %s" [AStr (Status resp)] ;;;
              log LDebug "Response body: %s" [AStr body] ;;;
              if looksLikeHTML body then
                log LWarn "Received HTML response instead of JSON - authentication failed" [] ;;;
                log LInfo "Using offline mode with dummy design ID" [] ;;;
                let dummyID := generateDummyID name in
                log LInfo "Created design with dummy ID: %s (offline mode)" [AStr dummyID] ;;;
                log LInfo "To use online mode, please set a valid MESHERY_TOKEN environment variable" [] ;;;
                log LInfo "You can obtain a token from Meshery Cloud or your local Meshery instance" [] ;;;
                ret (dummyID, None)
              else if negb (StatusCode resp =? StatusOK)%Z
                      && negb (StatusCode resp =? StatusCreated)%Z then
                log LWarn "Unexpected response code: %d" [AInt (StatusCode resp)] ;;;
                log LInfo "Using offline mode with dummy design ID" [] ;;;
                let dummyID := generateDummyID name in
                log LInfo "Created design with dummy ID: %s (offline mode)" [AStr dummyID] ;;;
                ret (dummyID, None)
              else
                match GoJson.Unmarshal_map body with
                | None =>
                    match GoJson.Unmarshal_slice body with
                    | None =>
                        log LError "Failed to parse response JSON: %v" [AErr JSONError] ;;;
                        log LInfo "Using offline mode with dummy design ID" [] ;;;
                        let dummyID := generateDummyID name in
                        log LInfo "Created design with dummy ID: %s (offline mode)" [AStr dummyID] ;;;
                        ret (dummyID, None)
                    | Some responseArray =>
                        designID <- probeArray responseArray ;;
                        if String.eqb designID "" then
                          log LWarn "Could not extract design ID from response: %s"
                              [AStr (trimString body 200)] ;;;
                          let dummyID := generateDummyID name in
                          log LInfo "Using dummy ID: %s" [AStr dummyID] ;;;
                          ret (dummyID, None)
                        else ret (designID, None)
                    end
                | Some responseData =>
                    designID <- probeObject responseData ;;
                    if String.eqb designID "" then
                      log LWarn "Could not extract design ID from response: %s"
                          [AStr (trimString body 200)] ;;;
                      let dummyID := generateDummyID name in
                      log LInfo "Using dummy ID: %s" [AStr dummyID] ;;;
                      ret (dummyID, None)
                    else ret (designID, None)
                end
          end
      end
  end.

(** [GenerateSnapshot]. *)
Definition GenerateSnapshot (designID assetLocation token : string) : M (option error) :=
  if HasPrefix designID "offline-mode-" then
    log LWarn "Using offline mode - cannot trigger workflow for an offline design" [] ;;;
    log LInfo "To use workflow features, you need to:" [] ;;;
    log LInfo "1. Set a valid MESHERY_TOKEN environment variable" [] ;;;
    log LInfo "2. Set a valid GITHUB_TOKEN environment variable" [] ;;;
    let mesheryViewURL := getDesignViewURL designID in
    log LInfo "Your design would be available at: %s (when using a valid token)"
        [AStr mesheryViewURL] ;;;
    ret None
  else if String.eqb token "" then
    log LWarn "GITHUB_TOKEN environment variable not set. Snapshot generation will be skipped." [] ;;;
    log LInfo "Please set GITHUB_TOKEN environment variable to trigger GitHub workflow." [] ;;;
    ret None
  else
    let mesheryViewURL := getDesignViewURL designID in
    log LInfo "View your design in Meshery: %s" [AStr mesheryViewURL] ;;;
    dispatchWorkflow w designID assetLocation token.

End Program.

End Lenient.

(* ================================================================== *)
(** ** The strict variant: the second copy of the package *)
(* ================================================================== *)

Module Strict.

Import GoStrings Runtime Kanvas.
Local Open Scope go_scope.

Section Program.

Variable w : World.

(** [getDesignViewURL]. *)
Definition getDesignViewURL (designID : string) : string :=
  TrimSuffix (MesheryAPIBaseURL w) "/api" ++ "/extension/meshmap?mode=design&design="
  ++ designID.

(** [CreateMesheryDesign]; the payload leaves [email] out when it is
    empty ([omitempty]). *)
Definition CreateMesheryDesign (manifest name email : string)
  : M (string * option error) :=
  let fileName := GoFS.Base (manifestPath w) in
  let encodedManifest := GoBase64.EncodeToString manifest in
  let payload :=
    GoJson.JObject
      ([("name", GoJson.JString name);
        ("file", GoJson.JString encodedManifest);
        ("file_name", GoJson.JString fileName)]
       ++ (if String.eqb email "" then [] else [("email", GoJson.JString email)])
       ++ [("source_type", GoJson.JString "Kubernetes Manifest")])%list in
  let endpoint := endpointOr w "/api/pattern/import" in
  let fullURL := MesheryAPIBaseURL w ++ endpoint in
  log LInfo "Sending request to: %s" [AStr fullURL] ;;;
  match NewRequest w "POST" fullURL payload with
  | inr err =>
      log LError "Failed to create new request: %v" [AErr err] ;;;
      ret (EmptyString, Some (ErrHTTPPostRequest err))
  | inl req =>
      let req := SetHeader req "Content-Type" "application/json" in
      req <-
        (if negb (String.eqb (ProviderToken w) "") then
           log LInfo "Using Meshery token for authentication" [] ;;;
           ret (SetHeader req "Cookie"
                  ("token=" ++ ProviderToken w ++ ";meshery-provider=Meshery"))
         else
           log LWarn "No Meshery token provided, authentication will likely fail" [] ;;;
           ret req) ;;
      let client := mkClient 30 true in
      resp <- Do w client req ;;
      match resp with
      | inr err =>
          log LError "HTTP request failed: %v" [AErr err] ;;;
          ret (EmptyString, Some (ErrHTTPPostRequest err))
      | inl resp =>
          match Body resp with
          | (_, Some err) =>
              log LError "Failed to read response body: %v" [AErr err] ;;;
              ret (EmptyString, Some (ErrHTTPPostRequest err))
          | (body, None) =>
              log LInfo "Response status: %s" [AStr (Status resp)] ;;;
              log LDebug "Response body: %s" [AStr body] ;;;
              if looksLikeHTML body then
                log LWarn "Received HTML response instead of JSON - authentication failed" [] ;;;
                ret (EmptyString,
                     Some (ErrHTTPPostRequest (Errorf "authentication failed" [])))
              else if negb (StatusCode resp =? StatusOK)%Z
                      && negb (StatusCode resp =? StatusCreated)%Z then
                log LWarn "Unexpected response code: %d" [AInt (StatusCode resp)] ;;;
                ret (EmptyString,
                     Some (ErrHTTPPostRequest
                             (Errorf "unexpected response code: %d"
                                     [FInt (StatusCode resp)])))
              else
                match GoJson.Unmarshal_map body with
                | None =>
                    match GoJson.Unmarshal_slice body with
                    | None =>
                        log LError "Failed to parse response JSON: %v" [AErr JSONError] ;;;
                        ret (EmptyString, Some (ErrDecodingAPI JSONError))
                    | Some responseArray =>
                        designID <- probeArray responseArray ;;
                        if String.eqb designID "" then
                          log LWarn "Could not extract design ID from response: %s"
                              [AStr (trimString body 200)] ;;;
                          ret (EmptyString,
                               Some (ErrDecodingAPI
                                       (Errorf "could not extract design ID from response" [])))
                        else ret (designID, None)
                    end
                | Some responseData =>
                    designID <- probeObject responseData ;;
                    if String.eqb designID "" then
                      log LWarn "Could not extract design ID from response: %s"
                          [AStr (trimString body 200)] ;;;
                      ret (EmptyString,
                           Some (ErrDecodingAPI
                                   (Errorf "could not extract design ID from response" [])))
                    else ret (designID, None)
                end
          end
      end
  end.

(** [GenerateSnapshot]: no test of the identifier's prefix here. *)
Definition GenerateSnapshot (designID assetLocation token : string) : M (option error) :=
  if String.eqb token "" then
    log LWarn "GITHUB_TOKEN environment variable not set. Snapshot generation will be skipped." [] ;;;
    log LInfo "Please set GITHUB_TOKEN environment variable to trigger GitHub workflow." [] ;;;
    ret None
  else
    let mesheryViewURL := getDesignViewURL designID in
    log LInfo "View your design in Meshery: %s" [AStr mesheryViewURL] ;;;
    dispatchWorkflow w designID assetLocation token.

End Program.

End Strict.

(* ================================================================== *)
(** ** What the statements below are written with *)
(* ================================================================== *)

Module Spec.

Import GoStrings GoTime GoFS GoRegexp Runtime Kanvas.

(** Every space becomes a hyphen. *)
Fixpoint hyphenate (s : string) : string :=
  match s with
  | EmptyString => EmptyString
  | String c r => String (if Ascii.eqb c " "%char then "-"%char else c) (hyphenate r)
  end.

(** The name as the offline identifier carries it. *)
Definition sanitized (name : string) : string :=
  match name with
  | EmptyString => "design"
  | _ => hyphenate name
  end.



(** The trigger's call went through: the trace holds one outbound call,
    and the network answered it with status 200 or 204. *)
Definition dispatch_succeeds (w : World) (run : M (option error)) : Prop :=
  exists (c : Client) (r : Request) (resp : Response),
    http_calls (trace run) = [EvHTTP c r]
    /\ transport w c r = inl resp
    /\ (StatusCode resp = 200 \/ StatusCode resp = 204)%Z.

(** The trigger succeeds exactly when its call went through, and fails
    with [ErrGeneratingSnapshot] otherwise. *)
Definition trigger_contract (w : World) (run : M (option error)) : Prop :=
  (result run = Returns None <-> dispatch_succeeds w run)
  /\ (result run <> Returns None ->
      exists e, result run = Returns (Some (ErrGeneratingSnapshot e))).

(** The URL the submission posts to. *)
Definition submissionURL (w : World) : string :=
  MesheryAPIBaseURL w ++ endpointOr w "/api/pattern/import".

(** A byte that is neither the dot nor the separator. *)
Definition plain_byte (c : ascii) : bool :=
  negb (Ascii.eqb c "."%char) && negb (Ascii.eqb c "/"%char).

(** The bytes [A]..[Z]. *)
Definition is_upper (c : ascii) : bool :=
  (65 <=? nat_of_ascii c)%nat && (nat_of_ascii c <=? 90)%nat.

Fixpoint has_upper (s : string) : bool :=
  match s with
  | EmptyString => false
  | String c r => is_upper c || has_upper r
  end.

(** The shape the e-mail pattern describes: a local part, [@], a domain,
    a dot and a top-level domain of two lower-case letters or more. *)
Definition email_shape (s : string) : Prop :=
  exists l d t : string,
    s = l ++ "@" ++ d ++ "." ++ t
    /\ l <> EmptyString /\ all_bytes (in_class local_class) l = true
    /\ d <> EmptyString /\ all_bytes (in_class domain_class) d = true
    /\ 2 <= String.length t /\ all_bytes (in_class lower_class) t = true.

(** The extension of a name lower-cases to [.yaml] or [.yml]. *)
Definition hasYAMLExt (name : string) : bool :=
  String.eqb (ToLower (Ext name)) ".yaml" || String.eqb (ToLower (Ext name)) ".yml".

(** The contents of the files of a listing that carry a YAML extension,
    in the order of the listing. *)
Fixpoint rootMatches (entries : list (string * node)) : list string :=
  match entries with
  | [] => []
  | (name, File (inl data)) :: rest =>
      if hasYAMLExt name then data :: rootMatches rest else rootMatches rest
  | _ :: rest => rootMatches rest
  end.

(** The same through the whole tree: a directory contributes, at its
    place in the listing, the matches below it. *)
Fixpoint nodeMatches (name : string) (n : node) : list string :=
  match n with
  | File (inl data) => if hasYAMLExt name then [data] else []
  | File (inr _) => []
  | Dir _ below =>
      (fix through (l : list (string * node)) : list string :=
         match l with
         | [] => []
         | (nm, child) :: rest => (nodeMatches nm child ++ through rest)%list
         end) below
  | Broken => []
  end.

Definition treeMatches (entries : list (string * node)) : list string :=
  flat_map (fun e => nodeMatches (fst e) (snd e)) entries.

(** The entries of the root can be examined: [Lstat] succeeds on each,
    each directory can be listed and each file with a YAML extension can
    be read. *)
Fixpoint root_readable (entries : list (string * node)) : Prop :=
  match entries with
  | [] => True
  | (name, child) :: rest =>
      match child with
      | File (inr _) => hasYAMLExt name = false
      | File (inl _) => True
      | Dir listable _ => listable = true
      | Broken => False
      end /\ root_readable rest
  end.

(** The same through the whole tree. *)
Fixpoint node_readable (name : string) (n : node) : Prop :=
  match n with
  | File (inr _) => hasYAMLExt name = false
  | File (inl _) => True
  | Dir listable below =>
      listable = true
      /\ (fix through (l : list (string * node)) : Prop :=
            match l with
            | [] => True
            | (nm, child) :: rest => node_readable nm child /\ through rest
            end) below
  | Broken => False
  end.

Definition tree_readable (entries : list (string * node)) : Prop :=
  Forall (fun e => node_readable (fst e) (snd e)) entries.

(** What the walk with recursion tells of a node: without an error, the
    node can be examined throughout; and its error is never [SkipDir]. *)
Definition walk_verdict (name : string) (n : node) (r : option fserror) : Prop :=
  match r with
  | None => node_readable name n
  | Some e => is_SkipDir e = false
  end.

(** [l] is [m] with some elements left out. *)
Inductive Subsequence {A : Type} : list A -> list A -> Prop :=
| SubNil : Subsequence [] []
| SubSkip x l m : Subsequence l m -> Subsequence l (x :: m)
| SubKeep x l m : Subsequence l m -> Subsequence (x :: l) (x :: m).

End Spec.

(* ================================================================== *)
(** ** Concrete responses, worlds and directories *)
(* ================================================================== *)

Module Examples.

Import GoJson GoFS Runtime.

(** A JSON string literal without escapes. *)
Definition quoted (s : string) : string :=
  String dquote s ++ String dquote EmptyString.

(** The three response bodies: an [id] at the top, an [id] inside
    [pattern_file], and a [pattern_id] at the top. *)
Definition body_id : string :=
  "{" ++ quoted "id" ++ ": " ++ quoted "abc123" ++ "}".

Definition body_pattern_file : string :=
  "{" ++ quoted "pattern_file" ++ ": {" ++ quoted "id" ++ ": " ++ quoted "abc123" ++ "}}".

Definition body_pattern_id : string :=
  "{" ++ quoted "pattern_id" ++ ": " ++ quoted "abc123" ++ "}".


(** A JSON document with a string [id] that holds an HTML marker. *)
Definition body_json_with_marker : string :=
  "{" ++ quoted "id" ++ ": " ++ quoted "<html>" ++ "}".

(** An error document: an object without any of the three fields. *)
Definition body_error : string :=
  "{" ++ quoted "error" ++ ": " ++ quoted "unauthorized" ++ "}".

Definition noon : GoTime.Time := GoTime.mkTime 2026 11 2 12 0 7 0.

(** A process with a token and no configuration file, at [clock], over
    the directory [root] and the network [net]. *)
Definition world (clock : GoTime.Time) (root : node)
    (net : Client -> Request -> Response + error) : World :=
  mkWorld "token" "http://localhost:9081" None "manifests" "" "" "" clock
    (fun _ => root) (fun _ => root) (fun _ => true) net.

(** Networks: one that answers every call with the same response, and
    one that cannot be reached. *)
Definition answering (code : Z) (body : string) : Client -> Request -> Response + error :=
  fun _ _ => inl (mkResponse "" code (body, None)).

Definition unreachable : Client -> Request -> Response + error :=
  fun _ _ => inr (TransportError "dial tcp: connection refused").

Definition online (code : Z) (body : string) : World :=
  world noon Broken (answering code body).

Definition offline : World := world noon Broken unreachable.

(** A directory with two manifests, a text file, an unreadable file
    that is no manifest, and a subdirectory with a third manifest. *)
Definition manifests_entries : list (string * node) :=
  [("a.yaml", File (inl "kind: Deployment"));
   ("notes.txt", File (inl "notes"));
   ("locked.bin", File (inr "open"));
   ("nested", Dir true [("c.yml", File (inl "kind: ConfigMap"))]);
   ("z.YML", File (inl "kind: Service"))].

Definition manifests_dir : node := Dir true manifests_entries.

Definition on_disk (root : node) : World := world noon root unreachable.

(** A directory without any manifest. *)
Definition notes_dir : node :=
  Dir true [("notes.txt", File (inl "notes")); ("empty", Dir true [])].

(** A directory with one manifest and a subdirectory that cannot be
    listed. *)
Definition guarded_dir : node :=
  Dir true [("a.yaml", File (inl "kind: Deployment")); ("private", Dir false [])].

End Examples.

(* ================================================================== *)
(** ** [DownloadPatternAsImage] of the lenient variant *)
(* ================================================================== *)

Module Download.

Import GoStrings Runtime Kanvas.
Local Open Scope go_scope.

(** The disk as the function writes to it: whether a path can be opened
    for writing ([os.Create], the opening of [os.WriteFile]), and whether
    the write that follows succeeds. *)
Record Disk : Type := mkDisk {
  creates : string -> bool;
  stores : string -> bool
}.

(** The arguments of a placeholder: strings, integers, errors, and the
    clock printed in the layout [time.RFC3339]. *)
Inductive parg : Type :=
| PStr : string -> parg
| PInt : Z -> parg
| PErr : error -> parg
| PTime : GoTime.Time -> parg.

(** What is written to a file: the bytes of a response, or
    [fmt.Sprintf] of a template and its arguments. *)
Inductive content : Type :=
| Bytes : string -> content
| Formatted : string -> list parg -> content.

(** What a run did to the output file: nothing, left it empty (opened
    and truncated, the write failed), or left it with a content. *)
Inductive file_effect : Type :=
| Untouched : file_effect
| Emptied : string -> file_effect
| Holds : string -> content -> file_effect.

(** The errors the function returns:
    [fmt.Errorf("failed to create placeholder file: %v", err)],
    [fmt.Errorf("failed to read response body: %v", err)], and the
    errors of [http.NewRequest], [os.Create] and [out.Write] as they are. *)
Inductive failure : Type :=
| PlaceholderFailed : GoFS.fserror -> failure
| BodyFailed : error -> failure
| Plain : error -> failure.

Definition newline : string := String (ascii_of_nat 10) EmptyString.

Fixpoint unlines (ls : list string) : string :=
  match ls with
  | [] => EmptyString
  | l :: rest => l ++ newline ++ unlines rest
  end.

(** The five placeholder templates share all their lines but the two
    that tell the reason. *)
Definition template (reason1 reason2 : string) : string :=
  unlines
    ["# This is a placeholder file";
     "# ";
     reason1;
     reason2;
     "#";
     "# Design ID: %s";
     "# Created at: %s";
     "#";
     "# For more information, visit: https://meshery.io"].

Definition template_offline : string :=
  template
    "# You're using kubectl-kanvas-snapshot in offline mode because Meshery authentication failed."
    "# To download actual designs, please set the MESHERY_TOKEN environment variable.".

Definition template_no_token : string :=
  template
    "# You're using kubectl-kanvas-snapshot in offline mode because MESHERY_TOKEN is not set."
    "# To download actual designs, please set the MESHERY_TOKEN environment variable.".

Definition template_request_failed : string :=
  template
    "# Download failed with error: %v"
    "# To download actual designs, please check your network connection and Meshery URL.".

Definition template_html : string :=
  template
    "# Authentication failed when trying to download the design."
    "# Please check your MESHERY_TOKEN and try again.".

Definition template_status : string :=
  template
    "# Download failed with status code: %d"
    "# To download actual designs, please check your MESHERY_TOKEN and try again.".

(** [os.WriteFile(name, data, 0644)]. *)
Definition WriteFile (d : Disk) (name : string) (data : content)
  : option GoFS.fserror * file_effect :=
  if creates d name then
    if stores d name then (None, Holds name data)
    else (Some (GoFS.PathError "write" name), Emptied name)
  else (Some (GoFS.PathError "open" name), Untouched).

(** The writing of a placeholder and the two lines that follow it, the
    same in the five branches but for the second line. *)
Definition writePlaceholder (d : Disk) (outputFile : string) (placeholder : content)
    (note : option string) : M (option failure * file_effect) :=
  match WriteFile d outputFile placeholder with
  | (Some err, effect) => ret (Some (PlaceholderFailed err), effect)
  | (None, effect) =>
      log LInfo "Created placeholder file at %s" [AStr outputFile] ;;;
      match note with
      | Some text => log LInfo text [] ;;; ret (None, effect)
      | None => ret (None, effect)
      end
  end.

Section Program.

Variable w : World.
Variable d : Disk.

(** [DownloadPatternAsImage]: the error returned and what became of the
    output file.  The request has no body; its payload is [JNil]. *)
Definition DownloadPatternAsImage (designID outputFile : string)
  : M (option failure * file_effect) :=
  if HasPrefix designID "offline-mode-" then
    log LWarn "Using offline mode - cannot download an offline design" [] ;;;
    log LInfo "To download designs, you need to set a valid MESHERY_TOKEN environment variable" [] ;;;
    writePlaceholder d outputFile
      (Formatted template_offline [PStr designID; PTime (now w)])
      (Some "Note: This is just a placeholder. To download actual designs, authenticate with Meshery.")
  else if String.eqb (ProviderToken w) "" then
    log LWarn "MESHERY_TOKEN environment variable is not set" [] ;;;
    log LInfo "Using offline mode with placeholder file" [] ;;;
    writePlaceholder d outputFile
      (Formatted template_no_token [PStr designID; PTime (now w)])
      (Some "Note: This is just a placeholder. To download actual designs, set the MESHERY_TOKEN environment variable.")
  else
    let url := MesheryAPIBaseURL w ++ "/api/pattern/download/" ++ designID ++ "/kanvas" in
    log LInfo "Downloading pattern from: %s" [AStr url] ;;;
    match NewRequest w "GET" url GoJson.JNil with
    | inr err => ret (Some (Plain err), Untouched)
    | inl req =>
        let req := SetHeader req "Cookie"
                     ("token=" ++ ProviderToken w ++ ";meshery-provider=Meshery") in
        let client := mkClient 30 false in
        resp <- Do w client req ;;
        match resp with
        | inr err =>
            log LError "Download request failed: %v" [AErr err] ;;;
            log LInfo "Using offline mode with placeholder file" [] ;;;
            writePlaceholder d outputFile
              (Formatted template_request_failed [PErr err; PStr designID; PTime (now w)])
              None
        | inl resp =>
            match Body resp with
            | (_, Some err) => ret (Some (BodyFailed err), Untouched)
            | (bodyBytes, None) =>
                if looksLikeHTML bodyBytes then
                  log LWarn "Received HTML response instead of design data - authentication failed" [] ;;;
                  log LInfo "Using offline mode with placeholder file" [] ;;;
                  writePlaceholder d outputFile
                    (Formatted template_html [PStr designID; PTime (now w)])
                    None
                else if negb (StatusCode resp =? StatusOK)%Z then
                  log LWarn "Failed to download pattern: status %d" [AInt (StatusCode resp)] ;;;
                  log LInfo "Using offline mode with placeholder file" [] ;;;
                  writePlaceholder d outputFile
                    (Formatted template_status
                       [PInt (StatusCode resp); PStr designID; PTime (now w)])
                    None
                else if negb (creates d outputFile) then
                  ret (Some (Plain (FSError (GoFS.PathError "open" outputFile))), Untouched)
                else if negb (stores d outputFile) then
                  ret (Some (Plain (FSError (GoFS.PathError "write" outputFile))),
                       Emptied outputFile)
                else
                  log LInfo "Pattern downloaded successfully to %s" [AStr outputFile] ;;;
                  log LInfo "Note: This is the pattern data in YAML format. To view as an image, please use the Meshery UI link." [] ;;;
                  ret (None, Holds outputFile (Bytes bodyBytes))
            end
        end
    end.

End Program.

End Download.

(* ================================================================== *)
(** ** The command: [kanvasSnapshotRunE] *)
(* ================================================================== *)

Module Command.

Import GoStrings Runtime Kanvas.

(** The flags and variables of the command that [World] does not hold. *)
Record Flags : Type := mkFlags {
  email : string;
  designName : string;
  recursive : bool;
  skipWorkflow : bool;
  downloadPattern : bool;
  outputFile : string;
  WorkflowAccessToken : string
}.

Definition defaultMesheryURL : string := "https://playground.meshery.io".

(** [MesheryAPIBaseURL = url]. *)
Definition setBaseURL (w : World) (url : string) : World :=
  mkWorld (ProviderToken w) url (Config w) (manifestPath w)
    (repoOwner w) (repoName w) (workflowID w) (now w) (fs w) (stat w) (url_parses w)
    (transport w).

(** [repoOwner], [repoName] and [workflowID] assigned. *)
Definition setRepository (w : World) (owner name workflow : string) : World :=
  mkWorld (ProviderToken w) (MesheryAPIBaseURL w) (Config w) (manifestPath w)
    owner name workflow (now w) (fs w) (stat w) (url_parses w) (transport w).

Definition setDesignName (f : Flags) (name : string) : Flags :=
  mkFlags (email f) name (recursive f) (skipWorkflow f) (downloadPattern f)
    (outputFile f) (WorkflowAccessToken f).

(** The separator of the combined manifest: a line of three hyphens. *)
Definition separator : string :=
  Download.newline ++ "---" ++ Download.newline.

(** What a run of the lenient command returns: an error of the package,
    or the error of the download as it is. *)
Inductive run_error : Type :=
| Err : error -> run_error
| DownloadErr : Download.failure -> run_error.

Definition orElse (value default : string) : string :=
  if String.eqb value "" then default else value.

End Command.

Module LenientCommand.

Import GoStrings Runtime Kanvas Command.
Local Open Scope go_scope.

Definition apiEndpoint : string := "/api/pattern/kanvas".

(** The opening of [kanvasSnapshotRunE], up to the check of the e-mail:
    the warnings, the defaults of the URL and of the design name.  It
    returns the variables as it leaves them. *)
Definition prepare (w : World) (f : Flags) : M (World * Flags) :=
  (if String.eqb (ProviderToken w) "" then
     log LWarn "MESHERY_TOKEN environment variable not set. Working in offline mode." [] ;;;
     log LInfo "Please set the MESHERY_TOKEN environment variable to use online features." [] ;;;
     log LInfo "You can obtain a token from your Meshery or Meshery Cloud profile." []
   else ret tt) ;;;
  w <- (if String.eqb (MesheryAPIBaseURL w) "" then
          log LWarn "Meshery API URL not set. Using default: http://localhost:9081" [] ;;;
          ret (setBaseURL w defaultMesheryURL)
        else ret w) ;;
  let endpoint := endpointOr w apiEndpoint in
  log LInfo "Using Meshery API URL: %s" [AStr (MesheryAPIBaseURL w)] ;;;
  log LInfo "Using API endpoint: %s" [AStr endpoint] ;;;
  f <- (if String.eqb (designName f) "" then
          let name := ExtractNameFromPath (manifestPath w) in
          log LWarn "No design name provided. Using extracted name: %s" [AStr name] ;;;
          ret (setDesignName f name)
        else ret f) ;;
  ret (w, f).

(** [kanvasSnapshotRunE]: the error returned, what became of the output
    file, and the variables as the run leaves them. *)
Definition kanvasSnapshotRunE (disk : Download.Disk) (w : World) (f : Flags)
  : M (option run_error * Download.file_effect * (World * Flags)) :=
  wf <- prepare w f ;;
  let w := fst wf in
  let f := snd wf in
  if negb (String.eqb (email f) "") && negb (isValidEmail (email f)) then
    ret (Some (Err (ErrInvalidEmailFormat (email f))), Download.Untouched, (w, f))
  else
    log LInfo "Processing manifest files..." [] ;;;
    read <- getManifestContents w (manifestPath w) (recursive f) ;;
    match snd read with
    | Some err => ret (Some (Err err), Download.Untouched, (w, f))
    | None =>
        let manifests := fst read in
        log LInfo "Processed %d manifest file(s)" [AInt (Z.of_nat (List.length manifests))] ;;;
        let combinedManifest := Join manifests separator in
        log LInfo "Creating Meshery design..." [] ;;;
        created <- Lenient.CreateMesheryDesign w combinedManifest (designName f) (email f) ;;
        match snd created with
        | Some err =>
            log LError "Failed to create Meshery design: %v" [AErr err] ;;;
            ret (Some (Err (ErrCreatingMesheryDesign err)), Download.Untouched, (w, f))
        | None =>
            let designID := fst created in
            let mesheryViewURL := Lenient.getDesignViewURL w designID in
            log LInfo "View your design in Meshery: %s" [AStr mesheryViewURL] ;;;
            if downloadPattern f then
              log LInfo "Downloading pattern directly..." [] ;;;
              got <- Download.DownloadPatternAsImage w disk designID (outputFile f) ;;
              match fst got with
              | Some err =>
                  (* the argument of the line, the error returned, is not
                     an [error] of the package and stays out of the line *)
                  log LError "Failed to download pattern: %v" [] ;;;
                  ret (Some (DownloadErr err), snd got, (w, f))
              | None => ret (None, snd got, (w, f))
              end
            else if skipWorkflow f then
              log LInfo "Skipping publishing as --skip-workflow flag is set." [] ;;;
              log LInfo (Download.newline ++ "Design created successfully with ID: %s")
                  [AStr designID] ;;;
              ret (None, Download.Untouched, (w, f))
            else
              log LInfo "Triggering GitHub workflow to generate snapshot..." [] ;;;
              triggered <- Lenient.GenerateSnapshot w designID "" (WorkflowAccessToken f) ;;
              match triggered with
              | Some err =>
                  ret (Some (Err (ErrGeneratingSnapshot err)), Download.Untouched, (w, f))
              | None =>
                  log LInfo (Download.newline ++ "Design created successfully with ID: %s")
                  [AStr designID] ;;;
                  log LInfo "GitHub workflow has been triggered to generate a snapshot." [] ;;;
                  let w := setRepository w (orElse (repoOwner w) "layer5labs")
                             (orElse (repoName w) "meshery")
                             (orElse (workflowID w) "kanvas.yaml") in
                  log LInfo "To access the snapshot images:" [] ;;;
                  log LInfo "1. Go to https://github.com/%s/%s/actions/workflows/%s"
                      [AStr (repoOwner w); AStr (repoName w); AStr (workflowID w)] ;;;
                  log LInfo "2. Find the most recent workflow run for designID: %s"
                      [AStr designID] ;;;
                  log LInfo "3. Wait for the workflow run to complete (~1-2 minutes)" [] ;;;
                  log LInfo "4. Download the 'design-screenshots' artifact from the completed workflow" [] ;;;
                  ret (None, Download.Untouched, (w, f))
              end
        end
    end.

End LenientCommand.

Module StrictCommand.

Import GoStrings Runtime Kanvas Command.
Local Open Scope go_scope.

Definition apiEndpoint : string := "/api/pattern/import".

(** The opening of [kanvasSnapshotRunE], as in the lenient variant but
    for the constant [apiEndpoint]. *)
Definition prepare (w : World) (f : Flags) : M (World * Flags) :=
  (if String.eqb (ProviderToken w) "" then
     log LWarn "MESHERY_TOKEN environment variable not set. Working in offline mode." [] ;;;
     log LInfo "Please set the MESHERY_TOKEN environment variable to use online features." [] ;;;
     log LInfo "You can obtain a token from your Meshery or Meshery Cloud profile." []
   else ret tt) ;;;
  w <- (if String.eqb (MesheryAPIBaseURL w) "" then
          log LWarn "Meshery API URL not set. Using default: http://localhost:9081" [] ;;;
          ret (setBaseURL w defaultMesheryURL)
        else ret w) ;;
  let endpoint := endpointOr w apiEndpoint in
  log LInfo "Using Meshery API URL: %s" [AStr (MesheryAPIBaseURL w)] ;;;
  log LInfo "Using API endpoint: %s" [AStr endpoint] ;;;
  f <- (if String.eqb (designName f) "" then
          let name := ExtractNameFromPath (manifestPath w) in
          log LWarn "No design name provided. Using extracted name: %s" [AStr name] ;;;
          ret (setDesignName f name)
        else ret f) ;;
  ret (w, f).

(** [kanvasSnapshotRunE] of the strict copy: no download; the flags
    [downloadPattern] and [outputFile] do not exist there and are not
    read. *)
Definition kanvasSnapshotRunE (w : World) (f : Flags)
  : M (option error * (World * Flags)) :=
  wf <- prepare w f ;;
  let w := fst wf in
  let f := snd wf in
  if negb (String.eqb (email f) "") && negb (isValidEmail (email f)) then
    ret (Some (ErrInvalidEmailFormat (email f)), (w, f))
  else
    log LInfo "Processing manifest files..." [] ;;;
    read <- getManifestContents w (manifestPath w) (recursive f) ;;
    match snd read with
    | Some err => ret (Some err, (w, f))
    | None =>
        let manifests := fst read in
        log LInfo "Processed %d manifest file(s)" [AInt (Z.of_nat (List.length manifests))] ;;;
        let combinedManifest := Join manifests separator in
        log LDebug "Manifest size: %d bytes"
            [AInt (Z.of_nat (String.length combinedManifest))] ;;;
        log LInfo "Creating Meshery design..." [] ;;;
        created <- Strict.CreateMesheryDesign w combinedManifest (designName f) (email f) ;;
        match snd created with
        | Some err =>
            log LError "Failed to create Meshery design: %v" [AErr err] ;;;
            ret (Some (ErrCreatingMesheryDesign err), (w, f))
        | None =>
            let designID := fst created in
            let mesheryViewURL := Strict.getDesignViewURL w designID in
            log LInfo "View your design in Meshery: %s" [AStr mesheryViewURL] ;;;
            if skipWorkflow f then
              log LInfo "Skipping publishing as --skip-workflow flag is set." [] ;;;
              log LInfo (Download.newline ++ "Design created successfully with ID: %s")
                  [AStr designID] ;;;
              ret (None, (w, f))
            else
              log LInfo "Triggering GitHub workflow to generate snapshot..." [] ;;;
              triggered <- Strict.GenerateSnapshot w designID "" (WorkflowAccessToken f) ;;
              match triggered with
              | Some err => ret (Some (ErrGeneratingSnapshot err), (w, f))
              | None =>
                  log LInfo (Download.newline ++ "Design created successfully with ID: %s")
                  [AStr designID] ;;;
                  log LInfo "GitHub workflow has been triggered to generate a snapshot." [] ;;;
                  let w := setRepository w (orElse (repoOwner w) "layer5labs")
                             (orElse (repoName w) "meshery")
                             (orElse (workflowID w) "kanvas.yaml") in
                  log LInfo "To access the snapshot images:" [] ;;;
                  log LInfo "1. Go to https://github.com/%s/%s/actions/workflows/%s"
                      [AStr (repoOwner w); AStr (repoName w); AStr (workflowID w)] ;;;
                  log LInfo "2. Find the most recent workflow run for designID: %s"
                      [AStr designID] ;;;
                  log LInfo "3. Wait for the workflow run to complete (~1-2 minutes)" [] ;;;
                  log LInfo "4. Download the 'design-screenshots' artifact from the completed workflow" [] ;;;
                  ret (None, (w, f))
              end
        end
    end.

End StrictCommand.

(* ================================================================== *)
(** ** Package [config]: [GetConfigFilePath], [LoadConfig] *)
(* ================================================================== *)

Module GoConfig.

Import Runtime.

Record DefaultsConfig : Type := mkDefaultsConfig {
  SnapshotName : string;
  TimeoutSeconds : Z;
  NotifyOnCompletion : bool
}.

Record Config : Type := mkConfig {
  Meshery : MesheryConfig;
  Defaults : DefaultsConfig
}.

(** [os.Stat]: no error, an error for which [os.IsNotExist] holds, or
    another error. *)
Inductive stat_result : Type := StatOK | StatNotExist | StatFailed.

(** The machine the configuration is loaded on.  [home_config] is
    [filepath.Join(homeDir, ".meshery", "kubectl-kanvas-snapshot",
    "config.yaml")] when [os.UserHomeDir] succeeds.  [parse] is
    [yaml.Unmarshal] of the file into an empty [Config]: the fields the
    file leaves out are the zero values. *)
Record Host : Type := mkHost {
  stat : string -> stat_result;
  readFile : string -> option string;
  home_config : option string;
  parse : string -> option Config
}.

Inductive config_error : Type :=
| ErrReadingConfig : string -> config_error   (* "error reading config file: %w" *)
| ErrParsingConfig : string -> config_error.  (* "error parsing config file: %w" *)

Definition local_config : string := "config/config.yaml".

Definition exists_at (h : Host) (path : string) : bool :=
  match stat h path with
  | StatOK => true
  | _ => false
  end.

(** [GetConfigFilePath]. *)
Definition GetConfigFilePath (h : Host) : string :=
  if exists_at h local_config then local_config
  else
    match home_config h with
    | Some configPath => if exists_at h configPath then configPath else local_config
    | None => local_config
    end.

(** [DefaultConfig]. *)
Definition DefaultConfig : Config :=
  mkConfig (mkMesheryConfig "http://localhost:9081" "/api/k8scontext/manifest")
           (mkDefaultsConfig "kubectl-snapshot" 30 true).

(** [LoadConfig]. *)
Definition LoadConfig (h : Host) : Config + config_error :=
  let configPath := GetConfigFilePath h in
  match stat h configPath with
  | StatNotExist => inl DefaultConfig
  | _ =>
      match readFile h configPath with
      | None => inr (ErrReadingConfig configPath)
      | Some data =>
          match parse h data with
          | None => inr (ErrParsingConfig configPath)
          | Some config =>
              let url :=
                if String.eqb (ConfigURL (Meshery config)) ""
                then "http://localhost:9081" else ConfigURL (Meshery config) in
              let endpoint :=
                if String.eqb (SnapshotEndpoint (Meshery config)) ""
                then "/api/k8scontext/manifest" else SnapshotEndpoint (Meshery config) in
              inl (mkConfig (mkMesheryConfig url endpoint) (Defaults config))
          end
      end
  end.

End GoConfig.

(* ================================================================== *)
(** ** The entry point: [loadEnvFile] *)
(* ================================================================== *)

Module EnvFile.

Import GoStrings Runtime.
Local Open Scope go_scope.

(** The four variables of package [main]. *)
Record Vars : Type := mkVars {
  providerToken : string;
  mesheryCloudAPIBaseURL : string;
  mesheryAPIBaseURL : string;
  workflowAccessToken : string
}.

(** The white space of [strings.TrimSpace] is that of
    [unicode.IsSpace]: six characters of ASCII, U+0085, U+00A0,
    U+1680, U+2000 to U+200A, U+2028, U+2029, U+202F, U+205F and
    U+3000.  A Go string is a sequence of bytes; a rune counts when the
    bytes are its UTF-8 encoding, of one, two or three bytes. *)
Definition is_space (c : ascii) : bool :=
  let n := nat_of_ascii c in
  (n =? 32)%nat || ((9 <=? n)%nat && (n <=? 13)%nat).

Definition is_space2 (c c2 : ascii) : bool :=
  let n := nat_of_ascii c in
  let n2 := nat_of_ascii c2 in
  (n =? 194)%nat && ((n2 =? 133)%nat || (n2 =? 160)%nat).

Definition is_space3 (c c2 c3 : ascii) : bool :=
  let n := nat_of_ascii c in
  let n2 := nat_of_ascii c2 in
  let n3 := nat_of_ascii c3 in
  ((n =? 225)%nat && (n2 =? 154)%nat && (n3 =? 128)%nat)
  || ((n =? 226)%nat && (n2 =? 128)%nat
      && (((128 <=? n3)%nat && (n3 <=? 138)%nat)
          || (n3 =? 168)%nat || (n3 =? 169)%nat || (n3 =? 175)%nat))
  || ((n =? 226)%nat && (n2 =? 129)%nat && (n3 =? 159)%nat)
  || ((n =? 227)%nat && (n2 =? 128)%nat && (n3 =? 128)%nat).

(** [strings.TrimLeftFunc(s, unicode.IsSpace)]: the runes are decoded
    from the left, and a byte that starts no white space ends the
    trimming. *)
Fixpoint trimLeftSpace (s : string) : string :=
  match s with
  | String c r =>
      if is_space c then trimLeftSpace r
      else
        match r with
        | String c2 r2 =>
            if is_space2 c c2 then trimLeftSpace r2
            else
              match r2 with
              | String c3 r3 => if is_space3 c c2 c3 then trimLeftSpace r3 else s
              | EmptyString => s
              end
        | EmptyString => s
        end
  | EmptyString => s
  end.

(** [strings.TrimRightFunc(s, unicode.IsSpace)] on the bytes from the
    last to the first: [utf8.DecodeLastRuneInString] gives a white
    space exactly when the string ends with its encoding. *)
Fixpoint trimLeftSpaceReversed (l : list ascii) : list ascii :=
  match l with
  | c :: r =>
      if is_space c then trimLeftSpaceReversed r
      else
        match r with
        | c2 :: r2 =>
            if is_space2 c2 c then trimLeftSpaceReversed r2
            else
              match r2 with
              | c3 :: r3 => if is_space3 c3 c2 c then trimLeftSpaceReversed r3 else l
              | [] => l
              end
        | [] => l
        end
  | [] => l
  end.

Definition trimRightSpace (s : string) : string :=
  string_of_list_ascii (rev (trimLeftSpaceReversed (rev (list_ascii_of_string s)))).

(** The cutset of [strings.Trim(value, ...)]: the two quotes. *)
Definition is_quote (c : ascii) : bool :=
  let n := nat_of_ascii c in (n =? 34)%nat || (n =? 39)%nat.

Fixpoint trimLeft (p : ascii -> bool) (s : string) : string :=
  match s with
  | String c r => if p c then trimLeft p r else s
  | EmptyString => EmptyString
  end.

Fixpoint trimRight (p : ascii -> bool) (s : string) : string :=
  match s with
  | EmptyString => EmptyString
  | String c r =>
      match trimRight p r with
      | EmptyString => if p c then EmptyString else String c EmptyString
      | kept => String c kept
      end
  end.

(** [strings.Trim] with a cutset of ASCII works on the bytes. *)
Definition trim (p : ascii -> bool) (s : string) : string := trimRight p (trimLeft p s).

(** [strings.TrimSpace]. *)
Definition TrimSpace (s : string) : string := trimRightSpace (trimLeftSpace s).

(** [strings.SplitN(line, "=", 2)] when it has two parts: what stands
    before the first [=] and what stands after it. *)
Fixpoint cut (s : string) : option (string * string) :=
  match s with
  | EmptyString => None
  | String c r =>
      if Ascii.eqb c "="%char then Some (EmptyString, r)
      else match cut r with
           | Some (k, v) => Some (String c k, v)
           | None => None
           end
  end.

(** The [switch] on the key: a variable is assigned only when it is
    empty. *)
Definition assign (key value : string) (v : Vars) : M Vars :=
  if String.eqb key "MESHERY_TOKEN" then
    if String.eqb (providerToken v) "" then
      log LInfo "Loaded MESHERY_TOKEN from .env file" [] ;;;
      ret (mkVars value (mesheryCloudAPIBaseURL v) (mesheryAPIBaseURL v)
             (workflowAccessToken v))
    else ret v
  else if String.eqb key "MESHERY_CLOUD_URL" then
    if String.eqb (mesheryCloudAPIBaseURL v) "" then
      log LInfo "Loaded MESHERY_CLOUD_URL from .env file" [] ;;;
      ret (mkVars (providerToken v) value (mesheryAPIBaseURL v) (workflowAccessToken v))
    else ret v
  else if String.eqb key "GITHUB_TOKEN" then
    if String.eqb (workflowAccessToken v) "" then
      log LInfo "Loaded GITHUB_TOKEN from .env file" [] ;;;
      ret (mkVars (providerToken v) (mesheryCloudAPIBaseURL v) (mesheryAPIBaseURL v) value)
    else ret v
  else if String.eqb key "MESHERY_API_URL" then
    if String.eqb (mesheryAPIBaseURL v) "" then
      log LInfo "Loaded MESHERY_API_URL from .env file" [] ;;;
      ret (mkVars (providerToken v) (mesheryCloudAPIBaseURL v) value (workflowAccessToken v))
    else ret v
  else ret v.

(** The body of the loop on one line of the file. *)
Definition scanLine (line : string) (v : Vars) : M Vars :=
  if HasPrefix line "#" || (String.length (TrimSpace line) =? 0)%nat then ret v
  else
    match cut line with
    | None => ret v
    | Some (k, rest) =>
        let key := TrimSpace k in
        let value := TrimSpace rest in
        let value := trim is_quote value in
        assign key value v
    end.

Fixpoint scanLines (lines : list string) (v : Vars) : M Vars :=
  match lines with
  | [] => ret v
  | line :: rest => v' <- scanLine line v ;; scanLines rest v'
  end.

(** [loadEnvFile].  [file] is what [os.Open(".env")] and the scanner
    give: nothing when the file cannot be opened, else its lines and
    the error the scanner ends with, if any. *)
Definition loadEnvFile (file : option (list string * option error)) (v : Vars) : M Vars :=
  match file with
  | None =>
      log LDebug "Could not open .env file: %v"
          [AErr (FSError (GoFS.PathError "open" ".env"))] ;;;
      ret v
  | Some (lines, scanned) =>
      v' <- scanLines lines v ;;
      match scanned with
      | Some err => log LWarn "Error reading .env file: %v" [AErr err] ;;; ret v'
      | None => ret v'
      end
  end.

End EnvFile.

(* ================================================================== *)
(** ** The entry points: [main] and [Main] *)
(* ================================================================== *)

Module Entry.

Import GoStrings Runtime GoConfig EnvFile Command.
Local Open Scope go_scope.

(** [setEnvironmentVariables]; [getenv] is [os.Getenv]. *)
Definition setEnvironmentVariables (getenv : string -> string) (v : Vars) : Vars :=
  mkVars (getenv "MESHERY_TOKEN") (getenv "MESHERY_CLOUD_URL") (mesheryAPIBaseURL v)
         (getenv "GITHUB_TOKEN").

(** The creation of the logger, in [main] and in [setupLogger] alike:
    [failure] is the message of the error of [logger.New], if any, and
    the line is the result of [fmt.Sprintf]. *)
Definition newLogger (failure : option string) : M unit :=
  match failure with
  | Some msg =>
      log LWarn ("Failed to initialize meshkit logger: " ++ msg ++ ". Using fallback logger.") []
  | None => ret tt
  end.

(** [main] up to its call of [Main]: the four arguments of that call,
    or nothing when the process exits with status 1.  The variables of
    the package start empty.  The error of [LoadConfig] is no [error] of
    the package and stays out of the line that reports it. *)
Definition main (h : Host) (logger : option string) (getenv : string -> string)
    (file : option (list string * option error)) : M (option Vars) :=
  newLogger logger ;;;
  match LoadConfig h with
  | inr _ =>
      log LError "Failed to load configuration: %v" [] ;;;
      ret None
  | inl cfg =>
      let v := mkVars "" "" (ConfigURL (Meshery cfg)) "" in
      let v := setEnvironmentVariables getenv v in
      v <- loadEnvFile file v ;;
      log LInfo "Kubectl Kanvas Snapshot Plugin" [] ;;;
      log LInfo "--------------------------------" [] ;;;
      log LDebug "Meshery API URL: %s" [AStr (mesheryAPIBaseURL v)] ;;;
      log LDebug "Meshery Cloud API URL: %s" [AStr (mesheryCloudAPIBaseURL v)] ;;;
      (if String.eqb (providerToken v) "" then
         log LWarn "MESHERY_TOKEN environment variable not set. Working in offline mode." [] ;;;
         log LWarn "Please set the MESHERY_TOKEN environment variable to use online features." [] ;;;
         log LWarn "You can obtain a token from your Meshery or Meshery Cloud profile." []
       else ret tt) ;;;
      (if String.eqb (workflowAccessToken v) "" then
         log LWarn "GITHUB_TOKEN environment variable not set. Snapshot generation will be skipped." []
       else ret tt) ;;;
      ret (Some v)
  end.

(** The registration of the flags.  [Flags().StringVarP(p, name,
    shorthand, value, usage)] and its kin store the default [value] in
    [*p] when the flag is registered; every default here is the empty
    string or [false].  [WorkflowAccessToken] is bound to no flag. *)
Definition registerFlags (w : World) (token : string) : World * Flags :=
  (mkWorld "" "" (Runtime.Config w) "" "" "" "" (now w) (fs w) (Runtime.stat w)
     (url_parses w) (transport w),
   mkFlags "" "" false false false "" token).

Definition setConfig (w : World) (c : option MesheryConfig) : World :=
  mkWorld (ProviderToken w) (MesheryAPIBaseURL w) c (manifestPath w)
    (repoOwner w) (repoName w) (workflowID w) (now w) (fs w) (Runtime.stat w)
    (url_parses w) (transport w).

Definition setToken (w : World) (token : string) : World :=
  mkWorld token (MesheryAPIBaseURL w) (Runtime.Config w) (manifestPath w)
    (repoOwner w) (repoName w) (workflowID w) (now w) (fs w) (Runtime.stat w)
    (url_parses w) (transport w).

(** [Main] up to [Execute]: the variables as the parsing of the command
    line finds them.  [w] gives the clock, the file system and the
    network.  [MesheryCloudAPIBaseURL] is assigned and read nowhere; it
    is left out. *)
Definition Main (h : Host) (logger : option string) (w : World) (v : Vars)
  : M (World * Flags) :=
  let w := setBaseURL (setToken w (providerToken v)) (mesheryAPIBaseURL v) in
  newLogger logger ;;;
  w <- match LoadConfig h with
       | inr _ =>
           log LError "Failed to load configuration: %v" [] ;;;
           ret (setConfig w None)
       | inl c =>
           let w := setConfig w (Some (Meshery c)) in
           log LInfo "Loaded configuration from: %s" [AStr (GetConfigFilePath h)] ;;;
           if negb (String.eqb (ConfigURL (Meshery c)) "") then
             log LInfo "Using Meshery URL from config: %s" [AStr (ConfigURL (Meshery c))] ;;;
             ret (setBaseURL w (ConfigURL (Meshery c)))
           else ret w
       end ;;
  ret (registerFlags w (workflowAccessToken v)).

End Entry.

(* ================================================================== *)
(** ** What the further statements are written with *)
(* ================================================================== *)

Module Props.

Import GoStrings GoTime GoFS Runtime Kanvas.


(** The string [id] of the first element of an array, when that element
    is an object; the empty string otherwise. *)
Definition first_id (items : list GoJson.value) : string :=
  match items with
  | GoJson.JObject m :: _ =>
      match GoJson.index m "id" with
      | GoJson.JString s => s
      | _ => EmptyString
      end
  | _ => EmptyString
  end.

(** The value of a header of a request. *)
Fixpoint header_value (headers : list (string * string)) (key : string) : option string :=
  match headers with
  | [] => None
  | (k, v) :: rest => if String.eqb k key then Some v else header_value rest key
  end.

Definition header (req : Request) (key : string) : option string :=
  header_value (Header req) key.

(** The log lines of a trace. *)
Definition is_log (e : event) : bool := negb (is_http e).

(** How a submission may end: with an identifier that is not empty and
    no error; with no identifier and an error, which is
    [ErrHTTPPostRequest] and, in the strict variant only, may be
    [ErrDecodingAPI]; or with a panic. *)
Definition submission_outcome (strict : bool) (r : outcome (string * option error)) : Prop :=
  match r with
  | Returns (id, None) => id <> EmptyString
  | Returns (id, Some err) =>
      id = EmptyString
      /\ ((exists cause, err = ErrHTTPPostRequest cause)
          \/ (strict = true /\ exists cause, err = ErrDecodingAPI cause))
  | Panics _ => True
  end.

(** What a submission puts on the wire: nothing when the request cannot
    be built; else one POST to the submission URL, through a client
    with a timeout of 30 seconds and a cookie jar, with the JSON content
    type and, exactly when a token is set, the cookie that carries it. *)
Definition submission_wire (w : World) (t : list event) : Prop :=
  (url_parses w (Spec.submissionURL w) = false /\ http_calls t = [])
  \/ (url_parses w (Spec.submissionURL w) = true
      /\ exists req : Request,
           http_calls t = [EvHTTP (mkClient 30 true) req]
           /\ Method req = "POST"
           /\ URL req = Spec.submissionURL w
           /\ header req "Content-Type" = Some "application/json"
           /\ header req "Cookie"
              = if String.eqb (ProviderToken w) "" then None
                else Some ("token=" ++ ProviderToken w ++ ";meshery-provider=Meshery")).

(** A byte that is not the separator of paths. *)
Definition not_separator (c : ascii) : bool := negb (Ascii.eqb c "/"%char).

(** The line [processDirectory] logs for a manifest. *)
Definition added_line (e : event) : Prop :=
  exists path : string, e = EvLog LInfo "Added manifest file: %s" [AStr path].

(** What the callback of [processDirectory] keeps: as many lines
    logged as manifests gathered, and no other line. *)
Definition counted (st : walk_state) : Prop :=
  List.length (snd st) = List.length (fst st) /\ Forall added_line (snd st).

(** How the reading of the manifests may end: with manifests and no
    error, or with no manifest and [ErrReadingManifestFile]. *)
Definition manifests_outcome (r : outcome (list string * option error)) : Prop :=
  match r with
  | Returns (manifests, None) => manifests <> []
  | Returns (manifests, Some err) =>
      manifests = [] /\ exists cause, err = ErrReadingManifestFile cause
  | Panics _ => False
  end.

(** The URL of the dispatch, with the defaults of the repository. *)
Definition dispatchURL (w : World) : string :=
  "https://api.github.com/repos/" ++ Command.orElse (repoOwner w) "layer5labs"
  ++ "/" ++ Command.orElse (repoName w) "kubectl-kanvas-snapshot"
  ++ "/actions/workflows/" ++ Command.orElse (workflowID w) "kanvas.yaml"
  ++ "/dispatches".

(** The asset location of the dispatch, with its default. *)
Definition assetOr (designID assetLocation : string) : string :=
  Command.orElse assetLocation
    ("https://raw.githubusercontent.com/layer5labs/meshery-extensions-packages/master/action-assets/kubectl-plugin-assets/"
     ++ designID ++ ".png").

(** What a trigger puts on the wire: nothing when the request cannot be
    built; else one POST to the dispatch URL, through a client with a
    timeout of 30 seconds and no cookie jar, that carries the token, the
    identifier and the asset location, on the branch [master]. *)
Definition trigger_wire (w : World) (designID assetLocation token : string)
    (t : list event) : Prop :=
  (url_parses w (dispatchURL w) = false /\ http_calls t = [])
  \/ (url_parses w (dispatchURL w) = true
      /\ exists req : Request,
           http_calls t = [EvHTTP (mkClient 30 false) req]
           /\ Method req = "POST"
           /\ URL req = dispatchURL w
           /\ header req "Authorization" = Some ("token " ++ token)
           /\ header req "Accept" = Some "application/vnd.github.v3+json"
           /\ header req "Content-Type" = Some "application/json"
           /\ Payload req
              = GoJson.JObject
                  [("inputs",
                    GoJson.JObject
                      [("assetLocation", GoJson.JString (assetOr designID assetLocation));
                       ("designID", GoJson.JString designID)]);
                   ("ref", GoJson.JString "master")]).

(** The request of the dispatch: a POST to the dispatch URL with the
    three headers and the document that carries the identifier and the
    asset location. *)
Definition dispatchRequest (w : World) (designID assetLocation token : string) : Request :=
  mkRequest "POST" (dispatchURL w)
    [("Content-Type", "application/json");
     ("Authorization", "token " ++ token);
     ("Accept", "application/vnd.github.v3+json")]
    (GoJson.JObject
       [("inputs",
         GoJson.JObject
           [("assetLocation", GoJson.JString (assetOr designID assetLocation));
            ("designID", GoJson.JString designID)]);
        ("ref", GoJson.JString "master")]).

(** The dispatch can be made and is accepted: its request can be built,
    and the network answers it with a response of status 200 or 204.
    This is said of the world, not of what a run did. *)
Definition dispatch_accepted (w : World) (designID assetLocation token : string) : Prop :=
  url_parses w (dispatchURL w) = true
  /\ exists resp : Response,
       transport w (mkClient 30 false) (dispatchRequest w designID assetLocation token)
       = inl resp
       /\ (StatusCode resp = 200 \/ StatusCode resp = 204)%Z.

(** What is asked of a trigger: it attempts the dispatch, with one call
    that carries the request, whenever the request can be built, and
    makes no other call; it returns nil exactly when the dispatch is
    accepted; and it returns an [ErrGeneratingSnapshot] in every other
    case. *)
Definition trigger_verdict (w : World) (designID assetLocation token : string)
    (run : M (option error)) : Prop :=
  http_calls (trace run)
  = (if url_parses w (dispatchURL w)
     then [EvHTTP (mkClient 30 false) (dispatchRequest w designID assetLocation token)]
     else [])
  /\ (result run = Returns None <-> dispatch_accepted w designID assetLocation token)
  /\ (result run <> Returns None ->
      exists e, result run = Returns (Some (ErrGeneratingSnapshot e))).

(** The URL a design is downloaded from. *)
Definition downloadURL (w : World) (designID : string) : string :=
  MesheryAPIBaseURL w ++ "/api/pattern/download/" ++ designID ++ "/kanvas".

(** How a download may end: without an error and with the output file
    written; or with an error and the output file untouched, or emptied
    by a write that failed. *)
Definition download_outcome (d : Download.Disk) (outputFile : string)
    (r : outcome (option Download.failure * Download.file_effect)) : Prop :=
  match r with
  | Returns (None, Download.Holds f _) =>
      f = outputFile
      /\ Download.creates d outputFile = true /\ Download.stores d outputFile = true
  | Returns (Some _, Download.Untouched) => True
  | Returns (Some _, Download.Emptied f) =>
      f = outputFile
      /\ Download.creates d outputFile = true /\ Download.stores d outputFile = false
  | Returns (None, _) | Returns (Some _, Download.Holds _ _) | Panics _ => False
  end.

(** The variables as the opening of the command leaves them: the base
    URL and the design name with their defaults. *)
Definition prepared_world (w : World) : World :=
  if String.eqb (MesheryAPIBaseURL w) ""
  then Command.setBaseURL w Command.defaultMesheryURL else w.

Definition prepared_flags (w : World) (f : Command.Flags) : Command.Flags :=
  if String.eqb (Command.designName f) ""
  then Command.setDesignName f (ExtractNameFromPath (manifestPath w)) else f.

(** A computation ends in an outcome that satisfies [Q], after at most
    [n] outbound calls. *)
Definition ends {A : Type} (m : M A) (Q : outcome A -> Prop) (n : nat) : Prop :=
  Q (result m) /\ List.length (http_calls (trace m)) <= n.

(** The errors of a run: an e-mail address refused, no manifest read,
    the submission failed (on the decoding of the answer in the strict
    variant only), or the trigger failed, its error wrapped twice. *)
Definition run_failure (strict : bool) (e : error) : Prop :=
  (exists address, e = ErrInvalidEmailFormat address)
  \/ (exists cause, e = ErrReadingManifestFile cause)
  \/ (exists cause, e = ErrCreatingMesheryDesign (ErrHTTPPostRequest cause))
  \/ (strict = true /\ exists cause, e = ErrCreatingMesheryDesign (ErrDecodingAPI cause))
  \/ (exists cause, e = ErrGeneratingSnapshot (ErrGeneratingSnapshot cause)).

Definition strict_run_outcome (r : outcome (option error * (World * Command.Flags)))
  : Prop :=
  match r with
  | Returns (Some e, _) => run_failure true e
  | Returns (None, _) | Panics _ => True
  end.

(** In the lenient variant the output file is written by a download
    that succeeds, and by nothing else. *)
Definition lenient_run_outcome (f : Command.Flags)
    (r : outcome (option Command.run_error * Download.file_effect
                  * (World * Command.Flags))) : Prop :=
  match r with
  | Returns (Some (Command.Err e), effect, _) =>
      run_failure false e /\ effect = Download.Untouched
  | Returns (Some (Command.DownloadErr _), effect, _) =>
      Command.downloadPattern f = true
      /\ match effect with
         | Download.Holds _ _ => False
         | _ => True
         end
  | Returns (None, effect, _) =>
      if Command.downloadPattern f
      then exists data, effect = Download.Holds (Command.outputFile f) data
      else effect = Download.Untouched
  | Panics _ => True
  end.

(** A computation leaves a trace and an outcome that [Q] relates. *)
Definition traced {A : Type} (m : M A) (Q : list event -> outcome A -> Prop) : Prop :=
  Q (trace m) (result m).

(** Where the submission of a run goes: the base URL, or its default,
    and the endpoint of the configuration, or [/api/pattern/import]. *)
Definition submissionTarget (w : World) : string :=
  Command.orElse (MesheryAPIBaseURL w) Command.defaultMesheryURL
  ++ endpointOr w "/api/pattern/import".

(** The first outbound call of a trace goes to [url]. *)
Definition first_call_to (url : string) (t : list event) : Prop :=
  exists (c : Client) (req : Request),
    hd_error (http_calls t) = Some (EvHTTP c req) /\ URL req = url.

(** A variable that is set keeps its value. *)
Definition kept (v v' : EnvFile.Vars) : Prop :=
  (EnvFile.providerToken v <> "" -> EnvFile.providerToken v' = EnvFile.providerToken v)
  /\ (EnvFile.mesheryCloudAPIBaseURL v <> ""
      -> EnvFile.mesheryCloudAPIBaseURL v' = EnvFile.mesheryCloudAPIBaseURL v)
  /\ (EnvFile.mesheryAPIBaseURL v <> ""
      -> EnvFile.mesheryAPIBaseURL v' = EnvFile.mesheryAPIBaseURL v)
  /\ (EnvFile.workflowAccessToken v <> ""
      -> EnvFile.workflowAccessToken v' = EnvFile.workflowAccessToken v).

End Props.

(* ================================================================== *)
(** ** Further worlds and inputs *)
(* ================================================================== *)

Module Cases.

Import GoJson GoFS Runtime Examples.




(** A process whose base URL does not parse. *)
Definition malformed : World :=
  mkWorld "token" "http://local host:9081" None "manifests" "" "" "" noon
    (fun _ => Broken) (fun _ => Broken) (fun _ => false) unreachable.



(** A process whose manifest path is a symbolic link to the directory
    of the manifests: [os.Stat] finds the directory, [os.Lstat] the
    link, which cannot be read as a file. *)
Definition linked : World :=
  mkWorld "token" "http://localhost:9081" None "manifests" "" "" "" noon
    (fun _ => File (inr "read")) (fun _ => manifests_dir) (fun _ => true) unreachable.

(** A disk that takes every file. *)
Definition writable : Download.Disk := Download.mkDisk (fun _ => true) (fun _ => true).

(** The flags of a run with [-f] alone, and of one with an e-mail
    address in capitals. *)
Definition only_file : Command.Flags := Command.mkFlags "" "" false false false "" "".

Definition shouting : Command.Flags :=
  Command.mkFlags "Dev@Example.com" "" false false false "" "".

(** What [getManifestContents] reads from [manifests_dir] without
    recursion. *)
Definition two_manifests : list string := ["kind: Deployment"; "kind: Service"].

(** A process over the directory of the manifests whose server answers
    every call with status 200 and a document that carries an [id]; and
    the same process with the default configuration loaded. *)
Definition served : World := world noon manifests_dir (answering 200 body_id).

Definition configured : World :=
  Entry.setConfig served (Some (GoConfig.Meshery GoConfig.DefaultConfig)).

(** A machine without any configuration file. *)
Definition bare : GoConfig.Host :=
  GoConfig.mkHost (fun _ => GoConfig.StatNotExist) (fun _ => None) None (fun _ => None).

End Cases.

(* ================================================================== *)
(** ** Facts about strings *)
(* ================================================================== *)

Section StringFacts.

Import GoStrings.

Lemma append_nil_r (s : string) : s ++ "" = s.
Proof. induction s as [|c s IH]; simpl; [reflexivity | now rewrite IH]. Qed.

Lemma append_assoc (a b c : string) : (a ++ b) ++ c = a ++ (b ++ c).
Proof. induction a as [|x a IH]; simpl; [reflexivity | now rewrite IH]. Qed.

Lemma length_append (a b : string) :
  String.length (a ++ b) = String.length a + String.length b.
Proof. induction a as [|x a IH]; simpl; [reflexivity | now rewrite IH]. Qed.

Lemma append_eq_nil (a b : string) : a ++ b = "" -> a = "" /\ b = "".
Proof. destruct a; simpl; [auto | discriminate]. Qed.

Lemma drop_append (a b : string) : drop (String.length a) (a ++ b) = b.
Proof. induction a as [|x a IH]; simpl; [now destruct b | exact IH]. Qed.

Lemma take_drop (n : nat) (s : string) : take n s ++ drop n s = s.
Proof.
  revert s; induction n as [|n IH]; intros [|c s]; simpl; try reflexivity.
  now rewrite IH.
Qed.

Lemma length_drop (n : nat) (s : string) :
  String.length (drop n s) = String.length s - n.
Proof.
  revert s; induction n as [|n IH]; intros [|c s]; simpl; try reflexivity.
  apply IH.
Qed.

(** [HasPrefix] holds exactly of the strings that start with the prefix. *)
Lemma HasPrefix_spec (s p : string) :
  HasPrefix s p = true <-> exists r, s = p ++ r.
Proof.
  unfold HasPrefix. revert s; induction p as [|a p IH]; intros s.
  - split; [intros _; now exists s | intros _; now destruct s].
  - destruct s as [|b s]; cbn [prefix].
    + split; [discriminate | intros [r H]; discriminate].
    + destruct (ascii_dec a b) as [->|Hne].
      * rewrite IH. split; intros [r H]; exists r; [now rewrite H | now injection H].
      * split; [discriminate | intros [r H]; injection H; intros; congruence].
Qed.

(** [HasSuffix] holds exactly of the strings that end with the suffix. *)
Lemma HasSuffix_spec (s suffix : string) :
  HasSuffix s suffix = true <-> exists p, s = p ++ suffix.
Proof.
  unfold HasSuffix. rewrite andb_true_iff, Nat.leb_le, String.eqb_eq. split.
  - intros [Hlen Hdrop].
    exists (take (String.length s - String.length suffix) s).
    rewrite <- Hdrop at 2. symmetry. apply take_drop.
  - intros [p ->]. rewrite length_append. split; [lia|].
    replace (String.length p + String.length suffix - String.length suffix)
      with (String.length p) by lia.
    apply drop_append.
Qed.

Lemma Contains_append (a b sub : string) :
  Contains b sub = true -> Contains (a ++ b) sub = true.
Proof.
  induction a as [|x a IH]; simpl; intros H; [exact H|].
  rewrite (IH H). apply orb_true_r.
Qed.

Lemma ToLower_append (a b : string) : ToLower (a ++ b) = ToLower a ++ ToLower b.
Proof. induction a as [|x a IH]; simpl; [reflexivity | now rewrite IH]. Qed.

Lemma length_ToLower (s : string) : String.length (ToLower s) = String.length s.
Proof. induction s as [|x s IH]; simpl; [reflexivity | now rewrite IH]. Qed.

(** Replacing the spaces of a name goes byte by byte. *)
Lemma prefix_nil (s : string) : prefix "" s = true.
Proof. now destruct s. Qed.

Lemma ReplaceAll_space (name : string) :
  ReplaceAll name " " "-" = Spec.hyphenate name.
Proof.
  unfold ReplaceAll. induction name as [|c r IH]; [reflexivity|].
  cbn [replace_from]. unfold HasPrefix. cbn [prefix String.length Nat.sub].
  destruct (ascii_dec " "%char c) as [<-|Hne]; cbn [Spec.hyphenate].
  - rewrite prefix_nil, IH. reflexivity.
  - replace (Ascii.eqb c " ") with false.
    + now rewrite IH.
    + symmetry. apply Ascii.eqb_neq. congruence.
Qed.

Lemma hyphenate_nil (name : string) : Spec.hyphenate name = "" -> name = "".
Proof. destruct name; [reflexivity | discriminate]. Qed.

End StringFacts.

(* ================================================================== *)
(** ** The fuel of the JSON decoder *)
(* ================================================================== *)

Section DecoderFuel.

Import GoJson.

Lemma skip_ws_length (s : string) : String.length (skip_ws s) <= String.length s.
Proof.
  induction s as [|c s IH]; simpl; [lia|]. destruct (is_ws c); simpl; lia.
Qed.

Lemma skip_ws_cons (s r : string) (c : ascii) :
  skip_ws s = String c r -> String.length r < String.length s.
Proof.
  intros H. pose proof (skip_ws_length s) as L. rewrite H in L. simpl in L. lia.
Qed.

Lemma prepend_inv (p : string) (x : option (string * string)) (v r : string) :
  prepend p x = Some (v, r) -> exists v', x = Some (v', r).
Proof.
  destruct x as [[v' r']|]; simpl; intros H; [|discriminate].
  injection H as _ <-. now exists v'.
Qed.

Lemma parse_string_shorter (n : nat) :
  forall (s : string) (pending : option N) (v r : string),
    String.length s <= n ->
    parse_string pending s = Some (v, r) -> String.length r < String.length s.
Proof.
  induction n as [|n IH]; intros s pending v r Hn H.
  - destruct s; [discriminate H | simpl in Hn; lia].
  - destruct s as [|c s]; [discriminate H|]. simpl in Hn. cbn [parse_string] in H.
    destruct (Ascii.eqb c dquote).
    { injection H as _ <-. simpl. lia. }
    destruct (Ascii.eqb c backslash).
    + destruct s as [|e s1]; [discriminate H|].
      destruct (Ascii.eqb e "u").
      * destruct s1 as [|h1 [|h2 [|h3 [|h4 s2]]]]; try discriminate H.
        simpl in Hn.
        assert (Hrec : forall p v', parse_string p s2 = Some (v', r) ->
                                    String.length r < String.length s2)
          by (intros p v' Hp; apply (IH s2 p v' r); [lia | exact Hp]).
        destruct (hex4 h1 h2 h3 h4) as [u|]; [|discriminate H].
        assert (String.length r < String.length s2).
        { destruct pending as [hi|];
            destruct (is_low_surrogate u); destruct (is_high_surrogate u);
            try (apply prepend_inv in H as [v' H]); eapply Hrec; exact H. }
        simpl. lia.
      * destruct (simple_escape e); [|discriminate H].
        apply prepend_inv in H as [v' H]. apply IH in H; simpl in *; lia.
    + destruct (nat_of_ascii c <? 32)%nat; [discriminate H|].
      assert (Hrec : forall t w, String.length t <= String.length s ->
                                 parse_string None t = Some (w, r) ->
                                 String.length r < S (String.length s))
        by (intros t w Ht Hp; apply IH in Hp; lia).
      destruct (nat_of_ascii c <? 128)%nat.
      { apply prepend_inv in H as [v' H]. now apply (Hrec s v'). }
      cbv zeta in H.
      destruct s as [|c2 [|c3 [|c4 s4]]];
        repeat match type of H with
          | (if ?b then _ else _) = _ => destruct b
          end;
        apply prepend_inv in H as [v' H]; apply (Hrec _ v') in H;
        simpl in *; lia.
Qed.

Lemma span_digits_length (s d r : string) :
  span_digits s = (d, r) -> String.length s = String.length d + String.length r.
Proof.
  revert d r; induction s as [|c s IH]; simpl; intros d r H.
  - now injection H as <- <-.
  - destruct (GoTime.is_digit c).
    + destruct (span_digits s) as [d' r'] eqn:Hs. injection H as <- <-.
      simpl. now rewrite (IH d' r' eq_refl).
    + now injection H as <- <-.
Qed.

Lemma number_literal_shorter (s v r : string) :
  number_literal s = Some (v, r) -> String.length r < String.length s.
Proof.
  unfold number_literal.
  destruct (match s with
            | String c r0 => if is_char c 45 then ("-", r0) else ("", s)
            | EmptyString => ("", s)
            end) as [sign s1] eqn:Hsign.
  assert (L1 : String.length s1 <= String.length s).
  { destruct s as [|c s0]; [injection Hsign as _ <-; lia|].
    destruct (is_char c 45); injection Hsign as _ <-; simpl; lia. }
  destruct (span_digits s1) as [int s2] eqn:Hint.
  apply span_digits_length in Hint.
  destruct int as [|i0 int']; [discriminate|].
  simpl in Hint.
  match goal with |- (if negb ?b then _ else _) = _ -> _ => destruct b end;
    cbn [negb]; [|discriminate].
  destruct s2 as [|c2 r2].
  - destruct (String.length s1); intros H; injection H as _ <-; simpl; lia.
  - simpl in Hint. destruct (is_char c2 46).
    + destruct (span_digits r2) as [d s3] eqn:Hfrac.
      apply span_digits_length in Hfrac.
      destruct d as [|d0 d']; [discriminate|]. simpl in Hfrac.
      destruct s3 as [|c3 r3]; [intros H; injection H as _ <-; simpl; lia|].
      simpl in Hfrac.
      destruct (is_char c3 101 || is_char c3 69).
      * destruct (match r3 with
                  | String d1 r' =>
                      if is_char d1 43 || is_char d1 45
                      then (String d1 "", r') else ("", r3)
                  | EmptyString => ("", r3)
                  end) as [sg r4] eqn:Hsg.
        assert (L4 : String.length r4 <= String.length r3).
        { destruct r3 as [|d1 r']; [injection Hsg as _ <-; lia|].
          destruct (is_char d1 43 || is_char d1 45); injection Hsg as _ <-; simpl; lia. }
        destruct (span_digits r4) as [e rest] eqn:Hexp.
        apply span_digits_length in Hexp.
        destruct e; [discriminate|]. intros H; injection H as _ <-. simpl in *. lia.
      * intros H; injection H as _ <-. simpl. lia.
    + destruct (is_char c2 101 || is_char c2 69).
      * destruct (match r2 with
                  | String d1 r' =>
                      if is_char d1 43 || is_char d1 45
                      then (String d1 "", r') else ("", r2)
                  | EmptyString => ("", r2)
                  end) as [sg r4] eqn:Hsg.
        assert (L4 : String.length r4 <= String.length r2).
        { destruct r2 as [|d1 r']; [injection Hsg as _ <-; lia|].
          destruct (is_char d1 43 || is_char d1 45); injection Hsg as _ <-; simpl; lia. }
        destruct (span_digits r4) as [e rest] eqn:Hexp.
        apply span_digits_length in Hexp.
        destruct e; [discriminate|]. intros H; injection H as _ <-. simpl in *. lia.
      * intros H; injection H as _ <-. simpl. lia.
Qed.

Lemma parse_number_shorter (s v r : string) :
  parse_number s = Some (v, r) -> String.length r < String.length s.
Proof.
  unfold parse_number.
  destruct (number_literal s) as [[lit rest]|] eqn:Hlit; [|discriminate].
  destruct (float64_overflows lit); [discriminate|].
  intros H. injection H as _ <-. now apply number_literal_shorter in Hlit.
Qed.

Lemma parse_literal_shorter (lit : string) (x v : value) (s r : string) :
  lit <> "" -> parse_literal lit x s = Some (v, r) -> String.length r < String.length s.
Proof.
  unfold parse_literal. intros Hlit H.
  destruct (GoStrings.HasPrefix s lit) eqn:Hp; [|discriminate].
  injection H as _ <-. apply HasPrefix_spec in Hp as [rest ->].
  rewrite drop_append, length_append. destruct lit; [contradiction | simpl; lia].
Qed.

(** Whatever the fuel, a value, the elements of an array and the members
    of an object are read from a non-empty part of the input. *)
Lemma parse_shorter (fuel : nat) :
  (forall depth s v r,
      parse_value fuel depth s = Some (v, r) -> String.length r < String.length s)
  /\ (forall depth s l r,
         parse_elems fuel depth s = Some (l, r) -> String.length r < String.length s)
  /\ (forall depth s m r,
         parse_members fuel depth s = Some (m, r) -> String.length r < String.length s).
Proof.
  induction fuel as [|f (IHv & IHe & IHm)]; [repeat split; discriminate|].
  repeat split.
  - intros depth s v r. cbn [parse_value]. unfold value_step.
    destruct (skip_ws s) as [|c s0] eqn:Hs; [discriminate|].
    apply skip_ws_cons in Hs.
    destruct ((is_char c 123 || is_char c 91) && negb (depth <? maxNestingDepth)%N);
      [discriminate|].
    destruct (is_char c 123).
    { destruct (skip_ws s0) as [|c' r'] eqn:Hs0; [discriminate|].
      pose proof (skip_ws_length s0) as L0. rewrite Hs0 in L0.
      destruct (is_char c' 125).
      - intros H; injection H as _ <-. simpl in L0. lia.
      - destruct (parse_members f (depth + 1)%N (String c' r')) as [[m rest]|] eqn:Hm; [|discriminate].
        apply IHm in Hm. intros H; injection H as _ <-. lia. }
    destruct (is_char c 91).
    { destruct (skip_ws s0) as [|c' r'] eqn:Hs0; [discriminate|].
      apply skip_ws_cons in Hs0.
      destruct (is_char c' 93).
      - intros H; injection H as _ <-. lia.
      - destruct (parse_elems f (depth + 1)%N s0) as [[l rest]|] eqn:He; [|discriminate].
        apply IHe in He. intros H; injection H as _ <-. lia. }
    destruct (Ascii.eqb c dquote).
    { destruct (parse_string None s0) as [[x rest]|] eqn:Hx; [|discriminate].
      apply (parse_string_shorter _ _ _ _ _ (le_n _)) in Hx.
      intros H; injection H as _ <-. lia. }
    destruct (is_char c 116).
    { intros H. apply parse_literal_shorter in H; [simpl in H; lia | discriminate]. }
    destruct (is_char c 102).
    { intros H. apply parse_literal_shorter in H; [simpl in H; lia | discriminate]. }
    destruct (is_char c 110).
    { intros H. apply parse_literal_shorter in H; [simpl in H; lia | discriminate]. }
    destruct (parse_number (String c s0)) as [[x rest]|] eqn:Hx; [|discriminate].
    apply parse_number_shorter in Hx. intros H; injection H as _ <-. simpl in Hx. lia.
  - intros depth s l r. cbn [parse_elems]. unfold elems_step.
    destruct (parse_value f depth s) as [[v r0]|] eqn:Hv; [|discriminate].
    apply IHv in Hv.
    destruct (skip_ws r0) as [|c r'] eqn:Hr0; [discriminate|].
    apply skip_ws_cons in Hr0.
    destruct (is_char c 93); [intros H; injection H as _ <-; lia|].
    destruct (is_char c 44); [|discriminate].
    destruct (parse_elems f depth r') as [[l' rest]|] eqn:He; [|discriminate].
    apply IHe in He. intros H; injection H as _ <-. lia.
  - intros depth s m r. cbn [parse_members]. unfold members_step.
    destruct s as [|q r0]; [discriminate|].
    destruct (Ascii.eqb q dquote); [|discriminate].
    destruct (parse_string None r0) as [[k r1]|] eqn:Hk; [|discriminate].
    apply (parse_string_shorter _ _ _ _ _ (le_n _)) in Hk.
    destruct (skip_ws r1) as [|c r2] eqn:Hr1; [discriminate|].
    apply skip_ws_cons in Hr1.
    destruct (is_char c 58); [|discriminate].
    destruct (parse_value f depth r2) as [[v r3]|] eqn:Hv; [|discriminate].
    apply IHv in Hv.
    destruct (skip_ws r3) as [|d r4] eqn:Hr3; [discriminate|].
    apply skip_ws_cons in Hr3.
    destruct (is_char d 125); [intros H; injection H as _ <-; simpl; lia|].
    destruct (is_char d 44); [|discriminate].
    destruct (parse_members f depth (skip_ws r4)) as [[m' rest]|] eqn:Hm; [|discriminate].
    apply IHm in Hm. pose proof (skip_ws_length r4) as L4.
    intros H; injection H as _ <-. simpl. lia.
Qed.

(** One more unit of fuel changes nothing once the fuel is twice the
    length of the input and one more (two more for the elements). *)
Lemma parse_stable (fuel : nat) :
  (forall depth s, 2 * String.length s + 1 <= fuel ->
                   parse_value (S fuel) depth s = parse_value fuel depth s)
  /\ (forall depth s, 2 * String.length s + 2 <= fuel ->
                      parse_elems (S fuel) depth s = parse_elems fuel depth s)
  /\ (forall depth s, 2 * String.length s + 1 <= fuel ->
                      parse_members (S fuel) depth s = parse_members fuel depth s).
Proof.
  induction fuel as [|f (IHv & IHe & IHm)]; [repeat split; intros depth s H; lia|].
  destruct (parse_shorter f) as (Sv & Se & Sm).
  repeat split.
  - intros depth s Hf.
    change (value_step depth (parse_members (S f) (depth + 1)%N) (parse_elems (S f) (depth + 1)%N) s
            = value_step depth (parse_members f (depth + 1)%N) (parse_elems f (depth + 1)%N) s).
    unfold value_step.
    destruct (skip_ws s) as [|c s0] eqn:Hs; [reflexivity|].
    apply skip_ws_cons in Hs.
    pose proof (skip_ws_length s0) as L0.
    rewrite IHm by lia. rewrite IHe by lia. reflexivity.
  - intros depth s Hf.
    change (elems_step (parse_value (S f) depth) (parse_elems (S f) depth) s
            = elems_step (parse_value f depth) (parse_elems f depth) s).
    unfold elems_step. rewrite IHv by lia.
    destruct (parse_value f depth s) as [[v r0]|] eqn:Hv; [|reflexivity].
    apply Sv in Hv.
    destruct (skip_ws r0) as [|c r'] eqn:Hr0; [reflexivity|].
    apply skip_ws_cons in Hr0. rewrite IHe by lia. reflexivity.
  - intros depth s Hf.
    change (members_step (parse_value (S f) depth) (parse_members (S f) depth) s
            = members_step (parse_value f depth) (parse_members f depth) s).
    unfold members_step.
    destruct s as [|q r0]; [reflexivity|].
    destruct (Ascii.eqb q dquote); [|reflexivity].
    destruct (parse_string None r0) as [[k r1]|] eqn:Hk; [|reflexivity].
    apply (parse_string_shorter _ _ _ _ _ (le_n _)) in Hk.
    destruct (skip_ws r1) as [|c r2] eqn:Hr1; [reflexivity|].
    apply skip_ws_cons in Hr1. simpl in Hf.
    destruct (is_char c 58); [|reflexivity].
    rewrite IHv by lia.
    destruct (parse_value f depth r2) as [[v r3]|] eqn:Hv; [|reflexivity].
    apply Sv in Hv.
    destruct (skip_ws r3) as [|d r4] eqn:Hr3; [reflexivity|].
    apply skip_ws_cons in Hr3. pose proof (skip_ws_length r4) as L4.
    rewrite IHm by lia. reflexivity.
Qed.

(** The fuel [decode] gives is enough: more fuel reads the same value. *)
Lemma parse_value_fuel (s : string) (extra : nat) (depth : N) :
  parse_value (2 * String.length s + 2 + extra) depth s
  = parse_value (2 * String.length s + 2) depth s.
Proof.
  induction extra as [|k IH]; [now rewrite Nat.add_0_r|].
  rewrite Nat.add_succ_r, <- IH. apply parse_stable. lia.
Qed.

End DecoderFuel.

(* ================================================================== *)
(** ** The timestamp has fourteen digits *)
(* ================================================================== *)

Section TimeFacts.

Import GoTime Spec.







End TimeFacts.

(* ================================================================== *)
(** ** The offline identifier *)
(* ================================================================== *)

Section OfflineIdentifier.

Import GoStrings GoTime Runtime Spec.

Lemma generateDummyID_eq (w : World) (name : string) :
  Lenient.generateDummyID w name
  = "offline-mode-" ++ sanitized name ++ "-" ++ Format20060102150405 (now w).
Proof.
  unfold Lenient.generateDummyID. rewrite ReplaceAll_space.
  destruct name as [|c r]; reflexivity.
Qed.




End OfflineIdentifier.

(* ================================================================== *)
(** ** The matcher and the words of a pattern *)
(* ================================================================== *)

Section RegexpFacts.

Import GoRegexp.

Lemma nullable_Lang (r : regex) : nullable r = true <-> Lang r "".
Proof.
  split.
  - induction r; simpl; intros H; try discriminate.
    + constructor.
    + apply andb_true_iff in H as [Ha Hb].
      change "" with ("" ++ ""). constructor; auto.
    + apply orb_true_iff in H as [Ha | Hb]; [apply LAltL | apply LAltR]; auto.
    + constructor.
  - intros H. remember "" as s eqn:Hs.
    induction H; simpl; try reflexivity; try discriminate.
    + apply append_eq_nil in Hs as [-> ->]. now rewrite IHLang1, IHLang2.
    + now rewrite IHLang.
    + rewrite IHLang by assumption. apply orb_true_r.
Qed.

Lemma deriv_sound (c : ascii) (r : regex) :
  forall s, Lang (deriv c r) s -> Lang r (String c s).
Proof.
  induction r; simpl; intros s H.
  - inversion H.
  - inversion H.
  - destruct (in_class l c) eqn:Hc; inversion H; subst. now constructor.
  - destruct (nullable r1) eqn:Hn.
    + inversion H as [| | | ? ? ? Hl | ? ? ? Hr | |]; subst.
      * inversion Hl; subst. change (String c (s0 ++ t)) with (String c s0 ++ t).
        constructor; auto.
      * change (String c s) with ("" ++ String c s).
        constructor; [now apply nullable_Lang | auto].
    + inversion H; subst. change (String c (s0 ++ t)) with (String c s0 ++ t).
      constructor; auto.
  - inversion H; subst; [apply LAltL | apply LAltR]; auto.
  - inversion H; subst. change (String c (s0 ++ t)) with (String c s0 ++ t).
    constructor; auto.
Qed.

Lemma deriv_complete (c : ascii) (r : regex) (u : string) :
  Lang r u -> forall s, u = String c s -> Lang (deriv c r) s.
Proof.
  induction 1 as [| ranges x Hx | a b s1 t1 Ha IHa Hb IHb | a b s1 Ha IHa
                  | a b s1 Hb IHb | a | a s1 t1 Ha IHa Hs IHs];
    intros s Hu; simpl.
  - discriminate.
  - injection Hu as -> <-. rewrite Hx. constructor.
  - destruct s1 as [|y s1]; simpl in Hu.
    + subst t1. apply nullable_Lang in Ha. rewrite Ha. apply LAltR. now apply IHb.
    + injection Hu as -> <-.
      assert (Lang (Cat (deriv c a) b) (s1 ++ t1)) by (constructor; auto).
      destruct (nullable a); [now apply LAltL | assumption].
  - apply LAltL. auto.
  - apply LAltR. auto.
  - discriminate.
  - destruct s1 as [|y s1]; simpl in Hu.
    + now apply IHs.
    + injection Hu as -> <-. constructor; auto.
Qed.

(** The matcher decides the words of the expression. *)
Lemma matches_Lang (s : string) : forall r, matches r s = true <-> Lang r s.
Proof.
  induction s as [|c s IH]; intros r; simpl.
  - apply nullable_Lang.
  - rewrite IH. split; [apply deriv_sound | intros H; now apply (deriv_complete c r _ H)].
Qed.

Lemma Lang_Eps_inv (s : string) : Lang Eps s -> s = "".
Proof. now inversion 1. Qed.

Lemma Lang_anchored (r : regex) (s : string) :
  Lang (Cat Eps (Cat r Eps)) s <-> Lang r s.
Proof.
  split.
  - intros H. inversion H as [| | ? ? s1 t1 H1 H2 | | | |]; subst.
    apply Lang_Eps_inv in H1 as ->. simpl.
    inversion H2 as [| | ? ? s2 t2 H3 H4 | | | |]; subst.
    apply Lang_Eps_inv in H4 as ->. now rewrite append_nil_r.
  - intros H. change s with ("" ++ s). constructor; [constructor|].
    rewrite <- (append_nil_r s). constructor; [assumption | constructor].
Qed.

(** The words of [[class]*], [[class]+] and [[class]{n,}]. *)
Lemma Lang_Class_inv (ranges : list (ascii * ascii)) (s : string) :
  Lang (Class ranges) s -> exists c, s = String c "" /\ in_class ranges c = true.
Proof. inversion 1; subst. eauto. Qed.

Lemma all_bytes_append (p : ascii -> bool) (a b : string) :
  all_bytes p (a ++ b) = all_bytes p a && all_bytes p b.
Proof.
  induction a as [|x a IH]; simpl; [reflexivity|]. now rewrite IH, andb_assoc.
Qed.

Lemma Lang_Star_Class (ranges : list (ascii * ascii)) (s : string) :
  Lang (Star (Class ranges)) s <-> all_bytes (in_class ranges) s = true.
Proof.
  split.
  - intros H. remember (Star (Class ranges)) as r eqn:Hr.
    induction H; try discriminate; [reflexivity|].
    injection Hr as ->. apply Lang_Class_inv in H as (c & -> & Hc).
    simpl. rewrite Hc. now apply IHLang2.
  - induction s as [|c s IH]; simpl; intros H; [constructor|].
    apply andb_true_iff in H as [Hc Hs].
    change (String c s) with (String c "" ++ s).
    constructor; [now constructor | auto].
Qed.

Lemma Lang_AtLeast_Class (n : nat) (ranges : list (ascii * ascii)) :
  forall s, Lang (AtLeast n (Class ranges)) s
            <-> n <= String.length s /\ all_bytes (in_class ranges) s = true.
Proof.
  induction n as [|n IH]; intros s; simpl.
  - rewrite Lang_Star_Class. split; [intros H; split; [lia | exact H] | now intros [_ H]].
  - split.
    + intros H. inversion H as [| | ? ? s1 t1 H1 H2 | | | |]; subst.
      apply Lang_Class_inv in H1 as (c & -> & Hc). apply IH in H2 as [Hlen Hall].
      simpl. rewrite Hc. split; [lia | exact Hall].
    + destruct s as [|c s]; simpl; intros [Hlen Hall]; [lia|].
      apply andb_true_iff in Hall as [Hc Hs].
      change (String c s) with (String c "" ++ s).
      constructor; [now constructor | apply IH; split; [lia | exact Hs]].
Qed.

Lemma Lang_Plus_Class (ranges : list (ascii * ascii)) (s : string) :
  Lang (Plus (Class ranges)) s
  <-> s <> "" /\ all_bytes (in_class ranges) s = true.
Proof.
  change (Plus (Class ranges)) with (AtLeast 1 (Class ranges)).
  rewrite Lang_AtLeast_Class. destruct s; simpl; split; intros [H1 H2]; split;
    auto; try lia; try discriminate. congruence.
Qed.

Lemma Lang_Lit_inv (c : ascii) (s : string) : Lang (Lit c) s <-> s = String c "".
Proof.
  unfold Lit. split.
  - intros H. apply Lang_Class_inv in H as (x & -> & Hx).
    unfold in_class, in_range in Hx. simpl in Hx. rewrite orb_false_r in Hx.
    apply andb_true_iff in Hx as [H1 H2]. apply Nat.leb_le in H1, H2.
    f_equal. rewrite <- (ascii_nat_embedding x), <- (ascii_nat_embedding c).
    f_equal. lia.
  - intros ->. constructor. unfold in_class, in_range. simpl.
    now rewrite Nat.leb_refl.
Qed.

End RegexpFacts.

(* ================================================================== *)
(** ** The e-mail pattern *)
(* ================================================================== *)

Section Email.

Import GoRegexp Kanvas Spec.

(** [isValidEmail] accepts exactly the strings of the shape the pattern
    describes. *)
Lemma isValidEmail_shape (email : string) :
  isValidEmail email = true <-> email_shape email.
Proof.
  unfold isValidEmail, MatchString, emailRegex. cbn [begin_text end_text body].
  rewrite matches_Lang, Lang_anchored. split.
  - intros H.
    inversion H as [| | ? ? l r1 Hl H1 | | | |]; subst.
    inversion H1 as [| | ? ? at_ r2 Hat H2 | | | |]; subst.
    inversion H2 as [| | ? ? d r3 Hd H3 | | | |]; subst.
    inversion H3 as [| | ? ? dot t Hdot Ht | | | |]; subst.
    apply Lang_Plus_Class in Hl as [Hl1 Hl2], Hd as [Hd1 Hd2].
    apply Lang_Lit_inv in Hat as ->, Hdot as ->.
    apply (Lang_AtLeast_Class 2) in Ht as [Ht1 Ht2].
    exists l, d, t. repeat split; assumption.
  - intros (l & d & t & -> & Hl1 & Hl2 & Hd1 & Hd2 & Ht1 & Ht2).
    constructor; [now apply Lang_Plus_Class|].
    constructor; [now apply Lang_Lit_inv|].
    constructor; [now apply Lang_Plus_Class|].
    constructor; [now apply Lang_Lit_inv|].
    now apply (Lang_AtLeast_Class 2).
Qed.

Lemma upper_outside_pattern (c : ascii) :
  is_upper c = true ->
  in_class local_class c = false /\ in_class domain_class c = false
  /\ in_class lower_class c = false /\ c <> "@"%char /\ c <> "."%char.
Proof.
  destruct c as [[] [] [] [] [] [] [] []]; intros H; try discriminate H;
    repeat split; try reflexivity; discriminate.
Qed.

Lemma has_upper_append (a b : string) :
  has_upper (a ++ b) = has_upper a || has_upper b.
Proof.
  induction a as [|x a IH]; simpl; [reflexivity|]. now rewrite IH, orb_assoc.
Qed.

Lemma all_bytes_no_upper (ranges : list (ascii * ascii)) (s : string) :
  (forall c, is_upper c = true -> in_class ranges c = false) ->
  all_bytes (in_class ranges) s = true -> has_upper s = false.
Proof.
  intros Hout. induction s as [|c s IH]; simpl; [reflexivity|].
  intros H. apply andb_true_iff in H as [Hc Hs]. rewrite (IH Hs), orb_false_r.
  destruct (is_upper c) eqn:Hu; [|reflexivity].
  rewrite (Hout c Hu) in Hc. discriminate.
Qed.

Lemma email_shape_no_upper (s : string) : email_shape s -> has_upper s = false.
Proof.
  intros (l & d & t & -> & _ & Hl & _ & Hd & _ & Ht).
  rewrite !has_upper_append.
  rewrite (all_bytes_no_upper local_class l), (all_bytes_no_upper domain_class d),
    (all_bytes_no_upper lower_class t); auto;
    intros c Hc; now apply upper_outside_pattern in Hc.
Qed.

(** C10.  [isValidEmail] is the match of the anchored pattern
    [[a-z0-9._%+\-]+@[a-z0-9.\-]+\.[a-z]{2,}]: it accepts exactly the
    strings of that shape, none of which has an upper-case letter, so
    it rejects every address with one, [User@example.com] among them. *)
Theorem isValidEmail_lowercase_only (email : string) :
  isValidEmail email = MatchString emailRegex email
  /\ (isValidEmail email = true <-> email_shape email)
  /\ (has_upper email = true -> isValidEmail email = false)
  /\ isValidEmail "User@example.com" = false
  /\ isValidEmail "user@example.com" = true.
Proof.
  split; [reflexivity|]. split; [apply isValidEmail_shape|].
  split; [|split; reflexivity].
  intros Hup. destruct (isValidEmail email) eqn:Hv; [|reflexivity].
  apply isValidEmail_shape, email_shape_no_upper in Hv. congruence.
Qed.

End Email.

(* ================================================================== *)
(** ** The snapshot trigger *)
(* ================================================================== *)

Section Trigger.

Import GoStrings Runtime Kanvas Spec.

Variable w : World.

Lemma orDefault_cases (value default what : string) :
  exists t x, orDefault value default what = (t, Returns x) /\ http_calls t = [].
Proof.
  unfold orDefault. destruct (String.eqb value ""); cbn;
    eexists; eexists; split; reflexivity.
Qed.

Lemma http_calls_app (t u : list event) :
  http_calls (t ++ u) = (http_calls t ++ http_calls u)%list.
Proof. apply filter_app. Qed.

(** The dispatch makes no call when the URL is refused, and one call
    otherwise; it succeeds exactly on a response with status 200 or 204. *)
Lemma dispatchWorkflow_contract (designID assetLocation token : string) :
  trigger_contract w (dispatchWorkflow w designID assetLocation token).
Proof.
  unfold dispatchWorkflow.
  destruct (orDefault_cases (repoOwner w) "layer5labs" "repository owner")
    as (t1 & x1 & -> & H1).
  destruct (orDefault_cases (repoName w) "kubectl-kanvas-snapshot" "repository name")
    as (t2 & x2 & -> & H2).
  destruct (orDefault_cases (workflowID w) "kanvas.yaml" "workflow ID")
    as (t3 & x3 & -> & H3).
  unfold NewRequest, Do, trigger_contract, dispatch_succeeds.
  destruct (String.eqb assetLocation "");
    cbn [bind ret log];
    match goal with |- context [url_parses w ?u] => destruct (url_parses w u) end;
    cbn [bind ret log trace result fst snd];
    rewrite ?http_calls_app, ?H1, ?H2, ?H3; cbn [http_calls filter is_http app].
  2, 4: split; [split; [discriminate | intros (c & r & resp & Hc & _); discriminate Hc]
               | intros _; eexists; reflexivity].
  all: match goal with |- context [transport w ?c ?r] =>
         destruct (transport w c r) as [resp | err] eqn:Hnet end.
  2, 4: cbn [bind ret log trace result fst snd];
        rewrite ?http_calls_app, ?H1, ?H2, ?H3; cbn [http_calls filter is_http app];
        (split; [split; [discriminate
                        | intros (c & r & resp' & Hc & Hr & _);
                          injection Hc; intros; subst; congruence]
                | intros _; eexists; reflexivity]).
  all: unfold StatusNoContent, StatusOK;
       destruct (Z.eqb_spec (StatusCode resp) 204) as [E204 | N204];
       destruct (Z.eqb_spec (StatusCode resp) 200) as [E200 | N200];
       cbn [negb andb bind ret log trace result fst snd];
       rewrite ?http_calls_app, ?H1, ?H2, ?H3; cbn [http_calls filter is_http app].
  all: first
    [ split; [split; [intros _; do 3 eexists; split; [reflexivity|];
                      split; [exact Hnet | auto]
                     | intros _; reflexivity]
             | intros H; now elim H]
    | split; [split; [discriminate
                     | intros (c & r & resp' & Hc & Hr & Hs);
                       injection Hc; intros; subst;
                       assert (resp' = resp) by congruence; subst;
                       destruct Hs; congruence]
             | intros _; eexists; reflexivity] ].
Qed.

Lemma trigger_contract_after_log (l : level) (format : string) (args : list logarg)
    (run : M (option error)) :
  trigger_contract w run -> trigger_contract w (bind (log l format args) (fun _ => run)).
Proof.
  destruct run as [t o]. unfold trigger_contract, dispatch_succeeds. cbn. trivial.
Qed.

(** C3, as the code has it.  In the variant that produces offline
    identifiers, [GenerateSnapshot] on an identifier that begins with
    [offline-mode-] makes no outbound call and returns nil, whatever the
    asset location and the token. *)
Theorem GenerateSnapshot_offline_no_call (designID assetLocation token : string)
    (Hoffline : HasPrefix designID "offline-mode-" = true) :
  http_calls (trace (Lenient.GenerateSnapshot w designID assetLocation token)) = []
  /\ result (Lenient.GenerateSnapshot w designID assetLocation token) = Returns None.
Proof.
  unfold Lenient.GenerateSnapshot. rewrite Hoffline. split; reflexivity.
Qed.

(** C5.  With an empty access token [GenerateSnapshot] makes no outbound
    call and returns nil, for every identifier and asset location, in
    both variants: its trace holds log lines only. *)
Theorem GenerateSnapshot_empty_token (designID assetLocation : string) :
  (http_calls (trace (Lenient.GenerateSnapshot w designID assetLocation "")) = []
   /\ Forall (fun e => is_http e = false)
             (trace (Lenient.GenerateSnapshot w designID assetLocation ""))
   /\ result (Lenient.GenerateSnapshot w designID assetLocation "") = Returns None)
  /\ (http_calls (trace (Strict.GenerateSnapshot w designID assetLocation "")) = []
      /\ Forall (fun e => is_http e = false)
                (trace (Strict.GenerateSnapshot w designID assetLocation ""))
      /\ result (Strict.GenerateSnapshot w designID assetLocation "") = Returns None).
Proof.
  unfold Lenient.GenerateSnapshot, Strict.GenerateSnapshot.
  destruct (HasPrefix designID "offline-mode-"); cbn;
    repeat split; repeat constructor.
Qed.

End Trigger.

Lemma GenerateSnapshot_offline_no_call_witness :
  Runtime.http_calls
    (Runtime.trace (Lenient.GenerateSnapshot (Examples.online 204 "")
                      "offline-mode-demo-20261102120007" "" "ghp_token")) = []
  /\ Runtime.result (Lenient.GenerateSnapshot (Examples.online 204 "")
                       "offline-mode-demo-20261102120007" "" "ghp_token")
     = Runtime.Returns None.
Proof.
  apply (GenerateSnapshot_offline_no_call (Examples.online 204 "")
           "offline-mode-demo-20261102120007" "" "ghp_token"). reflexivity.
Defined.

(** The copy without the offline test sends the dispatch for an offline
    identifier as for any other. *)
Lemma GenerateSnapshot_strict_offline_calls :
  GoStrings.HasPrefix "offline-mode-demo-20261102120007" "offline-mode-" = true
  /\ List.length
       (Runtime.http_calls
          (Runtime.trace (Strict.GenerateSnapshot (Examples.online 204 "")
                            "offline-mode-demo-20261102120007" "" "ghp_token"))) = 1.
Proof. split; reflexivity. Qed.

(* ================================================================== *)
(** ** The design submission *)
(* ================================================================== *)

Section Submission.

Import GoStrings GoTime Runtime Kanvas Spec.

Variable w : World.

(** Steps through a submission whose request can be built, up to the
    answer of the network. *)
Ltac submit Hurl Hnet :=
  unfold Lenient.CreateMesheryDesign, Strict.CreateMesheryDesign, NewRequest, Do;
  unfold submissionURL in Hurl; rewrite Hurl;
  destruct (String.eqb (ProviderToken w) "");
  cbn [negb bind ret log]; rewrite !Hnet.




(** The probes of an object, in their order: the [id] at the top wins;
    next comes the [id] inside [pattern_file]; [pattern_id] is read only
    when [pattern_file] is an object without a string [id]; and when
    [pattern_file] is no object the second probe panics. *)
Lemma probeObject_priority (responseData : list (string * GoJson.value)) :
  match GoJson.index responseData "id" with
  | GoJson.JString id => result (probeObject responseData) = Returns id
  | _ =>
      match GoJson.index responseData "pattern_file" with
      | GoJson.JObject pattern_file =>
          match GoJson.index pattern_file "id" with
          | GoJson.JString id => result (probeObject responseData) = Returns id
          | _ =>
              match GoJson.index responseData "pattern_id" with
              | GoJson.JString id => result (probeObject responseData) = Returns id
              | _ => result (probeObject responseData) = Returns ""
              end
          end
      | _ => exists msg, result (probeObject responseData) = Panics msg
      end
  end.
Proof.
  unfold probeObject.
  destruct (GoJson.index responseData "id"); cbn; try reflexivity;
    destruct (GoJson.index responseData "pattern_file") as [| | | | |pf]; cbn;
    try (eexists; reflexivity);
    destruct (GoJson.index pf "id"); cbn; try reflexivity;
    destruct (GoJson.index responseData "pattern_id"); cbn; reflexivity.
Qed.

(** What [CreateMesheryDesign] makes of a response with status 200 or
    201 whose body is no HTML and decodes into an object: the identifier
    the probes find; when they find none, the offline identifier in the
    lenient variant and [ErrDecodingAPI] in the strict one; and their
    panic when they panic. *)
Lemma CreateMesheryDesign_object_response
    (manifest name email body : string) (resp : Response)
    (responseData : list (string * GoJson.value))
    (Hurl : url_parses w (submissionURL w) = true)
    (Hnet : forall c r, transport w c r = inl resp)
    (Hbody : Body resp = (body, None))
    (Hjson : looksLikeHTML body = false)
    (Hstatus : (StatusCode resp = 200 \/ StatusCode resp = 201)%Z)
    (Hobject : GoJson.Unmarshal_map body = Some responseData) :
  match result (probeObject responseData) with
  | Returns designID =>
      if String.eqb designID "" then
        result (Lenient.CreateMesheryDesign w manifest name email)
        = Returns (Lenient.generateDummyID w name, None)
        /\ result (Strict.CreateMesheryDesign w manifest name email)
           = Returns ("", Some (ErrDecodingAPI
                                  (Errorf "could not extract design ID from response" [])))
      else
        result (Lenient.CreateMesheryDesign w manifest name email)
        = Returns (designID, None)
        /\ result (Strict.CreateMesheryDesign w manifest name email)
           = Returns (designID, None)
  | Panics msg =>
      result (Lenient.CreateMesheryDesign w manifest name email) = Panics msg
      /\ result (Strict.CreateMesheryDesign w manifest name email) = Panics msg
  end.
Proof.
  destruct (probeObject responseData) as [t [designID | msg]] eqn:Hprobe;
    cbn [result snd]; [destruct (String.eqb designID "") eqn:Hid|];
    (split; submit Hurl Hnet; rewrite Hbody; cbn [bind ret log]; rewrite Hjson;
     destruct Hstatus as [-> | ->]; cbn [bind ret log Z.eqb Pos.eqb negb andb];
     rewrite Hobject, Hprobe; cbn [bind ret log]; rewrite ?Hid; reflexivity).
Qed.

(** An object with none of the three fields makes both variants
    panic, where the lenient one was to fall back and the strict one to
    return an error. *)
Lemma CreateMesheryDesign_error_object_panics :
  result (Lenient.CreateMesheryDesign (Examples.online 200 Examples.body_error)
            "kind: Pod" "my app" "")
  = Panics "interface conversion: interface {} is nil, not map[string]interface {}"
  /\ result (Strict.CreateMesheryDesign (Examples.online 200 Examples.body_error)
               "kind: Pod" "my app" "")
     = Panics "interface conversion: interface {} is nil, not map[string]interface {}".
Proof. split; reflexivity. Qed.

(** A body that is valid JSON with an [id] and holds a marker is taken
    for HTML all the same: the probes are not reached. *)
Lemma CreateMesheryDesign_marker_before_json :
  GoJson.decode Examples.body_json_with_marker
  = Some (GoJson.JObject [("id", GoJson.JString "<html>")])
  /\ result (Lenient.CreateMesheryDesign
               (Examples.online 200 Examples.body_json_with_marker)
               "kind: Pod" "my app" "")
     = Returns ("offline-mode-my-app-20261102120007", None)
  /\ result (Strict.CreateMesheryDesign
               (Examples.online 200 Examples.body_json_with_marker)
               "kind: Pod" "my app" "")
     = Returns ("", Some (ErrHTTPPostRequest (Errorf "authentication failed" []))).
Proof. repeat split; reflexivity. Qed.

(** The first two shapes of C1: an [id] at the top, and an [id] inside
    [pattern_file], are extracted by both variants. *)
Lemma CreateMesheryDesign_extracts_id
    (manifest name email body : string) (resp : Response)
    (Hurl : url_parses w (submissionURL w) = true)
    (Hnet : forall c r, transport w c r = inl resp)
    (Hbody : Body resp = (body, None))
    (Hshape : body = Examples.body_id \/ body = Examples.body_pattern_file)
    (Hstatus : (StatusCode resp = 200 \/ StatusCode resp = 201)%Z) :
  result (Lenient.CreateMesheryDesign w manifest name email) = Returns ("abc123", None)
  /\ result (Strict.CreateMesheryDesign w manifest name email) = Returns ("abc123", None).
Proof.
  split; submit Hurl Hnet; rewrite Hbody; cbn [bind ret log];
    destruct Hshape as [-> | ->]; destruct Hstatus as [-> | ->]; reflexivity.
Qed.

(** C1, where the code departs from it.  On a response with status 200
    or 201 and the body [{"pattern_id": "abc123"}] neither variant
    returns: the probe of [pattern_file], reached because there is no
    [id] at the top, asserts a map on the nil interface and panics. *)
Theorem CreateMesheryDesign_pattern_id_panics
    (manifest name email : string) (resp : Response)
    (Hurl : url_parses w (submissionURL w) = true)
    (Hnet : forall c r, transport w c r = inl resp)
    (Hbody : Body resp = (Examples.body_pattern_id, None))
    (Hstatus : (StatusCode resp = 200 \/ StatusCode resp = 201)%Z) :
  result (Lenient.CreateMesheryDesign w manifest name email)
  = Panics "interface conversion: interface {} is nil, not map[string]interface {}"
  /\ result (Strict.CreateMesheryDesign w manifest name email)
     = Panics "interface conversion: interface {} is nil, not map[string]interface {}".
Proof.
  split; submit Hurl Hnet; rewrite Hbody; cbn [bind ret log];
    destruct Hstatus as [-> | ->]; reflexivity.
Qed.

End Submission.




Lemma CreateMesheryDesign_pattern_id_panics_witness :
  Runtime.result
    (Lenient.CreateMesheryDesign (Examples.online 200 Examples.body_pattern_id)
       "kind: Pod" "my app" "")
  = Runtime.Panics "interface conversion: interface {} is nil, not map[string]interface {}"
  /\ Runtime.result
       (Strict.CreateMesheryDesign (Examples.online 200 Examples.body_pattern_id)
          "kind: Pod" "my app" "")
     = Runtime.Panics "interface conversion: interface {} is nil, not map[string]interface {}".
Proof.
  apply (CreateMesheryDesign_pattern_id_panics
           (Examples.online 200 Examples.body_pattern_id) "kind: Pod" "my app" ""
           (Runtime.mkResponse "" 200 (Examples.body_pattern_id, None)));
    [reflexivity | reflexivity | reflexivity | left; reflexivity].
Defined.


(* ================================================================== *)
(** ** The extension of a path and the suffix test *)
(* ================================================================== *)

Section Extension.

Import GoStrings GoFS GoRegexp Kanvas Spec.

Lemma list_of_append (a b : string) :
  list_ascii_of_string (a ++ b)
  = (list_ascii_of_string a ++ list_ascii_of_string b)%list.
Proof. induction a as [|x a IH]; simpl; [reflexivity | now rewrite IH]. Qed.

Lemma string_of_app (l m : list ascii) :
  string_of_list_ascii (l ++ m) = string_of_list_ascii l ++ string_of_list_ascii m.
Proof. induction l as [|x l IH]; simpl; [reflexivity | now rewrite IH]. Qed.

(** Scanning stops at the separator: what lies before it in the path
    does not count. *)
Lemma ext_scan_separator (l rest : list ascii) :
  forall acc, ext_scan (l ++ "/"%char :: rest) acc = ext_scan l acc.
Proof.
  induction l as [|c l IH]; intros acc; simpl; [reflexivity|].
  destruct (Ascii.eqb c "/"); [reflexivity|].
  destruct (Ascii.eqb c "."); [reflexivity | apply IH].
Qed.

Lemma Ext_Join (dir name : string) : Ext (Join dir name) = Ext name.
Proof.
  unfold Ext, Join. rewrite !list_of_append, !rev_app_distr. simpl.
  rewrite <- app_assoc. simpl. apply ext_scan_separator.
Qed.

(** Scanning bytes that are neither dot nor separator up to a dot. *)
Lemma ext_scan_dot (l rest : list ascii) :
  forallb plain_byte l = true ->
  forall acc,
    ext_scan (l ++ "."%char :: rest) acc
    = String "." (string_of_list_ascii (rev l) ++ acc).
Proof.
  induction l as [|c l IH]; intros Hl acc; simpl in *; [reflexivity|].
  apply andb_true_iff in Hl as [Hc Hl]. unfold plain_byte in Hc.
  apply andb_true_iff in Hc as [Hdot Hsep]. apply negb_true_iff in Hdot, Hsep.
  rewrite Hsep, Hdot, (IH Hl), string_of_app, append_assoc. reflexivity.
Qed.

Lemma forallb_all_bytes (p : ascii -> bool) (s : string) :
  forallb p (rev (list_ascii_of_string s)) = all_bytes p s.
Proof.
  induction s as [|c s IH]; simpl; [reflexivity|].
  rewrite forallb_app, IH. simpl. rewrite andb_true_r. apply andb_comm.
Qed.

Lemma Ext_dot (q t : string) :
  all_bytes plain_byte t = true -> Ext (q ++ "." ++ t) = "." ++ t.
Proof.
  intros Ht. unfold Ext. rewrite !list_of_append, !rev_app_distr. simpl.
  rewrite <- app_assoc. simpl. rewrite ext_scan_dot by now rewrite forallb_all_bytes.
  now rewrite rev_involutive, string_of_list_ascii_of_string, append_nil_r.
Qed.

(** The extension is a suffix of the path. *)
Lemma ext_scan_suffix (l : list ascii) :
  forall acc,
    ext_scan l acc = ""
    \/ exists l1 l2, l = (l1 ++ l2)%list
                     /\ ext_scan l acc = string_of_list_ascii (rev l1) ++ acc.
Proof.
  induction l as [|c l IH]; intros acc; simpl; [now left|].
  destruct (Ascii.eqb c "/"); [now left|].
  destruct (Ascii.eqb c ".").
  - right. exists [c], l. split; reflexivity.
  - destruct (IH (String c acc)) as [H | (l1 & l2 & -> & H)]; [now left|].
    right. exists (c :: l1), l2. split; [reflexivity|].
    rewrite H. simpl. now rewrite string_of_app, append_assoc.
Qed.

Lemma Ext_suffix (p : string) : exists q, p = q ++ Ext p.
Proof.
  unfold Ext.
  destruct (ext_scan_suffix (rev (list_ascii_of_string p)) "") as [-> | (l1 & l2 & Hl & ->)].
  - exists p. now rewrite append_nil_r.
  - exists (string_of_list_ascii (rev l2)).
    rewrite append_nil_r, <- string_of_app, <- rev_app_distr, <- Hl, rev_involutive.
    now rewrite string_of_list_ascii_of_string.
Qed.

Lemma lower_byte_dot (c : ascii) : lower_byte c = "."%char -> c = "."%char.
Proof.
  destruct c as [[] [] [] [] [] [] [] []]; vm_compute; intros H;
    first [reflexivity | discriminate H].
Qed.

Lemma lower_byte_plain (c : ascii) :
  plain_byte (lower_byte c) = true -> plain_byte c = true.
Proof.
  destruct c as [[] [] [] [] [] [] [] []]; vm_compute; intros H;
    first [reflexivity | discriminate H].
Qed.

Lemma ToLower_plain (s : string) :
  all_bytes plain_byte (ToLower s) = true -> all_bytes plain_byte s = true.
Proof.
  induction s as [|c s IH]; simpl; [reflexivity|]. intros H.
  apply andb_true_iff in H as [Hc Hs]. now rewrite (lower_byte_plain c Hc), IH.
Qed.

Lemma ToLower_split (p a b : string) :
  ToLower p = a ++ b -> exists q e, p = q ++ e /\ ToLower q = a /\ ToLower e = b.
Proof.
  revert p; induction a as [|x a IH]; intros p H; simpl in H.
  - exists "", p. repeat split; assumption.
  - destruct p as [|c p]; [discriminate|]. simpl in H. injection H as Hc Hp.
    destruct (IH p Hp) as (q & e & -> & Hq & He).
    exists (String c q), e. simpl. now rewrite Hc, Hq.
Qed.

(** For a suffix made of a dot and of bytes that are neither dot nor
    separator, the test of the callback on the lower-cased path is the
    test of the lower-cased extension. *)
Lemma HasSuffix_Ext (p t : string) :
  all_bytes plain_byte t = true ->
  HasSuffix (ToLower p) ("." ++ t) = String.eqb (ToLower (Ext p)) ("." ++ t).
Proof.
  intros Ht. apply eq_true_iff_eq. rewrite HasSuffix_spec, String.eqb_eq. split.
  - intros [a Ha]. apply ToLower_split in Ha as (q & e & -> & _ & He).
    destruct e as [|c e]; [discriminate|]. simpl in He. injection He as Hc He.
    apply lower_byte_dot in Hc as ->.
    change (q ++ String "." e) with (q ++ "." ++ e).
    rewrite Ext_dot by (apply ToLower_plain; now rewrite He).
    simpl. now rewrite He.
  - intros H. destruct (Ext_suffix p) as [q Hq].
    exists (ToLower q). rewrite Hq at 1. now rewrite ToLower_append, H.
Qed.

Lemma isYAMLPath_Ext (p : string) : isYAMLPath p = hasYAMLExt p.
Proof.
  unfold isYAMLPath, hasYAMLExt.
  change ".yaml" with ("." ++ "yaml"). change ".yml" with ("." ++ "yml").
  now rewrite (HasSuffix_Ext p "yaml"), (HasSuffix_Ext p "yml").
Qed.

(** What the callback tests on the path of an entry is whether the
    extension of its name lower-cases to [.yaml] or [.yml]. *)
Lemma isYAMLPath_Join (dir name : string) :
  isYAMLPath (Join dir name) = hasYAMLExt name.
Proof. rewrite isYAMLPath_Ext. unfold hasYAMLExt. now rewrite Ext_Join. Qed.

End Extension.

(* ================================================================== *)
(** ** The collection of manifests *)
(* ================================================================== *)

Section Collection.

Import GoStrings GoFS Runtime Kanvas Spec.

Variable dirPath : string.

Lemma node_nested_ind (P : node -> Prop) :
  (forall data, P (File data)) ->
  (forall listable entries, Forall (fun e => P (snd e)) entries -> P (Dir listable entries)) ->
  P Broken ->
  forall n, P n.
Proof.
  intros HFile HDir HBroken.
  fix self 1. intros [data | listable entries |].
  - apply HFile.
  - apply HDir. induction entries as [|[name child] rest IH]; constructor.
    + apply self.
    + exact IH.
  - exact HBroken.
Qed.

Lemma Join_differs (dir name : string) : String.eqb (Join dir name) dir = false.
Proof.
  apply String.eqb_neq. intros H. apply (f_equal String.length) in H.
  unfold Join in H. rewrite !length_append in H. simpl in H. lia.
Qed.

Lemma nodeMatches_Dir (name : string) (listable : bool) (below : list (string * node)) :
  nodeMatches name (Dir listable below) = treeMatches below.
Proof.
  unfold treeMatches. simpl.
  induction below as [|[nm child] rest IH]; simpl; [reflexivity | now rewrite IH].
Qed.

Lemma node_readable_Dir (name : string) (listable : bool) (below : list (string * node)) :
  node_readable name (Dir listable below) <-> listable = true /\ tree_readable below.
Proof.
  unfold tree_readable. simpl. apply and_iff_compat_l.
  induction below as [|[nm child] rest IH]; simpl.
  - split; [constructor | trivial].
  - rewrite IH. split.
    + intros [H1 H2]. now constructor.
    + intros H. inversion H; subst. now split.
Qed.

(** Without recursion: the loop over the root keeps the files with a
    YAML extension and passes over the directories. *)
Lemma walkEntries_root (entries : list (string * node)) :
  root_readable entries ->
  forall st : walk_state,
  exists logged,
    walkEntries walk_state (walkFn dirPath false)
      (walk walk_state (walkFn dirPath false)) dirPath entries st
    = ((fst st ++ rootMatches entries, logged)%list, None).
Proof.
  induction entries as [|[name child] rest IH]; intros Hread st.
  - exists (snd st). simpl. rewrite app_nil_r. now destruct st.
  - destruct Hread as [Hchild Hrest].
    destruct child as [[data|op] | listable below |]; cbn [walkEntries walk rootMatches].
    + unfold walkFn at 1. cbn [IsDir ReadFile]. rewrite isYAMLPath_Join.
      destruct (hasYAMLExt name); cbn [negb orb IsDir is_SkipDir].
      * destruct (IH Hrest (fst st ++ [data],
                            snd st ++ [EvLog LInfo "Added manifest file: %s"
                                         [AStr (Join dirPath name)]])%list)
          as [logged ->].
        exists logged. cbn [fst]. now rewrite <- app_assoc.
      * apply IH, Hrest.
    + unfold walkFn at 1. cbn [IsDir ReadFile]. rewrite isYAMLPath_Join, Hchild.
      apply IH, Hrest.
    + subst listable. unfold walkFn at 1. cbn [IsDir]. rewrite Join_differs.
      cbn [negb andb orb IsDir is_SkipDir]. apply IH, Hrest.
    + contradiction.
Qed.

(** With recursion: the walk of a readable node gathers its matches. *)
Lemma walk_tree (n : node) :
  forall (parent name : string) (st : walk_state),
    node_readable name n ->
    exists logged,
      walk walk_state (walkFn dirPath true) (Join parent name) n st
      = ((fst st ++ nodeMatches name n, logged)%list, None).
Proof.
  induction n as [data | listable below IH |] using node_nested_ind;
    intros parent name st Hread.
  - cbn [walk]. unfold walkFn. cbn [IsDir ReadFile]. rewrite isYAMLPath_Join.
    destruct data as [data|op]; cbn [node_readable nodeMatches] in *.
    + destruct (hasYAMLExt name); eexists; [reflexivity|].
      now rewrite app_nil_r, <- surjective_pairing.
    + rewrite Hread. eexists. now rewrite app_nil_r, <- surjective_pairing.
  - apply node_readable_Dir in Hread as [-> Hbelow]. rewrite nodeMatches_Dir.
    cbn [walk]. unfold walkFn at 1. cbn [IsDir negb andb]. rewrite andb_false_r.
    generalize (Join parent name) as path. intros path.
    clear parent name. revert st.
    induction below as [|[nm child] rest IHrest]; intros st.
    + exists (snd st). cbn. rewrite app_nil_r. now destruct st.
    + inversion IH as [|? ? Hchild Hothers]; subst.
      inversion Hbelow as [|? ? Rchild Rothers]; subst. cbn [fst snd] in *.
      destruct (Hchild path nm st Rchild) as [logged Hwalk].
      destruct (IHrest Hothers Rothers (fst st ++ nodeMatches nm child, logged)%list)
        as [logged' Hloop].
      cbn [fst] in Hloop. exists logged'.
      unfold treeMatches in *. cbn [flat_map fst snd].
      rewrite app_assoc, <- Hloop. cbn [walkEntries].
      destruct child; [| |contradiction]; now rewrite Hwalk.
  - contradiction.
Qed.

Lemma walkEntries_tree (entries : list (string * node)) :
  tree_readable entries ->
  forall st : walk_state,
  exists logged,
    walkEntries walk_state (walkFn dirPath true)
      (walk walk_state (walkFn dirPath true)) dirPath entries st
    = ((fst st ++ treeMatches entries, logged)%list, None).
Proof.
  induction entries as [|[nm child] rest IH]; intros Hread st.
  - exists (snd st). cbn. rewrite app_nil_r. now destruct st.
  - inversion Hread as [|? ? Rchild Rothers]; subst. cbn [fst snd] in *.
    destruct (walk_tree child dirPath nm st Rchild) as [logged Hwalk].
    destruct (IH Rothers (fst st ++ nodeMatches nm child, logged)%list)
      as [logged' Hloop].
    cbn [fst] in Hloop. exists logged'.
    unfold treeMatches in *. cbn [flat_map fst snd].
    rewrite app_assoc, <- Hloop. cbn [walkEntries].
    destruct child; [| |contradiction]; now rewrite Hwalk.
Qed.

(** Without recursion, a loop that ends without an error has met
    entries that can be examined only; and the error it ends with is
    never [SkipDir]. *)
Lemma walkEntries_root_inv (entries : list (string * node)) :
  forall (st st' : walk_state) (r : option fserror),
    walkEntries walk_state (walkFn dirPath false)
      (walk walk_state (walkFn dirPath false)) dirPath entries st
    = (st', r) ->
    match r with
    | None => root_readable entries
    | Some e => is_SkipDir e = false
    end.
Proof.
  induction entries as [|[name child] rest IH]; intros st st' r H.
  - injection H as _ <-. exact I.
  - destruct child as [[data|op] | [|] below |]; cbn [walkEntries walk root_readable] in *.
    + unfold walkFn at 1 in H. cbn [IsDir ReadFile] in H.
      destruct (isYAMLPath (Join dirPath name)); cbn [negb orb IsDir is_SkipDir] in H;
        apply IH in H; (destruct r; [exact H | split; [exact I | exact H]]).
    + unfold walkFn at 1 in H. cbn [IsDir ReadFile] in H.
      rewrite isYAMLPath_Join in H.
      destruct (hasYAMLExt name); cbn [negb orb IsDir is_SkipDir] in H.
      * injection H as _ <-. reflexivity.
      * apply IH in H. destruct r; [exact H | split; [reflexivity | exact H]].
    + unfold walkFn at 1 in H. cbn [IsDir] in H. rewrite Join_differs in H.
      cbn [negb andb orb IsDir is_SkipDir] in H.
      apply IH in H. destruct r; [exact H | split; [reflexivity | exact H]].
    + unfold walkFn at 1 in H. cbn [IsDir negb andb orb is_SkipDir ErrReadDir] in H.
      injection H as _ <-. reflexivity.
    + unfold walkFn at 1 in H. cbn [is_SkipDir ErrLstat] in H.
      injection H as _ <-. reflexivity.
Qed.

Lemma walkEntries_tree_inv (below : list (string * node)) :
  Forall (fun e => forall parent name st st' r,
              snd e <> Broken ->
              walk walk_state (walkFn dirPath true) (Join parent name) (snd e) st = (st', r) ->
              walk_verdict name (snd e) r) below ->
  forall (path : string) (st st' : walk_state) (r : option fserror),
    walkEntries walk_state (walkFn dirPath true)
      (walk walk_state (walkFn dirPath true)) path below st
    = (st', r) ->
    match r with
    | None => tree_readable below
    | Some e => is_SkipDir e = false
    end.
Proof.
  induction below as [|[nm child] rest IHrest]; intros IH path st st' r H.
  - injection H as _ <-. constructor.
  - inversion IH as [|? ? Hchild Hothers]; subst. cbn [fst snd] in *.
    cbn [walkEntries] in H.
    assert (Hstep : forall st1 r1,
               child <> Broken ->
               walk walk_state (walkFn dirPath true) (Join path nm) child st = (st1, r1) ->
               match r1 with
               | Some e' =>
                   (if negb (IsDir child) || negb (is_SkipDir e')
                    then (st1, Some e')
                    else walkEntries walk_state (walkFn dirPath true)
                           (walk walk_state (walkFn dirPath true)) path rest st1)
               | None => walkEntries walk_state (walkFn dirPath true)
                           (walk walk_state (walkFn dirPath true)) path rest st1
               end = (st', r) ->
               match r with
               | None => tree_readable ((nm, child) :: rest)
               | Some e => is_SkipDir e = false
               end).
    { intros st1 r1 Hn Hw Hloop. pose proof (Hchild path nm st st1 r1 Hn Hw) as V.
      destruct r1 as [e'|]; cbn [walk_verdict] in V.
      - rewrite V, orb_true_r in Hloop. injection Hloop as _ <-. exact V.
      - apply (IHrest Hothers) in Hloop.
        destruct r; [exact Hloop | constructor; assumption]. }
    destruct child as [data | listable deeper |].
    + destruct (walk walk_state (walkFn dirPath true) (Join path nm) (File data) st)
        as [st1 r1] eqn:Hw.
      eapply Hstep; [discriminate | reflexivity | exact H].
    + destruct (walk walk_state (walkFn dirPath true) (Join path nm)
                  (Dir listable deeper) st) as [st1 r1] eqn:Hw.
      eapply Hstep; [discriminate | reflexivity | exact H].
    + unfold walkFn at 1 in H. cbn [is_SkipDir ErrLstat] in H.
      injection H as _ <-. reflexivity.
Qed.

Lemma walk_tree_inv (n : node) :
  forall (parent name : string) (st st' : walk_state) (r : option fserror),
    n <> Broken ->
    walk walk_state (walkFn dirPath true) (Join parent name) n st = (st', r) ->
    walk_verdict name n r.
Proof.
  induction n as [data | listable below IH |] using node_nested_ind;
    intros parent name st st' r Hn H.
  - cbn [walk] in H. unfold walkFn in H. cbn [IsDir ReadFile] in H.
    rewrite isYAMLPath_Join in H.
    destruct data as [data|op].
    + destruct (hasYAMLExt name); injection H as _ <-; exact I.
    + destruct (hasYAMLExt name) eqn:Hy; injection H as _ <-; [reflexivity | exact Hy].
  - cbn [walk] in H.
    destruct listable; unfold walkFn at 1 in H; cbn [IsDir negb andb] in H.
    + rewrite andb_false_r in H. apply (walkEntries_tree_inv below IH) in H.
      destruct r; [exact H|]. apply node_readable_Dir. now split.
    + injection H as _ <-. reflexivity.
  - contradiction.
Qed.

Lemma walkEntries_recursive_inv (entries : list (string * node)) :
  forall (path : string) (st st' : walk_state) (r : option fserror),
    walkEntries walk_state (walkFn dirPath true)
      (walk walk_state (walkFn dirPath true)) path entries st
    = (st', r) ->
    match r with
    | None => tree_readable entries
    | Some e => is_SkipDir e = false
    end.
Proof.
  apply walkEntries_tree_inv. apply Forall_forall.
  intros [nm child] _ parent name st st' r. apply walk_tree_inv.
Qed.

Lemma Subsequence_refl {A : Type} (l : list A) : Subsequence l l.
Proof. induction l; constructor; assumption. Qed.

Lemma Subsequence_skip_app {A : Type} (p l m : list A) :
  Subsequence l m -> Subsequence l (p ++ m).
Proof. intros H. induction p; simpl; [exact H | now constructor]. Qed.

(** The matches of the root are among the matches of the tree, in the
    same order. *)
Lemma rootMatches_treeMatches (entries : list (string * node)) :
  Subsequence (rootMatches entries) (treeMatches entries).
Proof.
  unfold treeMatches.
  induction entries as [|[name child] rest IH]; cbn [rootMatches flat_map fst snd].
  - constructor.
  - destruct child as [[data|op] | listable below |].
    + cbn [nodeMatches]. destruct (hasYAMLExt name); cbn [app];
        [now constructor | exact IH].
    + exact IH.
    + now apply Subsequence_skip_app.
    + exact IH.
Qed.

Variable w : World.

Lemma processDirectory_root (entries : list (string * node)) :
  fs w dirPath = Dir true entries ->
  root_readable entries ->
  result (processDirectory w dirPath false) = Returns (rootMatches entries, None).
Proof.
  intros Hdir Hread. unfold processDirectory, Walk. rewrite Hdir.
  cbn [walk]. unfold walkFn at 1. cbn [IsDir]. rewrite String.eqb_refl.
  cbn [negb andb].
  destruct (walkEntries_root entries Hread ([], [])) as [logged ->].
  reflexivity.
Qed.

Lemma processDirectory_tree (entries : list (string * node)) :
  fs w dirPath = Dir true entries ->
  tree_readable entries ->
  result (processDirectory w dirPath true) = Returns (treeMatches entries, None).
Proof.
  intros Hdir Hread. unfold processDirectory, Walk. rewrite Hdir.
  cbn [walk]. unfold walkFn at 1. cbn [IsDir]. rewrite andb_false_r.
  destruct (walkEntries_tree entries Hread ([], [])) as [logged ->].
  reflexivity.
Qed.

Lemma result_bind_ret {A B : Type} (m : M A) (a : A) (k : A -> M B) :
  result m = Returns a -> result (bind m k) = result (k a).
Proof.
  destruct m as [t o]. cbn. intros ->. cbn. now destruct (k a).
Qed.

Lemma processDirectory_returns (recursive : bool) :
  exists r, result (processDirectory w dirPath recursive) = Returns r.
Proof.
  unfold processDirectory.
  destruct (Walk walk_state (walkFn dirPath recursive) dirPath (fs w dirPath) ([], []))
    as [[manifests logged] err].
  eexists. reflexivity.
Qed.

(** Collection without recursion, on every directory: it ends without
    an error exactly when the directory and its root entries can be
    examined, and then it has gathered the matches of the root. *)
Lemma processDirectory_flat (listable : bool) (entries : list (string * node)) :
  fs w dirPath = Dir listable entries ->
  exists collected err,
    result (processDirectory w dirPath false) = Returns (collected, err)
    /\ (err = None <-> listable = true /\ root_readable entries)
    /\ (err = None -> collected = rootMatches entries).
Proof.
  intros Hdir. unfold processDirectory, Walk. rewrite Hdir. cbn [walk].
  destruct listable; unfold walkFn at 1; cbn [IsDir].
  - rewrite String.eqb_refl. cbn [negb andb].
    destruct (walkEntries walk_state (walkFn dirPath false)
                (walk walk_state (walkFn dirPath false)) dirPath entries ([], []))
      as [[collected logged] r] eqn:Hloop.
    pose proof (walkEntries_root_inv entries _ _ _ Hloop) as V.
    destruct r as [[|op path]|]; [discriminate V | |].
    + exists collected, (Some (PathError op path)).
      split; [reflexivity|]. split; [|discriminate].
      split; [discriminate|]. intros [_ Hread].
      destruct (walkEntries_root entries Hread ([], [])) as [logged' Hok].
      rewrite Hok in Hloop. discriminate Hloop.
    + exists collected, None. split; [reflexivity|]. split; [tauto|]. intros _.
      destruct (walkEntries_root entries V ([], [])) as [logged' Hok].
      rewrite Hok in Hloop. now injection Hloop as <- _.
  - exists [], (Some (ErrReadDir dirPath)). split; [reflexivity|].
    split; [|discriminate]. split; [discriminate | intros [H _]; discriminate H].
Qed.

(** The same with recursion, through the whole tree. *)
Lemma processDirectory_deep (listable : bool) (entries : list (string * node)) :
  fs w dirPath = Dir listable entries ->
  exists collected err,
    result (processDirectory w dirPath true) = Returns (collected, err)
    /\ (err = None <-> listable = true /\ tree_readable entries)
    /\ (err = None -> collected = treeMatches entries).
Proof.
  intros Hdir. unfold processDirectory, Walk. rewrite Hdir. cbn [walk].
  destruct listable; unfold walkFn at 1; cbn [IsDir].
  - rewrite andb_false_r.
    destruct (walkEntries walk_state (walkFn dirPath true)
                (walk walk_state (walkFn dirPath true)) dirPath entries ([], []))
      as [[collected logged] r] eqn:Hloop.
    pose proof (walkEntries_recursive_inv entries _ _ _ _ Hloop) as V.
    destruct r as [[|op path]|]; [discriminate V | |].
    + exists collected, (Some (PathError op path)).
      split; [reflexivity|]. split; [|discriminate].
      split; [discriminate|]. intros [_ Hread].
      destruct (walkEntries_tree entries Hread ([], [])) as [logged' Hok].
      rewrite Hok in Hloop. discriminate Hloop.
    + exists collected, None. split; [reflexivity|]. split; [tauto|]. intros _.
      destruct (walkEntries_tree entries V ([], [])) as [logged' Hok].
      rewrite Hok in Hloop. now injection Hloop as <- _.
  - exists [], (Some (ErrReadDir dirPath)). split; [reflexivity|].
    split; [|discriminate]. split; [discriminate | intros [H _]; discriminate H].
Qed.

(** With at least one match at the root, [getManifestContents] returns
    the matches of the root. *)
Lemma getManifestContents_root_matches (entries : list (string * node)) :
  IsDir (stat w dirPath) = true ->
  fs w dirPath = Dir true entries ->
  root_readable entries ->
  rootMatches entries <> [] ->
  result (getManifestContents w dirPath false) = Returns (rootMatches entries, None).
Proof.
  intros Hstat Hdir Hroot Hsome. unfold getManifestContents.
  destruct (stat w dirPath) as [r | l below |]; try discriminate Hstat. cbn [IsDir].
  rewrite (result_bind_ret _ _ _ (processDirectory_root entries Hdir Hroot)).
  cbn [fst snd]. destruct (rootMatches entries); [contradiction | reflexivity].
Qed.

(** C7, as the code has it.  On every path that [os.Lstat] finds to be
    a directory, collection without recursion ends without an error
    exactly when the directory can be listed and each of its root
    entries can be examined: [os.Lstat] succeeds on it, a file with a
    YAML extension can be read, and a directory can be listed, for
    [filepath.Walk] lists a directory before the callback is asked
    whether to skip it.  It then returns exactly the contents of the
    root files whose extension lower-cases to [.yaml] or [.yml], in the
    order of the listing: the entries of the directories below are
    passed over.  Collection with recursion does the same through the
    whole tree, and its result holds the matches of the root, in their
    order, among those of the subdirectories. *)
Theorem processDirectory_collects_yaml (listable : bool) (entries : list (string * node))
    (Hdir : fs w dirPath = Dir listable entries) :
  (exists collected err,
      result (processDirectory w dirPath false) = Returns (collected, err)
      /\ (err = None <-> listable = true /\ root_readable entries)
      /\ (err = None -> collected = rootMatches entries))
  /\ (exists collected err,
        result (processDirectory w dirPath true) = Returns (collected, err)
        /\ (err = None <-> listable = true /\ tree_readable entries)
        /\ (err = None -> collected = treeMatches entries))
  /\ Subsequence (rootMatches entries) (treeMatches entries).
Proof.
  split; [now apply processDirectory_flat|].
  split; [now apply processDirectory_deep|].
  apply rootMatches_treeMatches.
Qed.

(** A subdirectory that cannot be listed is not passed over.  On a
    directory with one manifest at its root and such a subdirectory,
    collection without recursion gathers the manifest, then ends with
    the error of the listing of the subdirectory, which
    [getManifestContents] turns into its own.  [filepath.Walk] lists a
    directory before it calls back, and the callback returns the error
    of the listing before it looks at the directory, also without
    recursion. *)
Lemma processDirectory_unlistable_subdirectory :
  fs (Examples.on_disk Examples.guarded_dir) "manifests"
  = Dir true [("a.yaml", File (inl "kind: Deployment")); ("private", Dir false [])]
  /\ rootMatches [("a.yaml", File (inl "kind: Deployment")); ("private", Dir false [])]
     = ["kind: Deployment"]
  /\ result (processDirectory (Examples.on_disk Examples.guarded_dir) "manifests" false)
     = Returns (["kind: Deployment"], Some (ErrReadDir "manifests/private"))
  /\ result (getManifestContents (Examples.on_disk Examples.guarded_dir) "manifests" false)
     = Returns ([], Some (ErrReadingManifestFile
                            (FSError (ErrReadDir "manifests/private")))).
Proof. repeat split. Qed.

End Collection.

Lemma processDirectory_collects_yaml_witness :
  (exists collected err,
      Runtime.result
        (Kanvas.processDirectory (Examples.on_disk Examples.manifests_dir) "manifests" false)
      = Runtime.Returns (collected, err)
      /\ (err = None <-> true = true /\ Spec.root_readable Examples.manifests_entries)
      /\ (err = None -> collected = Spec.rootMatches Examples.manifests_entries))
  /\ (exists collected err,
        Runtime.result
          (Kanvas.processDirectory (Examples.on_disk Examples.manifests_dir) "manifests" true)
        = Runtime.Returns (collected, err)
        /\ (err = None <-> true = true /\ Spec.tree_readable Examples.manifests_entries)
        /\ (err = None -> collected = Spec.treeMatches Examples.manifests_entries))
  /\ Spec.Subsequence (Spec.rootMatches Examples.manifests_entries)
       (Spec.treeMatches Examples.manifests_entries).
Proof.
  apply (processDirectory_collects_yaml "manifests"
           (Examples.on_disk Examples.manifests_dir) true Examples.manifests_entries).
  reflexivity.
Defined.

(** On that directory the two collections return two and three
    manifests. *)
Lemma processDirectory_example :
  Runtime.result
    (Kanvas.processDirectory (Examples.on_disk Examples.manifests_dir) "manifests" false)
  = Runtime.Returns (["kind: Deployment"; "kind: Service"], None)
  /\ Runtime.result
       (Kanvas.processDirectory (Examples.on_disk Examples.manifests_dir) "manifests" true)
     = Runtime.Returns (["kind: Deployment"; "kind: ConfigMap"; "kind: Service"], None).
Proof. split; reflexivity. Qed.

(* ================================================================== *)
(** ** The submission, branch by branch *)
(* ================================================================== *)

Section SubmissionBranches.

Import GoStrings GoTime Runtime Kanvas Spec Props.

Variable w : World.

Ltac enter :=
  unfold Lenient.CreateMesheryDesign, Strict.CreateMesheryDesign, NewRequest, Do;
  fold (submissionURL w).

Ltac token_cases :=
  destruct (String.eqb (ProviderToken w) ""); cbn [negb bind ret log].

Lemma generateDummyID_prefix (name : string) :
  HasPrefix (Lenient.generateDummyID w name) "offline-mode-" = true.
Proof. rewrite generateDummyID_eq. apply HasPrefix_spec. eexists. reflexivity. Qed.

Lemma generateDummyID_not_empty (name : string) :
  String.eqb (Lenient.generateDummyID w name) "" = false.
Proof. rewrite generateDummyID_eq. reflexivity. Qed.


Lemma probeObject_quiet (m : list (string * GoJson.value)) :
  http_calls (trace (probeObject m)) = [].
Proof.
  unfold probeObject.
  destruct (GoJson.index m "id"); cbn; try reflexivity;
    destruct (GoJson.index m "pattern_file") as [| | | | |pf]; cbn; try reflexivity;
    destruct (GoJson.index pf "id"); cbn; try reflexivity;
    destruct (GoJson.index m "pattern_id"); cbn; reflexivity.
Qed.

Lemma probeArray_first_id (items : list GoJson.value) :
  result (probeArray items) = Returns (first_id items)
  /\ http_calls (trace (probeArray items)) = [].
Proof.
  unfold probeArray, first_id.
  destruct items as [|[| | | | |m] rest]; cbn; auto.
  destruct (GoJson.index m "id"); cbn; auto.
Qed.





(** X5.  When the request cannot be built, both variants return
    [ErrHTTPPostRequest] and make no outbound call; the lenient variant
    does not fall back here. *)
Theorem CreateMesheryDesign_request_not_built
    (manifest name email : string)
    (Hurl : url_parses w (submissionURL w) = false) :
  (result (Lenient.CreateMesheryDesign w manifest name email)
   = Returns ("", Some (ErrHTTPPostRequest (URLError (submissionURL w))))
   /\ http_calls (trace (Lenient.CreateMesheryDesign w manifest name email)) = [])
  /\ (result (Strict.CreateMesheryDesign w manifest name email)
      = Returns ("", Some (ErrHTTPPostRequest (URLError (submissionURL w))))
      /\ http_calls (trace (Strict.CreateMesheryDesign w manifest name email)) = []).
Proof.
  repeat split; enter; rewrite Hurl; reflexivity.
Qed.


Ltac after_call :=
  match goal with
  | |- context [transport w ?c ?r] =>
      destruct (transport w c r) as [resp | err]; cbn [bind ret log];
      [destruct (Body resp) as [body [rerr|]]; cbn [bind ret log];
       [|destruct (looksLikeHTML body); cbn [bind ret log];
         [|destruct (negb (StatusCode resp =? StatusOK)%Z
                     && negb (StatusCode resp =? StatusCreated)%Z);
           cbn [bind ret log];
           [|destruct (GoJson.Unmarshal_map body) as [m|]; cbn [bind ret log];
             [|destruct (GoJson.Unmarshal_slice body) as [items|]; cbn [bind ret log]]]]]|]
  end.

Lemma submission_ends (manifest name email : string) :
  submission_outcome false (result (Lenient.CreateMesheryDesign w manifest name email))
  /\ submission_outcome true (result (Strict.CreateMesheryDesign w manifest name email)).
Proof.
  pose proof (generateDummyID_not_empty name) as Hdummy.
  apply String.eqb_neq in Hdummy.
  assert (Hpost : forall (strict : bool) (cause : error),
             "" = "" /\ ((exists c, ErrHTTPPostRequest cause = ErrHTTPPostRequest c)
                         \/ (strict = true
                             /\ exists c, ErrHTTPPostRequest cause = ErrDecodingAPI c)))
    by (intros; split; [reflexivity | left; eexists; reflexivity]).
  assert (Hdecode : forall cause : error,
             "" = "" /\ ((exists c, ErrDecodingAPI cause = ErrHTTPPostRequest c)
                         \/ (true = true
                             /\ exists c, ErrDecodingAPI cause = ErrDecodingAPI c)))
    by (intros; split; [reflexivity | right; split; [reflexivity | eexists; reflexivity]]).
  split; enter; destruct (url_parses w (submissionURL w)); cbn [bind ret log];
    try (cbn; apply Hpost);
    token_cases; after_call;
    repeat match goal with
      | |- context [probeObject ?m] =>
          destruct (probeObject m) as [t [id | msg]]; cbn [bind ret log]
      | |- context [probeArray ?items] =>
          destruct (probeArray items) as [t [id | msg]]; cbn [bind ret log]
      | |- context [String.eqb ?id ""] =>
          destruct (String.eqb id "") eqn:Hid; cbn [bind ret log]
      end;
    unfold submission_outcome; cbn [result snd];
    first [exact I | exact Hdummy | apply Hpost | apply Hdecode
          | now apply String.eqb_neq].
Qed.

(** X7.  However a submission ends, an identifier comes without an error
    and is not empty, and an error comes without an identifier. *)
Theorem CreateMesheryDesign_outcome (manifest name email : string) :
  submission_outcome false (result (Lenient.CreateMesheryDesign w manifest name email))
  /\ submission_outcome true (result (Strict.CreateMesheryDesign w manifest name email)).
Proof. exact (submission_ends manifest name email). Qed.

Lemma submission_calls (manifest name email : string) :
  submission_wire w (trace (Lenient.CreateMesheryDesign w manifest name email))
  /\ submission_wire w (trace (Strict.CreateMesheryDesign w manifest name email)).
Proof.
  split; enter; unfold submission_wire;
    destruct (url_parses w (submissionURL w)); cbn [bind ret log];
    try (left; split; reflexivity);
    right; (split; [reflexivity|]);
    destruct (String.eqb (ProviderToken w) "") eqn:Htoken; cbn [negb bind ret log];
    after_call;
    repeat match goal with
      | |- context [probeObject ?m] =>
          pose proof (probeObject_quiet m) as Hquiet;
          destruct (probeObject m) as [t [id | msg]]; cbn [bind ret log]
      | |- context [probeArray ?items] =>
          destruct (probeArray_first_id items) as [_ Hquiet];
          destruct (probeArray items) as [t [id | msg]]; cbn [bind ret log]
      | |- context [String.eqb ?id ""] =>
          destruct (String.eqb id "") eqn:Hid; cbn [bind ret log]
      end;
    cbn [trace fst app] in *; unfold http_calls in *;
    eexists;
    (split;
     [repeat (cbn [filter is_http app]; rewrite ?filter_app, ?Hquiet);
      reflexivity
     |cbn; rewrite ?Htoken; repeat split; reflexivity]).
Qed.

(** X8.  Whatever the answer, a submission makes at most one call: none
    when the request cannot be built, else one POST to the submission
    URL with the JSON content type, and with the cookie exactly when a
    provider token is set. *)
Theorem CreateMesheryDesign_wire (manifest name email : string) :
  submission_wire w (trace (Lenient.CreateMesheryDesign w manifest name email))
  /\ submission_wire w (trace (Strict.CreateMesheryDesign w manifest name email)).
Proof. exact (submission_calls manifest name email). Qed.

End SubmissionBranches.





Lemma CreateMesheryDesign_request_not_built_witness :
  (Runtime.result (Lenient.CreateMesheryDesign Cases.malformed "kind: Pod" "my app" "")
   = Runtime.Returns
       ("", Some (Runtime.ErrHTTPPostRequest
                    (Runtime.URLError (Spec.submissionURL Cases.malformed))))
   /\ Runtime.http_calls
        (Runtime.trace (Lenient.CreateMesheryDesign Cases.malformed "kind: Pod" "my app" ""))
      = [])
  /\ (Runtime.result (Strict.CreateMesheryDesign Cases.malformed "kind: Pod" "my app" "")
      = Runtime.Returns
          ("", Some (Runtime.ErrHTTPPostRequest
                       (Runtime.URLError (Spec.submissionURL Cases.malformed))))
      /\ Runtime.http_calls
           (Runtime.trace (Strict.CreateMesheryDesign Cases.malformed "kind: Pod" "my app" ""))
         = []).
Proof.
  apply (CreateMesheryDesign_request_not_built Cases.malformed "kind: Pod" "my app" "").
  reflexivity.
Defined.


(* ================================================================== *)
(** ** Names, excerpts and view URLs *)
(* ================================================================== *)

Section Names.

Import GoStrings GoFS GoRegexp Runtime Kanvas Spec Props.

Lemma take_append (a b : string) : take (String.length a) (a ++ b) = a.
Proof. induction a as [|x a IH]; simpl; [now destruct b | now rewrite IH]. Qed.

Lemma length_take (n : nat) (s : string) :
  String.length (take n s) = Nat.min n (String.length s).
Proof.
  revert s; induction n as [|n IH]; intros [|c s]; simpl; try reflexivity.
  now rewrite IH.
Qed.

Lemma TrimSuffix_append (a suffix : string) : TrimSuffix (a ++ suffix) suffix = a.
Proof.
  unfold TrimSuffix.
  replace (HasSuffix (a ++ suffix) suffix) with true
    by (symmetry; apply HasSuffix_spec; now exists a).
  rewrite length_append.
  replace (String.length a + String.length suffix - String.length suffix)
    with (String.length a) by lia.
  apply take_append.
Qed.

Lemma plain_not_separator (c : ascii) : plain_byte c = true -> not_separator c = true.
Proof. unfold plain_byte, not_separator. now intros [_ H]%andb_true_iff. Qed.

Lemma all_bytes_weaken (p q : ascii -> bool) (s : string) :
  (forall c, p c = true -> q c = true) -> all_bytes p s = true -> all_bytes q s = true.
Proof.
  intros Hpq. induction s as [|c s IH]; simpl; [reflexivity|].
  intros [Hc Hs]%andb_true_iff. now rewrite (Hpq c Hc), IH.
Qed.

Lemma last_element_plain (l : list ascii) :
  forallb not_separator l = true ->
  forall acc, last_element l acc = string_of_list_ascii (rev l) ++ acc.
Proof.
  induction l as [|c l IH]; intros Hl acc; simpl in *; [reflexivity|].
  apply andb_true_iff in Hl as [Hc Hl]. unfold not_separator in Hc.
  apply negb_true_iff in Hc. rewrite Hc, (IH Hl), string_of_app, append_assoc.
  reflexivity.
Qed.

Lemma last_element_separator (l rest : list ascii) :
  forallb not_separator l = true ->
  forall acc,
    last_element (l ++ "/"%char :: rest) acc = string_of_list_ascii (rev l) ++ acc.
Proof.
  induction l as [|c l IH]; intros Hl acc; simpl in *; [reflexivity|].
  apply andb_true_iff in Hl as [Hc Hl]. unfold not_separator in Hc.
  apply negb_true_iff in Hc. rewrite Hc, (IH Hl), string_of_app, append_assoc.
  reflexivity.
Qed.

Lemma rev_list_cons (file : string) :
  file <> "" -> all_bytes not_separator file = true ->
  exists c l, rev (list_ascii_of_string file) = c :: l
              /\ Ascii.eqb c "/" = false
              /\ forallb not_separator (c :: l) = true.
Proof.
  intros Hne Hfile. rewrite <- forallb_all_bytes in Hfile.
  destruct (rev (list_ascii_of_string file)) as [|c l] eqn:Hrev.
  - destruct file as [|x file]; [contradiction|]. simpl in Hrev.
    now apply app_eq_nil in Hrev as [_ Hnil].
  - exists c, l. repeat split; [|exact Hfile].
    simpl in Hfile. apply andb_true_iff in Hfile as [Hc _].
    now apply negb_true_iff in Hc.
Qed.

(** The last element of a path is a file name given alone, and the
    entry of a directory. *)
Lemma Base_plain (file : string) :
  file <> "" -> all_bytes not_separator file = true -> Base file = file.
Proof.
  intros Hne Hfile. destruct (rev_list_cons file Hne Hfile) as (c & l & Hrev & Hc & Hl).
  unfold Base. destruct file as [|x file]; [contradiction|].
  rewrite Hrev. cbn [strip_trailing_slashes]. rewrite Hc.
  rewrite (last_element_plain _ Hl), <- Hrev, rev_involutive.
  now rewrite string_of_list_ascii_of_string, append_nil_r.
Qed.

Lemma Base_Join (dir file : string) :
  file <> "" -> all_bytes not_separator file = true -> Base (Join dir file) = file.
Proof.
  intros Hne Hfile. destruct (rev_list_cons file Hne Hfile) as (c & l & Hrev & Hc & Hl).
  unfold Base, Join.
  destruct (dir ++ "/" ++ file) as [|x p] eqn:Hpath;
    [destruct dir; discriminate Hpath|].
  rewrite <- Hpath. rewrite !list_of_append, !rev_app_distr. simpl.
  rewrite <- app_assoc. simpl. rewrite Hrev.
  cbn [strip_trailing_slashes app]. rewrite Hc. cbn [last_element]. rewrite Hc.
  apply andb_true_iff in Hl as [_ Hl].
  rewrite (last_element_separator _ _ Hl).
  rewrite <- (string_of_list_ascii_of_string file).
  rewrite <- (rev_involutive (list_ascii_of_string file)), Hrev.
  simpl. now rewrite string_of_app.
Qed.

(** X9.  The name [ExtractNameFromPath] gives and the extension it cuts
    off make up the last element of the path again, for every path. *)
Theorem ExtractNameFromPath_rejoins (path : string) :
  ExtractNameFromPath path ++ Ext (Base path) = Base path.
Proof.
  destruct (Ext_suffix (Base path)) as [q Hq].
  unfold ExtractNameFromPath. cbv zeta.
  remember (Ext (Base path)) as e eqn:He in *. clear He.
  rewrite Hq. now rewrite TrimSuffix_append.
Qed.

(** X10.  For a file [name.ext], given alone or inside a directory, the name
    is [name]: the directory goes, and of the dots of the file name only
    the last one counts. *)
Theorem ExtractNameFromPath_stem (dir name ext : string)
    (Hname : all_bytes not_separator name = true)
    (Hext : all_bytes plain_byte ext = true) :
  ExtractNameFromPath (name ++ "." ++ ext) = name
  /\ ExtractNameFromPath (Join dir (name ++ "." ++ ext)) = name.
Proof.
  assert (Hne : name ++ "." ++ ext <> "") by (destruct name; discriminate).
  assert (Hfile : all_bytes not_separator (name ++ "." ++ ext) = true).
  { rewrite all_bytes_append, Hname. simpl.
    now rewrite (all_bytes_weaken _ _ ext plain_not_separator Hext). }
  unfold ExtractNameFromPath. cbv zeta.
  rewrite (Base_plain _ Hne Hfile), (Base_Join dir _ Hne Hfile), (Ext_dot name ext Hext).
  now rewrite TrimSuffix_append.
Qed.

(** X11.  The excerpt [trimString] gives starts as the string does and is at
    most three bytes longer than the bound: the string itself when it
    fits, else its first [maxLen] bytes and three dots. *)
Theorem trimString_bounded (s : string) (maxLen : nat) :
  String.length (trimString s maxLen) <= maxLen + 3
  /\ take maxLen (trimString s maxLen) = take maxLen s
  /\ (if (String.length s <=? maxLen)%nat then trimString s maxLen = s
      else String.length (trimString s maxLen) = maxLen + 3).
Proof.
  unfold trimString. destruct (Nat.leb_spec (String.length s) maxLen) as [Hle | Hlt].
  - repeat split. lia.
  - assert (Hlen : String.length (take maxLen s) = maxLen)
      by (rewrite length_take; lia).
    rewrite length_append, Hlen. split; [simpl; lia|]. split; [|simpl; lia].
    rewrite <- Hlen at 1. apply take_append.
Qed.

(** X12.  The view URL is built on the base URL without one [/api] at its
    end, and only that: a base URL that does not end so is taken as it
    is.  The two variants differ in the path they add. *)
Theorem getDesignViewURL_base (w : World) (designID : string) :
  exists host : string,
    (if HasSuffix (MesheryAPIBaseURL w) "/api"
     then MesheryAPIBaseURL w = host ++ "/api"
     else MesheryAPIBaseURL w = host)
    /\ Lenient.getDesignViewURL w designID
       = host ++ "/extension/meshmap/design/" ++ designID
    /\ Strict.getDesignViewURL w designID
       = host ++ "/extension/meshmap?mode=design&design=" ++ designID.
Proof.
  unfold Lenient.getDesignViewURL, Strict.getDesignViewURL.
  destruct (HasSuffix (MesheryAPIBaseURL w) "/api") eqn:Hsuffix.
  - apply HasSuffix_spec in Hsuffix as [host Hhost]. exists host.
    rewrite Hhost, TrimSuffix_append. repeat split.
  - exists (MesheryAPIBaseURL w). unfold TrimSuffix. rewrite Hsuffix. repeat split.
Qed.

End Names.

Lemma ExtractNameFromPath_stem_witness :
  Kanvas.ExtractNameFromPath ("my.app" ++ "." ++ "yaml") = "my.app"
  /\ Kanvas.ExtractNameFromPath (GoFS.Join "./manifests" ("my.app" ++ "." ++ "yaml"))
     = "my.app".
Proof.
  apply (ExtractNameFromPath_stem "./manifests" "my.app" "yaml"); reflexivity.
Defined.

(* ================================================================== *)
(** ** What every walk keeps *)
(* ================================================================== *)

Section WalkInvariant.

Import GoFS.

Variable St : Type.
Variable fn : string -> node -> option fserror -> St -> St * option fserror.
Variable P : St -> Prop.

Hypothesis Hstep :
  forall path info err st, P st -> P (fst (fn path info err st)).

Lemma walkEntries_invariant (entries : list (string * node)) :
  Forall (fun e => forall path st, P st -> P (fst (walk St fn path (snd e) st))) entries ->
  forall path st, P st -> P (fst (walkEntries St fn (walk St fn) path entries st)).
Proof.
  induction entries as [|[name child] rest IH]; intros Hall path st Hst.
  - exact Hst.
  - inversion Hall as [|? ? Hchild Hrest]; subst. cbn [snd] in Hchild.
    cbn [walkEntries]. destruct child as [data | listable below |].
    + pose proof (Hchild (Join path name) st Hst) as Hnext.
      destruct (walk St fn (Join path name) (File data) st) as [st' [e|]];
        cbn [fst IsDir negb orb] in *; [exact Hnext | now apply IH].
    + pose proof (Hchild (Join path name) st Hst) as Hnext.
      destruct (walk St fn (Join path name) (Dir listable below) st) as [st' [e|]];
        cbn [fst IsDir negb orb] in *; [|now apply IH].
      destruct (negb (is_SkipDir e)); [exact Hnext | now apply IH].
    + pose proof (Hstep (Join path name) Broken (Some (ErrLstat (Join path name))) st Hst)
        as Hnext.
      destruct (fn (Join path name) Broken (Some (ErrLstat (Join path name))) st)
        as [st' [e|]]; cbn [fst] in *; [|now apply IH].
      destruct (is_SkipDir e); [now apply IH | exact Hnext].
Qed.

Lemma walk_invariant (n : node) :
  forall path st, P st -> P (fst (walk St fn path n st)).
Proof.
  induction n as [data | listable below IH |] using node_nested_ind;
    intros path st Hst; cbn [walk]; try now apply Hstep.
  pose proof (Hstep path (Dir listable below)
                (if listable then None else Some (ErrReadDir path)) st Hst) as Hnext.
  destruct (fn path (Dir listable below)
              (if listable then None else Some (ErrReadDir path)) st) as [st1 err1].
  cbn [fst] in Hnext.
  destruct listable; [|exact Hnext].
  destruct err1; [exact Hnext|].
  now apply walkEntries_invariant.
Qed.

Lemma Walk_invariant (root : string) (info : node) (st : St) :
  P st -> P (fst (Walk St fn root info st)).
Proof.
  intros Hst. unfold Walk.
  assert (Hrun : P (fst match info with
                        | Broken => fn root Broken (Some (ErrLstat root)) st
                        | _ => walk St fn root info st
                        end))
    by (destruct info; [apply walk_invariant | apply walk_invariant | apply Hstep];
        exact Hst).
  destruct (match info with
            | Broken => fn root Broken (Some (ErrLstat root)) st
            | _ => walk St fn root info st
            end) as [st' [[|op p]|]]; exact Hrun.
Qed.

End WalkInvariant.

(* ================================================================== *)
(** ** The reading of the manifests, for every path *)
(* ================================================================== *)

Section Reading.

Import GoStrings GoFS Runtime Kanvas Spec Props.

Variable w : World.

Lemma walkFn_counted (dirPath : string) (recursive : bool)
    (path : string) (info : node) (err : option fserror) (st : walk_state) :
  counted st -> counted (fst (walkFn dirPath recursive path info err st)).
Proof.
  intros [Hlen Hall]. unfold walkFn.
  destruct err; [now split|].
  destruct (IsDir info);
    [destruct (negb (String.eqb path dirPath) && negb recursive); now split|].
  destruct (isYAMLPath path); [|now split].
  destruct (ReadFile path info); [|now split].
  split; cbn [fst snd].
  - rewrite !length_app, Hlen. reflexivity.
  - apply Forall_app. split; [exact Hall|]. constructor; [|constructor].
    now exists path.
Qed.

Lemma added_lines_quiet (t : list event) : Forall added_line t -> http_calls t = [].
Proof.
  induction 1 as [|e t [path ->] _ IH]; [reflexivity | exact IH].
Qed.

(** X13.  [processDirectory] logs one line for each manifest it returns, and
    nothing else, also when the walk ends with an error and the
    manifests gathered so far come back with it. *)
Theorem processDirectory_logs_each_manifest (dirPath : string) (recursive : bool) :
  exists (manifests : list string) (err : option fserror),
    result (processDirectory w dirPath recursive) = Returns (manifests, err)
    /\ List.length (trace (processDirectory w dirPath recursive)) = List.length manifests
    /\ Forall added_line (trace (processDirectory w dirPath recursive)).
Proof.
  unfold processDirectory.
  pose proof (Walk_invariant walk_state (walkFn dirPath recursive) counted
                (walkFn_counted dirPath recursive) dirPath (fs w dirPath) ([], [])) as Hkept.
  destruct (Walk walk_state (walkFn dirPath recursive) dirPath (fs w dirPath) ([], []))
    as [[manifests logged] err].
  destruct Hkept as [Hlen Hall]; [split; [reflexivity | constructor]|].
  exists manifests, err. repeat split; assumption.
Qed.

Lemma reading_ends (path : string) (recursive : bool) :
  manifests_outcome (result (getManifestContents w path recursive))
  /\ http_calls (trace (getManifestContents w path recursive)) = [].
Proof.
  unfold getManifestContents.
  destruct (stat w path) as [[data|op] | listable below |] eqn:Hnode; cbn [IsDir ReadFile].
  - split; [discriminate | reflexivity].
  - split; [split; [reflexivity | eexists; reflexivity] | reflexivity].
  - unfold processDirectory.
    pose proof (Walk_invariant walk_state (walkFn path recursive) counted
                  (walkFn_counted path recursive) path (fs w path) ([], []))
      as Hkept.
    destruct (Walk walk_state (walkFn path recursive) path (fs w path) ([], []))
      as [[manifests logged] err].
    destruct Hkept as [_ Hall]; [split; [reflexivity | constructor]|].
    apply added_lines_quiet in Hall.
    cbn [bind fst snd]. destruct err as [e|]; cbn [ret].
    + cbn [trace result fst snd]. rewrite ?app_nil_r.
      split; [split; [reflexivity | eexists; reflexivity] | exact Hall].
    + destruct manifests as [|m rest]; cbn [List.length Nat.eqb ret trace result fst snd];
        rewrite ?app_nil_r; (split; [|exact Hall]).
      * split; [reflexivity | eexists; reflexivity].
      * discriminate.
  - split; [split; [reflexivity | eexists; reflexivity] | reflexivity].
Qed.

(** X14.  Whatever the path names, [getManifestContents] ends in one of two
    ways: with at least one manifest and no error, or with no manifest
    and [ErrReadingManifestFile]; and it makes no outbound call. *)
Theorem getManifestContents_outcome (path : string) (recursive : bool) :
  manifests_outcome (result (getManifestContents w path recursive))
  /\ http_calls (trace (getManifestContents w path recursive)) = [].
Proof. exact (reading_ends path recursive). Qed.

End Reading.

(* ================================================================== *)
(** ** A directory without a manifest *)
(* ================================================================== *)

Section EmptyDirectory.

Import GoStrings GoFS Runtime Kanvas Spec Props.

Variable w : World.
Variable dirPath : string.

(** C8.  On a path that [os.Stat] finds to be a directory,
    [getManifestContents] never returns an empty set of manifests: it
    ends with at least one manifest and no error, or with no manifest
    and an [ErrReadingManifestFile].  A traversal that ends without an
    error and without a manifest is answered with the
    [ErrReadingManifestFile] of "no YAML files found"; so is, in
    particular, a directory that can be examined and holds no file with
    a YAML extension, at its root without recursion, anywhere with
    recursion. *)
Theorem getManifestContents_empty_directory (recursive : bool)
    (Hdir : IsDir (stat w dirPath) = true) :
  (exists (manifests : list string) (err : option error),
      result (getManifestContents w dirPath recursive) = Returns (manifests, err)
      /\ ((err = None /\ manifests <> [])
          \/ (manifests = [] /\ exists cause, err = Some (ErrReadingManifestFile cause))))
  /\ (forall logged : list event,
         processDirectory w dirPath recursive = (logged, Returns ([], None)) ->
         getManifestContents w dirPath recursive
         = (logged,
            Returns ([], Some (ErrReadingManifestFile
                                 (Errorf "no YAML files found in the specified directory"
                                    [])))))
  /\ (forall entries : list (string * node),
         fs w dirPath = Dir true entries ->
         (if recursive then tree_readable entries else root_readable entries) ->
         (if recursive then treeMatches entries else rootMatches entries) = [] ->
         result (getManifestContents w dirPath recursive)
         = Returns ([], Some (ErrReadingManifestFile
                                (Errorf "no YAML files found in the specified directory"
                                   [])))).
Proof.
  assert (Hzero : forall logged : list event,
             processDirectory w dirPath recursive = (logged, Returns ([], None)) ->
             getManifestContents w dirPath recursive
             = (logged,
                Returns ([], Some (ErrReadingManifestFile
                                     (Errorf "no YAML files found in the specified directory"
                                        []))))).
  { intros logged Hwalk. unfold getManifestContents.
    destruct (stat w dirPath) as [r | l below |]; try discriminate Hdir.
    cbn [IsDir]. rewrite Hwalk. cbn. now rewrite app_nil_r. }
  split; [|split; [exact Hzero|]].
  - destruct (reading_ends w dirPath recursive) as [Hout _].
    destruct (result (getManifestContents w dirPath recursive))
      as [[manifests [err|]] | msg]; cbn [manifests_outcome] in Hout; [| |contradiction].
    + destruct Hout as [-> [cause ->]].
      exists [], (Some (ErrReadingManifestFile cause)).
      split; [reflexivity | right; split; [reflexivity | now exists cause]].
    + exists manifests, None. split; [reflexivity | left; now split].
  - intros entries Hroot Hread Hnone.
    assert (Hwalk : result (processDirectory w dirPath recursive) = Returns ([], None)).
    { rewrite <- Hnone. destruct recursive;
        [now apply processDirectory_tree | now apply processDirectory_root]. }
    destruct (processDirectory w dirPath recursive) as [logged o] eqn:Hrun.
    cbn [result snd] in Hwalk. subst o. now rewrite (Hzero logged eq_refl).
Qed.

(** X30.  A path that is a symbolic link to a directory: [os.Stat] follows
    the link and finds the directory, [os.Lstat] of [filepath.Walk]
    finds the link, which is no directory, and the walk hands the
    callback the link alone.  Unless the path itself ends in [.yaml] or
    [.yml], nothing is gathered and [getManifestContents] fails with "no
    YAML files found", whatever the directory holds. *)
Theorem getManifestContents_linked_directory (recursive : bool) (r : string + string)
    (Hdir : IsDir (stat w dirPath) = true)
    (Hlink : fs w dirPath = File r)
    (Hname : isYAMLPath dirPath = false) :
  getManifestContents w dirPath recursive
  = ([], Returns ([], Some (ErrReadingManifestFile
                              (Errorf "no YAML files found in the specified directory"
                                 [])))).
Proof.
  unfold getManifestContents.
  destruct (stat w dirPath) as [r' | l below |]; try discriminate Hdir.
  cbn [IsDir]. unfold processDirectory, Walk. rewrite Hlink.
  cbn [walk]. unfold walkFn. cbn [IsDir]. rewrite Hname. reflexivity.
Qed.

End EmptyDirectory.

Lemma getManifestContents_empty_directory_witness :
  GoFS.IsDir (Runtime.stat (Examples.on_disk Examples.notes_dir) "manifests") = true
  /\ Runtime.fs (Examples.on_disk Examples.notes_dir) "manifests"
     = GoFS.Dir true [("notes.txt", GoFS.File (inl "notes")); ("empty", GoFS.Dir true [])]
  /\ Spec.rootMatches [("notes.txt", GoFS.File (inl "notes")); ("empty", GoFS.Dir true [])]
     = []
  /\ Runtime.result
       (Kanvas.getManifestContents (Examples.on_disk Examples.notes_dir) "manifests" false)
     = Runtime.Returns
         ([], Some (Runtime.ErrReadingManifestFile
                      (Runtime.Errorf "no YAML files found in the specified directory"
                         []))).
Proof.
  split; [reflexivity|]. split; [reflexivity|]. split; [reflexivity|].
  apply (proj2 (proj2 (getManifestContents_empty_directory
                         (Examples.on_disk Examples.notes_dir) "manifests" false eq_refl))
           [("notes.txt", GoFS.File (inl "notes")); ("empty", GoFS.Dir true [])]).
  - reflexivity.
  - cbn. repeat split.
  - reflexivity.
Defined.

Lemma getManifestContents_linked_directory_witness :
  Kanvas.getManifestContents Cases.linked "manifests" true
  = ([], Runtime.Returns
           ([], Some (Runtime.ErrReadingManifestFile
                        (Runtime.Errorf "no YAML files found in the specified directory"
                           [])))).
Proof.
  apply (getManifestContents_linked_directory Cases.linked "manifests" true (inr "read"));
    reflexivity.
Defined.

(* ================================================================== *)
(** ** The trigger on the wire, and after a fallback *)
(* ================================================================== *)

Section TriggerWire.

Import GoStrings Runtime Kanvas Spec Props.

Variable w : World.

Lemma orDefault_orElse (value default what : string) :
  exists t, orDefault value default what = (t, Returns (Command.orElse value default))
            /\ http_calls t = [].
Proof.
  unfold orDefault, Command.orElse. destruct (String.eqb value ""); cbn;
    eexists; split; reflexivity.
Qed.

Lemma dispatchWorkflow_wire (designID assetLocation token : string) :
  trigger_wire w designID assetLocation token
    (trace (dispatchWorkflow w designID assetLocation token)).
Proof.
  unfold dispatchWorkflow.
  destruct (orDefault_orElse (repoOwner w) "layer5labs" "repository owner")
    as (t1 & -> & H1).
  destruct (orDefault_orElse (repoName w) "kubectl-kanvas-snapshot" "repository name")
    as (t2 & -> & H2).
  destruct (orDefault_orElse (workflowID w) "kanvas.yaml" "workflow ID")
    as (t3 & -> & H3).
  assert (Hasset : forall default,
             Command.orElse assetLocation default
             = if String.eqb assetLocation "" then default else assetLocation)
    by reflexivity.
  unfold NewRequest, Do, trigger_wire, assetOr. rewrite Hasset. clear Hasset.
  destruct (String.eqb assetLocation ""); cbn [bind ret log];
    fold (dispatchURL w);
    destruct (url_parses w (dispatchURL w)); cbn [bind ret log trace fst];
    rewrite ?http_calls_app, ?H1, ?H2, ?H3; cbn [http_calls filter is_http app];
    try (left; split; reflexivity);
    right; (split; [reflexivity|]);
    match goal with |- context [transport w ?c ?r] =>
      destruct (transport w c r) as [resp | err] end;
    cbn [bind ret log trace fst];
    try destruct (negb (StatusCode resp =? StatusNoContent)%Z
                  && negb (StatusCode resp =? StatusOK)%Z);
    cbn [bind ret log trace fst];
    rewrite ?http_calls_app, ?H1, ?H2, ?H3; cbn [http_calls filter is_http app];
    eexists; (split; [reflexivity|]); cbn; repeat split; reflexivity.
Qed.

(** X15.  For an identifier without the offline prefix and a token that is
    not empty, the trigger of either variant makes no call when the
    URL of the dispatch does not parse, and else one POST to the
    workflow of the repository (by default [kanvas.yaml] of
    [layer5labs/kubectl-kanvas-snapshot]) that carries the token, the
    identifier and the asset location. *)
Theorem GenerateSnapshot_wire (designID assetLocation token : string)
    (Honline : HasPrefix designID "offline-mode-" = false)
    (Htoken : token <> "") :
  trigger_wire w designID assetLocation token
    (trace (Lenient.GenerateSnapshot w designID assetLocation token))
  /\ trigger_wire w designID assetLocation token
       (trace (Strict.GenerateSnapshot w designID assetLocation token)).
Proof.
  pose proof (dispatchWorkflow_wire designID assetLocation token) as Hwire.
  unfold Lenient.GenerateSnapshot, Strict.GenerateSnapshot. rewrite Honline.
  apply String.eqb_neq in Htoken. rewrite Htoken.
  destruct (dispatchWorkflow w designID assetLocation token) as [t o].
  split; exact Hwire.
Qed.

End TriggerWire.

Lemma GenerateSnapshot_wire_witness :
  Props.trigger_wire (Examples.online 204 "") "abc123" "" "ghp_token"
    (Runtime.trace
       (Lenient.GenerateSnapshot (Examples.online 204 "") "abc123" "" "ghp_token"))
  /\ Props.trigger_wire (Examples.online 204 "") "abc123" "" "ghp_token"
       (Runtime.trace
          (Strict.GenerateSnapshot (Examples.online 204 "") "abc123" "" "ghp_token")).
Proof.
  apply (GenerateSnapshot_wire (Examples.online 204 "") "abc123" "" "ghp_token");
    [reflexivity | discriminate].
Defined.

(* ================================================================== *)
(** ** The verdict of the trigger *)
(* ================================================================== *)

Section TriggerVerdict.

Import GoStrings Runtime Kanvas Spec Props.

Variable w : World.

Lemma trigger_verdict_after_log (designID assetLocation token : string)
    (l : level) (format : string) (args : list logarg) (run : M (option error)) :
  trigger_verdict w designID assetLocation token run ->
  trigger_verdict w designID assetLocation token (bind (log l format args) (fun _ => run)).
Proof.
  destruct run as [t o]. unfold trigger_verdict. cbn. trivial.
Qed.

(** The dispatch sends its request whenever it can build it, and its
    result follows the answer of the network. *)
Lemma dispatchWorkflow_verdict (designID assetLocation token : string) :
  trigger_verdict w designID assetLocation token
    (dispatchWorkflow w designID assetLocation token).
Proof.
  unfold dispatchWorkflow.
  destruct (orDefault_orElse (repoOwner w) "layer5labs" "repository owner")
    as (t1 & -> & H1).
  destruct (orDefault_orElse (repoName w) "kubectl-kanvas-snapshot" "repository name")
    as (t2 & -> & H2).
  destruct (orDefault_orElse (workflowID w) "kanvas.yaml" "workflow ID")
    as (t3 & -> & H3).
  assert (Hasset : forall default,
             Command.orElse assetLocation default
             = if String.eqb assetLocation "" then default else assetLocation)
    by reflexivity.
  unfold NewRequest, Do, trigger_verdict, dispatch_accepted, dispatchRequest, assetOr.
  rewrite Hasset. clear Hasset.
  destruct (String.eqb assetLocation ""); cbn [bind ret log];
    fold (dispatchURL w);
    destruct (url_parses w (dispatchURL w)); cbn [bind ret log trace result fst snd];
    rewrite ?http_calls_app, ?H1, ?H2, ?H3; cbn [http_calls filter is_http app].
  2, 4: split; [reflexivity|];
        (split; [split; [discriminate | intros [Hno _]; discriminate Hno]
                | intros _; eexists; reflexivity]).
  all: unfold SetHeader;
       cbn [Method URL Header Payload filter fst negb String.eqb Ascii.eqb Bool.eqb];
       match goal with |- context [transport w ?c ?r] =>
         destruct (transport w c r) as [resp | err] eqn:Hnet end.
  2, 4: cbn [bind ret log trace result fst snd];
        rewrite ?http_calls_app, ?H1, ?H2, ?H3; cbn [http_calls filter is_http app];
        (split; [reflexivity|]);
        (split; [split; [discriminate | intros [_ (resp' & Hr & _)]; discriminate Hr]
                | intros _; eexists; reflexivity]).
  all: unfold StatusNoContent, StatusOK;
       destruct (Z.eqb_spec (StatusCode resp) 204) as [E204 | N204];
       destruct (Z.eqb_spec (StatusCode resp) 200) as [E200 | N200];
       cbn [negb andb bind ret log trace result fst snd];
       rewrite ?http_calls_app, ?H1, ?H2, ?H3; cbn [http_calls filter is_http app];
       (split; [reflexivity|]).
  all: first
    [ split; [split; [intros _; split; [reflexivity|]; exists resp; split; auto
                     | intros _; reflexivity]
             | intros H; now elim H]
    | split; [split; [discriminate
                     | intros [_ (resp' & Hr & Hs)];
                       injection Hr as <-; destruct Hs; congruence]
             | intros _; eexists; reflexivity] ].
Qed.

(** C6.  For an identifier without the offline prefix and a non-empty
    token, [GenerateSnapshot] attempts the dispatch: whenever the
    request can be built, it makes one call, which carries the request
    of the dispatch, and no other.  It returns nil exactly when the
    dispatch can be made and is answered with status 200 or 204, and an
    [ErrGeneratingSnapshot] in every other case: the request could not
    be built, the call failed, or the status was another one.  Both
    variants. *)
Theorem GenerateSnapshot_fails_iff_dispatch_fails
    (designID assetLocation token : string)
    (Honline : HasPrefix designID "offline-mode-" = false)
    (Htoken : token <> "") :
  (trigger_verdict w designID assetLocation token
     (Lenient.GenerateSnapshot w designID assetLocation token)
   /\ trigger_contract w (Lenient.GenerateSnapshot w designID assetLocation token))
  /\ (trigger_verdict w designID assetLocation token
        (Strict.GenerateSnapshot w designID assetLocation token)
      /\ trigger_contract w (Strict.GenerateSnapshot w designID assetLocation token)).
Proof.
  unfold Lenient.GenerateSnapshot, Strict.GenerateSnapshot. rewrite Honline.
  apply String.eqb_neq in Htoken. rewrite Htoken.
  split; (split; [apply trigger_verdict_after_log, dispatchWorkflow_verdict
                 | apply trigger_contract_after_log, dispatchWorkflow_contract]).
Qed.

End TriggerVerdict.

Lemma GenerateSnapshot_fails_iff_dispatch_fails_witness :
  (Props.trigger_verdict (Examples.online 204 "") "abc123" "" "ghp_token"
     (Lenient.GenerateSnapshot (Examples.online 204 "") "abc123" "" "ghp_token")
   /\ Spec.trigger_contract (Examples.online 204 "")
        (Lenient.GenerateSnapshot (Examples.online 204 "") "abc123" "" "ghp_token"))
  /\ (Props.trigger_verdict (Examples.online 204 "") "abc123" "" "ghp_token"
        (Strict.GenerateSnapshot (Examples.online 204 "") "abc123" "" "ghp_token")
      /\ Spec.trigger_contract (Examples.online 204 "")
           (Strict.GenerateSnapshot (Examples.online 204 "") "abc123" "" "ghp_token")).
Proof.
  apply (GenerateSnapshot_fails_iff_dispatch_fails (Examples.online 204 "")
           "abc123" "" "ghp_token"); [reflexivity | discriminate].
Defined.

(** On that world the dispatch is accepted, and both variants return
    nil after their one call. *)
Lemma GenerateSnapshot_accepted_example :
  Props.dispatch_accepted (Examples.online 204 "") "abc123" "" "ghp_token"
  /\ Runtime.result (Lenient.GenerateSnapshot (Examples.online 204 "") "abc123" ""
                       "ghp_token") = Runtime.Returns None
  /\ Runtime.result (Strict.GenerateSnapshot (Examples.online 204 "") "abc123" ""
                       "ghp_token") = Runtime.Returns None
  /\ Runtime.http_calls
       (Runtime.trace (Lenient.GenerateSnapshot (Examples.online 204 "") "abc123" ""
                         "ghp_token"))
     = [Runtime.EvHTTP (Runtime.mkClient 30 false)
          (Props.dispatchRequest (Examples.online 204 "") "abc123" "" "ghp_token")].
Proof.
  split; [split; [reflexivity | eexists; split; [reflexivity | now right]]|].
  repeat split.
Qed.

(* ================================================================== *)
(** ** The download *)
(* ================================================================== *)

Section Downloading.

Import GoStrings Runtime Kanvas Spec Props.

Variable w : World.
Variable d : Download.Disk.

Ltac answer_cases :=
  match goal with
  | |- context [transport w ?c ?r] =>
      destruct (transport w c r) as [resp | err] eqn:Hnet; cbn [bind ret log];
      [destruct (Body resp) as [body [rerr|]] eqn:Hbody; cbn [bind ret log];
       [|destruct (looksLikeHTML body) eqn:Hplain; cbn [bind ret log];
         [|destruct (Z.eqb_spec (StatusCode resp) StatusOK) as [Hok | Hnot];
           cbn [negb bind ret log]]]|]
  end.

Ltac disk_cases outputFile :=
  destruct (Download.creates d outputFile) eqn:Hcreates;
  [destruct (Download.stores d outputFile) eqn:Hstores|];
  cbn [negb bind ret log].

Lemma download_ends (designID outputFile : string) :
  download_outcome d outputFile
    (result (Download.DownloadPatternAsImage w d designID outputFile))
  /\ (if HasPrefix designID "offline-mode-" || String.eqb (ProviderToken w) ""
      then http_calls (trace (Download.DownloadPatternAsImage w d designID outputFile)) = []
      else List.length
             (http_calls (trace (Download.DownloadPatternAsImage w d designID outputFile)))
           <= 1).
Proof.
  unfold Download.DownloadPatternAsImage, Download.writePlaceholder, Download.WriteFile,
    NewRequest, Do.
  destruct (HasPrefix designID "offline-mode-"); cbn [orb];
    [disk_cases outputFile; cbn; auto|].
  destruct (String.eqb (ProviderToken w) ""); cbn [orb];
    [disk_cases outputFile; cbn; auto|].
  match goal with |- context [url_parses w ?u] => destruct (url_parses w u) end;
    cbn [bind ret log]; [|cbn; auto].
  answer_cases; disk_cases outputFile; cbn; auto.
Qed.

(** X17.  A download never panics; it returns no error exactly when it has
    written the output file, and an error leaves the file untouched or
    emptied.  For an offline identifier or without a provider token it
    makes no call, and at most one otherwise. *)
Theorem DownloadPatternAsImage_outcome (designID outputFile : string) :
  download_outcome d outputFile
    (result (Download.DownloadPatternAsImage w d designID outputFile))
  /\ (if HasPrefix designID "offline-mode-" || String.eqb (ProviderToken w) ""
      then http_calls (trace (Download.DownloadPatternAsImage w d designID outputFile)) = []
      else List.length
             (http_calls (trace (Download.DownloadPatternAsImage w d designID outputFile)))
           <= 1).
Proof. exact (download_ends designID outputFile). Qed.

(** X18.  With an output file that can be written, a URL that parses and
    bodies that can be read, a download returns no error whatever the
    network does: a call that fails, an HTML page and a status other
    than 200 each leave a placeholder. *)
Theorem DownloadPatternAsImage_survives_network (designID outputFile : string)
    (Hcreates : Download.creates d outputFile = true)
    (Hstores : Download.stores d outputFile = true)
    (Hurl : url_parses w (downloadURL w designID) = true)
    (Hread : forall c r resp, transport w c r = inl resp -> snd (Body resp) = None) :
  exists data : Download.content,
    result (Download.DownloadPatternAsImage w d designID outputFile)
    = Returns (None, Download.Holds outputFile data).
Proof.
  unfold Download.DownloadPatternAsImage, Download.writePlaceholder, Download.WriteFile,
    NewRequest, Do.
  fold (downloadURL w designID). rewrite Hurl, Hcreates, Hstores.
  destruct (HasPrefix designID "offline-mode-"); [eexists; reflexivity|].
  destruct (String.eqb (ProviderToken w) ""); [eexists; reflexivity|].
  cbn [bind ret log]. answer_cases; try (eexists; reflexivity).
  apply Hread in Hnet. rewrite Hbody in Hnet. discriminate Hnet.
Qed.

(** X19.  The output file holds the bytes of a response only when the
    identifier is not an offline one, a provider token is set, and the
    one call, a GET of the design with the token in its cookie, was
    answered with status 200 and a body without HTML marker: these
    bytes. *)
Theorem DownloadPatternAsImage_stores_answer (designID outputFile answer : string)
    (Hdone : result (Download.DownloadPatternAsImage w d designID outputFile)
             = Returns (None, Download.Holds outputFile (Download.Bytes answer))) :
  HasPrefix designID "offline-mode-" = false
  /\ ProviderToken w <> ""
  /\ exists (req : Request) (resp : Response),
       http_calls (trace (Download.DownloadPatternAsImage w d designID outputFile))
       = [EvHTTP (mkClient 30 false) req]
       /\ Method req = "GET"
       /\ URL req = downloadURL w designID
       /\ header req "Cookie"
          = Some ("token=" ++ ProviderToken w ++ ";meshery-provider=Meshery")
       /\ transport w (mkClient 30 false) req = inl resp
       /\ StatusCode resp = 200%Z
       /\ Body resp = (answer, None)
       /\ looksLikeHTML answer = false.
Proof.
  revert Hdone.
  unfold Download.DownloadPatternAsImage, Download.writePlaceholder, Download.WriteFile,
    NewRequest, Do.
  fold (downloadURL w designID).
  destruct (HasPrefix designID "offline-mode-");
    [disk_cases outputFile; cbn; discriminate|].
  destruct (String.eqb (ProviderToken w) "") eqn:Htoken;
    [disk_cases outputFile; cbn; discriminate|].
  apply String.eqb_neq in Htoken.
  destruct (url_parses w (downloadURL w designID)); cbn [bind ret log];
    [|cbn; discriminate].
  answer_cases; disk_cases outputFile; cbn; try discriminate.
  intros Hdone. injection Hdone as ->.
  repeat split; [exact Htoken|].
  eexists. exists resp. repeat split; try reflexivity; assumption.
Qed.

End Downloading.

Lemma DownloadPatternAsImage_survives_network_witness :
  exists data : Download.content,
    Runtime.result (Download.DownloadPatternAsImage Examples.offline Cases.writable
                      "abc123" "design.yaml")
    = Runtime.Returns (None, Download.Holds "design.yaml" data).
Proof.
  apply (DownloadPatternAsImage_survives_network Examples.offline Cases.writable
           "abc123" "design.yaml"); try reflexivity.
  intros c r resp Hnet. discriminate Hnet.
Defined.

Lemma DownloadPatternAsImage_stores_answer_witness :
  GoStrings.HasPrefix "abc123" "offline-mode-" = false
  /\ Runtime.ProviderToken (Examples.online 200 "kind: Pod") <> ""
  /\ exists (req : Runtime.Request) (resp : Runtime.Response),
       Runtime.http_calls
         (Runtime.trace (Download.DownloadPatternAsImage (Examples.online 200 "kind: Pod")
                           Cases.writable "abc123" "design.yaml"))
       = [Runtime.EvHTTP (Runtime.mkClient 30 false) req]
       /\ Runtime.Method req = "GET"
       /\ Runtime.URL req = Props.downloadURL (Examples.online 200 "kind: Pod") "abc123"
       /\ Props.header req "Cookie"
          = Some ("token=" ++ Runtime.ProviderToken (Examples.online 200 "kind: Pod")
                  ++ ";meshery-provider=Meshery")
       /\ Runtime.transport (Examples.online 200 "kind: Pod")
            (Runtime.mkClient 30 false) req = inl resp
       /\ Runtime.StatusCode resp = 200%Z
       /\ Runtime.Body resp = ("kind: Pod", None)
       /\ Kanvas.looksLikeHTML "kind: Pod" = false.
Proof.
  apply (DownloadPatternAsImage_stores_answer (Examples.online 200 "kind: Pod")
           Cases.writable "abc123" "design.yaml" "kind: Pod").
  reflexivity.
Defined.

(* ================================================================== *)
(** ** The command from end to end *)
(* ================================================================== *)

Section Sequencing.

Import Runtime Props.

Lemma ends_ret {A : Type} (a : A) (Q : outcome A -> Prop) (n : nat) :
  Q (Returns a) -> ends (ret a) Q n.
Proof. intros HQ. split; [exact HQ | cbn; lia]. Qed.

Lemma ends_log {A : Type} (l : level) (format : string) (args : list logarg)
    (k : M A) (Q : outcome A -> Prop) (n : nat) :
  ends k Q n -> ends (bind (log l format args) (fun _ => k)) Q n.
Proof. destruct k as [t o]. unfold ends. cbn. trivial. Qed.

Lemma ends_bind {A B : Type} (m : M A) (k : A -> M B)
    (Q1 : outcome A -> Prop) (Q : outcome B -> Prop) (n1 n2 n : nat) :
  n1 + n2 <= n ->
  ends m Q1 n1 ->
  (forall a, Q1 (Returns a) -> ends (k a) Q n2) ->
  (forall msg, Q1 (Panics msg) -> Q (Panics msg)) ->
  ends (bind m k) Q n.
Proof.
  intros Hn [HQ1 Hn1] Hk Hpanic. destruct m as [t [a | msg]];
    cbn [result trace fst snd] in *; unfold ends; cbn [bind].
  - destruct (Hk a HQ1) as [HQ Hn2]. destruct (k a) as [t' o].
    cbn [result trace fst snd] in *. rewrite http_calls_app, length_app.
    split; [exact HQ | lia].
  - cbn [result trace fst snd]. split; [now apply Hpanic | lia].
Qed.

End Sequencing.

Section Running.

Import GoStrings Runtime Kanvas Spec Props Command.

Variable disk : Download.Disk.
Variable w : World.
Variable f : Flags.

Lemma prepare_ends :
  ends (LenientCommand.prepare w f)
       (fun o => o = Returns (prepared_world w, prepared_flags w f)) 0
  /\ ends (StrictCommand.prepare w f)
          (fun o => o = Returns (prepared_world w, prepared_flags w f)) 0.
Proof.
  unfold LenientCommand.prepare, StrictCommand.prepare, prepared_world, prepared_flags,
    ends.
  destruct (String.eqb (ProviderToken w) ""), (String.eqb (MesheryAPIBaseURL w) ""),
    (String.eqb (designName f) ""); cbn; repeat split; lia.
Qed.

Lemma prepared_world_reads (path : string) (recursive : bool) :
  getManifestContents (prepared_world w) path recursive
  = getManifestContents w path recursive.
Proof. unfold prepared_world. now destruct (String.eqb (MesheryAPIBaseURL w) ""). Qed.

Lemma prepared_world_keeps :
  manifestPath (prepared_world w) = manifestPath w
  /\ transport (prepared_world w) = transport w
  /\ url_parses (prepared_world w) = url_parses w
  /\ ProviderToken (prepared_world w) = ProviderToken w
  /\ Config (prepared_world w) = Config w.
Proof.
  unfold prepared_world. destruct (String.eqb (MesheryAPIBaseURL w) "");
    repeat split.
Qed.

Lemma prepared_flags_keeps :
  email (prepared_flags w f) = email f
  /\ recursive (prepared_flags w f) = recursive f
  /\ skipWorkflow (prepared_flags w f) = skipWorkflow f
  /\ downloadPattern (prepared_flags w f) = downloadPattern f
  /\ outputFile (prepared_flags w f) = outputFile f
  /\ WorkflowAccessToken (prepared_flags w f) = WorkflowAccessToken f.
Proof.
  unfold prepared_flags. destruct (String.eqb (designName f) ""); repeat split.
Qed.

End Running.

Section Stages.

Import GoStrings Runtime Kanvas Spec Props Command.

Variable w : World.

Lemma wire_at_most_one (t : list event) :
  submission_wire w t -> List.length (http_calls t) <= 1.
Proof.
  intros [[_ ->] | [_ (req & -> & _)]]; cbn; lia.
Qed.

Lemma trigger_at_most_one (designID assetLocation token : string) (t : list event) :
  trigger_wire w designID assetLocation token t -> List.length (http_calls t) <= 1.
Proof.
  intros [[_ ->] | [_ (req & -> & _)]]; cbn; lia.
Qed.

Lemma reading_stage (path : string) (recursive : bool) :
  ends (getManifestContents w path recursive) manifests_outcome 0.
Proof.
  destruct (reading_ends w path recursive) as [Hout Hcalls].
  split; [exact Hout | rewrite Hcalls; cbn; lia].
Qed.

Lemma submission_stage (manifest name email : string) :
  ends (Lenient.CreateMesheryDesign w manifest name email) (submission_outcome false) 1
  /\ ends (Strict.CreateMesheryDesign w manifest name email) (submission_outcome true) 1.
Proof.
  destruct (submission_ends w manifest name email) as [Hl Hs].
  destruct (submission_calls w manifest name email) as [Cl Cs].
  split; (split; [assumption | now apply wire_at_most_one]).
Qed.

(** How a trigger may end. *)
Lemma dispatchWorkflow_stage (designID assetLocation token : string) :
  ends (dispatchWorkflow w designID assetLocation token)
       (fun o => o = Returns None
                 \/ exists e, o = Returns (Some (ErrGeneratingSnapshot e))) 1.
Proof.
  split.
  - destruct (dispatchWorkflow_contract w designID assetLocation token) as [_ Hfail].
    destruct (result (dispatchWorkflow w designID assetLocation token))
      as [[e|] | msg] eqn:Hres.
    + right. destruct Hfail as [e' He']; [discriminate|]. exists e'. exact He'.
    + now left.
    + destruct Hfail as [e' He']; [discriminate | discriminate He'].
  - eapply trigger_at_most_one, dispatchWorkflow_wire.
Qed.

Lemma trigger_stage (designID assetLocation token : string) :
  ends (Lenient.GenerateSnapshot w designID assetLocation token)
       (fun o => o = Returns None
                 \/ exists e, o = Returns (Some (ErrGeneratingSnapshot e))) 1
  /\ ends (Strict.GenerateSnapshot w designID assetLocation token)
          (fun o => o = Returns None
                    \/ exists e, o = Returns (Some (ErrGeneratingSnapshot e))) 1.
Proof.
  unfold Lenient.GenerateSnapshot, Strict.GenerateSnapshot.
  destruct (HasPrefix designID "offline-mode-"), (String.eqb token "");
    split; repeat apply ends_log;
    first [apply ends_ret; now left | apply dispatchWorkflow_stage].
Qed.

Lemma download_stage (disk : Download.Disk) (designID outputFile : string) :
  ends (Download.DownloadPatternAsImage w disk designID outputFile)
       (download_outcome disk outputFile) 1.
Proof.
  destruct (download_ends w disk designID outputFile) as [Hout Hcalls].
  split; [exact Hout|].
  destruct (HasPrefix designID "offline-mode-" || String.eqb (ProviderToken w) "");
    [rewrite Hcalls; cbn; lia | exact Hcalls].
Qed.

End Stages.

Section RunOutcome.

Import GoStrings Runtime Kanvas Spec Props Command.

Variable disk : Download.Disk.
Variable w : World.
Variable f : Flags.

Ltac into_run :=
  match goal with
  | |- ends (bind (LenientCommand.prepare _ _) _) _ _ =>
      apply (ends_bind _ _ _ _ 0 _ _ (Nat.le_refl _) (proj1 (prepare_ends w f)));
      [intros [w' f'] Hprepared; injection Hprepared as -> -> | discriminate]
  | |- ends (bind (StrictCommand.prepare _ _) _) _ _ =>
      apply (ends_bind _ _ _ _ 0 _ _ (Nat.le_refl _) (proj2 (prepare_ends w f)));
      [intros [w' f'] Hprepared; injection Hprepared as -> -> | discriminate]
  end;
  cbn [fst snd];
  destruct prepared_flags_keeps with (w := w) (f := f)
    as (Kemail & Krecursive & Kskip & Kdownload & Koutput & Ktoken);
  rewrite ?Kemail, ?Krecursive, ?Kskip, ?Kdownload, ?Koutput, ?Ktoken.

Lemma strict_run_ends :
  ends (StrictCommand.kanvasSnapshotRunE w f) strict_run_outcome
       (if skipWorkflow f then 1 else 2).
Proof.
  unfold StrictCommand.kanvasSnapshotRunE. into_run.
  destruct (negb (String.eqb (email f) "") && negb (isValidEmail (email f)));
    [apply ends_ret; left; eexists; reflexivity|].
  apply ends_log.
  apply (ends_bind _ _ _ _ 0 _ _ (Nat.le_refl _) (reading_stage _ _ _));
    [|intros msg []].
  intros [manifests [err|]] Hread; cbn [fst snd].
  { apply ends_ret. destruct Hread as [_ [cause ->]]. right; left. now exists cause. }
  repeat apply ends_log.
  apply (ends_bind _ _ (submission_outcome true) _ 1 (if skipWorkflow f then 0 else 1) _);
    [destruct (skipWorkflow f); lia | apply submission_stage | | intros msg _; exact I].
  intros [designID [err|]] Hsubmitted; cbn [fst snd].
  { apply ends_log, ends_ret. destruct Hsubmitted as [_ [[cause ->] | [_ [cause ->]]]].
    - right; right; left. now exists cause.
    - right; right; right; left. split; [reflexivity | now exists cause]. }
  apply ends_log. destruct (skipWorkflow f).
  { repeat apply ends_log. now apply ends_ret. }
  apply ends_log.
  apply (ends_bind _ _ _ _ 1 0 _ (Nat.le_refl _) (proj2 (trigger_stage _ _ _ _)));
    [|intros msg [Hnone | [e He]]; discriminate].
  intros [err|] [Hnone | [e He]]; try discriminate.
  - injection He as ->. apply ends_ret. right; right; right; right. now exists e.
  - repeat apply ends_log. now apply ends_ret.
Qed.

Lemma lenient_run_ends :
  ends (LenientCommand.kanvasSnapshotRunE disk w f) (lenient_run_outcome f)
       (if downloadPattern f then 2 else if skipWorkflow f then 1 else 2).
Proof.
  unfold LenientCommand.kanvasSnapshotRunE. into_run.
  destruct (negb (String.eqb (email f) "") && negb (isValidEmail (email f)));
    [apply ends_ret; split; [left; eexists; reflexivity | reflexivity]|].
  apply ends_log.
  apply (ends_bind _ _ _ _ 0 _ _ (Nat.le_refl _) (reading_stage _ _ _));
    [|intros msg []].
  intros [manifests [err|]] Hread; cbn [fst snd].
  { apply ends_ret. destruct Hread as [_ [cause ->]].
    split; [right; left; now exists cause | reflexivity]. }
  repeat apply ends_log.
  apply (ends_bind _ _ (submission_outcome false) _ 1
           (if downloadPattern f then 1 else if skipWorkflow f then 0 else 1) _);
    [destruct (downloadPattern f), (skipWorkflow f); lia
    | apply submission_stage | | intros msg _; exact I].
  intros [designID [err|]] Hsubmitted; cbn [fst snd].
  { apply ends_log, ends_ret. destruct Hsubmitted as [_ [[cause ->] | [Hno _]]];
      [|discriminate Hno].
    split; [right; right; left; now exists cause | reflexivity]. }
  apply ends_log. unfold lenient_run_outcome. destruct (downloadPattern f).
  { apply ends_log.
    apply (ends_bind _ _ _ _ 1 0 _ (Nat.le_refl _) (download_stage _ _ _ _));
      [|intros msg []].
    intros [[failed|] effect] Hgot; cbn [fst snd].
    - apply ends_log, ends_ret. split; [reflexivity|].
      destruct effect; [exact I | exact I | contradiction].
    - apply ends_ret. destruct effect as [| |file data]; try contradiction.
      destruct Hgot as [-> _]. now exists data. }
  destruct (skipWorkflow f).
  { repeat apply ends_log. now apply ends_ret. }
  apply ends_log.
  apply (ends_bind _ _ _ _ 1 0 _ (Nat.le_refl _) (proj1 (trigger_stage _ _ _ _)));
    [|intros msg [Hnone | [e He]]; discriminate].
  intros [err|] [Hnone | [e He]]; try discriminate.
  - injection He as ->. apply ends_ret.
    split; [right; right; right; right; now exists e | reflexivity].
  - repeat apply ends_log. now apply ends_ret.
Qed.

(** X20.  Every run of the command, in either variant, ends in one of these
    ways: with no error; with one of the errors of [run_failure], the
    error of the trigger being wrapped twice and the error of a
    decoding being returned by the strict variant only; or, in the
    lenient variant, with the error of the download.  The output file is
    written only by a download that succeeds.  A run makes at most two
    outbound calls, and at most one when the workflow is skipped and
    nothing is downloaded. *)
Theorem kanvasSnapshotRunE_outcome :
  ends (LenientCommand.kanvasSnapshotRunE disk w f) (lenient_run_outcome f)
       (if downloadPattern f then 2 else if skipWorkflow f then 1 else 2)
  /\ ends (StrictCommand.kanvasSnapshotRunE w f) strict_run_outcome
          (if skipWorkflow f then 1 else 2).
Proof. exact (conj lenient_run_ends strict_run_ends). Qed.

End RunOutcome.

Section Tracing.

Import Runtime Props.

Lemma traced_ret {A : Type} (a : A) (Q : list event -> outcome A -> Prop) :
  Q [] (Returns a) -> traced (ret a) Q.
Proof. trivial. Qed.

Lemma traced_log {A : Type} (l : level) (format : string) (args : list logarg)
    (k : M A) (Q : list event -> outcome A -> Prop) :
  traced k (fun t o => Q (EvLog l format args :: t) o) ->
  traced (bind (log l format args) (fun _ => k)) Q.
Proof. destruct k as [t o]. unfold traced. cbn. trivial. Qed.

Lemma traced_bind {A B : Type} (m : M A) (k : A -> M B)
    (Q1 : list event -> outcome A -> Prop) (Q : list event -> outcome B -> Prop) :
  traced m Q1 ->
  (forall t a, Q1 t (Returns a) -> traced (k a) (fun t' o => Q (t ++ t')%list o)) ->
  (forall t msg, Q1 t (Panics msg) -> Q t (Panics msg)) ->
  traced (bind m k) Q.
Proof.
  destruct m as [t [a | msg]]; unfold traced; cbn [result trace fst snd bind];
    intros H1 Hk Hpanic.
  - specialize (Hk t a H1). destruct (k a) as [t' o]. exact Hk.
  - now apply Hpanic.
Qed.

Lemma traced_any {A : Type} (m : M A) (Q : list event -> outcome A -> Prop) :
  (forall t o, Q t o) -> traced m Q.
Proof. intros H. apply H. Qed.

End Tracing.

Section RunTraces.

Import GoStrings Runtime Kanvas Spec Props Command.

Variable disk : Download.Disk.
Variable w : World.
Variable f : Flags.

Lemma prepare_traced :
  traced (LenientCommand.prepare w f)
    (fun t o =>
       o = Returns (prepared_world w, prepared_flags w f)
       /\ http_calls t = []
       /\ In (EvLog LInfo "Using API endpoint: %s"
                [AStr (endpointOr w LenientCommand.apiEndpoint)]) t)
  /\ traced (StrictCommand.prepare w f)
       (fun t o =>
          o = Returns (prepared_world w, prepared_flags w f)
          /\ http_calls t = []
          /\ In (EvLog LInfo "Using API endpoint: %s"
                   [AStr (endpointOr w StrictCommand.apiEndpoint)]) t).
Proof.
  unfold LenientCommand.prepare, StrictCommand.prepare, prepared_world, prepared_flags,
    traced.
  destruct (String.eqb (ProviderToken w) ""), (String.eqb (MesheryAPIBaseURL w) ""),
    (String.eqb (designName f) ""); cbn; repeat split; tauto.
Qed.

Lemma submissionURL_prepared : submissionURL (prepared_world w) = submissionTarget w.
Proof.
  unfold submissionURL, submissionTarget, prepared_world, orElse.
  now destruct (String.eqb (MesheryAPIBaseURL w) "").
Qed.

Lemma reading_traced (manifests : list string) (err : option error) :
  result (getManifestContents w (manifestPath w) (recursive f)) = Returns (manifests, err) ->
  traced (getManifestContents (prepared_world w) (manifestPath (prepared_world w))
            (recursive f))
    (fun t o => o = Returns (manifests, err) /\ http_calls t = []).
Proof.
  intros Hread. destruct (prepared_world_keeps w) as (-> & _).
  rewrite prepared_world_reads. split; [exact Hread | apply reading_ends].
Qed.

Lemma submission_traced (v : World) (manifest name address : string) :
  traced (Lenient.CreateMesheryDesign v manifest name address)
    (fun t o => submission_outcome false o /\ submission_wire v t)
  /\ traced (Strict.CreateMesheryDesign v manifest name address)
       (fun t o => submission_outcome true o /\ submission_wire v t).
Proof.
  destruct (submission_ends v manifest name address) as [Hl Hs].
  destruct (submission_calls v manifest name address) as [Cl Cs].
  split; split; assumption.
Qed.

Lemma trigger_without_token (v : World) (designID assetLocation : string) :
  traced (Lenient.GenerateSnapshot v designID assetLocation "")
    (fun t o => o = Returns None /\ http_calls t = [])
  /\ traced (Strict.GenerateSnapshot v designID assetLocation "")
       (fun t o => o = Returns None /\ http_calls t = []).
Proof.
  unfold Lenient.GenerateSnapshot, Strict.GenerateSnapshot, traced.
  destruct (HasPrefix designID "offline-mode-"); cbn; repeat split.
Qed.

Lemma trigger_offline (v : World) (designID assetLocation token : string) :
  HasPrefix designID "offline-mode-" = true ->
  traced (Lenient.GenerateSnapshot v designID assetLocation token)
    (fun t o => o = Returns None /\ http_calls t = []).
Proof.
  intros Hoffline. unfold Lenient.GenerateSnapshot, traced. rewrite Hoffline.
  cbn. split; reflexivity.
Qed.

Lemma download_offline (v : World) (designID outputFile : string) :
  HasPrefix designID "offline-mode-" = true ->
  traced (Download.DownloadPatternAsImage v disk designID outputFile)
    (fun t o =>
       http_calls t = []
       /\ ((exists data, o = Returns (None, Download.Holds outputFile data))
           \/ exists cause effect,
                o = Returns (Some (Download.PlaceholderFailed cause), effect))).
Proof.
  intros Hoffline.
  unfold Download.DownloadPatternAsImage, Download.writePlaceholder, Download.WriteFile,
    traced.
  rewrite Hoffline.
  destruct (Download.creates disk outputFile);
    [destruct (Download.stores disk outputFile)|]; cbn;
    (split; [reflexivity|]);
    first [left; eexists; reflexivity | right; do 2 eexists; reflexivity].
Qed.

Lemma submission_unreachable (v : World) (manifest name address : string) (err : error) :
  url_parses v (submissionURL v) = true ->
  (forall c r, transport v c r = inr err) ->
  traced (Lenient.CreateMesheryDesign v manifest name address)
    (fun t o => o = Returns (Lenient.generateDummyID v name, None)
                /\ List.length (http_calls t) = 1)
  /\ traced (Strict.CreateMesheryDesign v manifest name address)
       (fun t o => o = Returns ("", Some (ErrHTTPPostRequest err))
                   /\ List.length (http_calls t) = 1).
Proof.
  intros Hurl Hnet.
  unfold traced, Lenient.CreateMesheryDesign, Strict.CreateMesheryDesign, NewRequest, Do.
  fold (submissionURL v). rewrite Hurl.
  destruct (String.eqb (ProviderToken v) ""); cbn [negb bind ret log];
    rewrite !Hnet; cbn; repeat split.
Qed.

End RunTraces.

Section RunCases.

Import GoStrings Runtime Kanvas Spec Props Command.

Variable disk : Download.Disk.
Variable w : World.
Variable f : Flags.

Ltac enter_run :=
  match goal with
  | |- traced (LenientCommand.kanvasSnapshotRunE _ _ _) _ =>
      unfold LenientCommand.kanvasSnapshotRunE;
      apply (traced_bind _ _ _ _ (proj1 (prepare_traced w f)))
  | |- traced (StrictCommand.kanvasSnapshotRunE _ _) _ =>
      unfold StrictCommand.kanvasSnapshotRunE;
      apply (traced_bind _ _ _ _ (proj2 (prepare_traced w f)))
  end;
  [intros t0 [w' f'] (Hprepared & Hquiet0 & Hannounced);
   injection Hprepared as -> ->
  |intros t0 msg (Hprepared & _); discriminate Hprepared];
  cbn [fst snd];
  destruct (prepared_flags_keeps w f)
    as (Kemail & Krecursive & Kskip & Kdownload & Koutput & Ktoken);
  rewrite ?Kemail, ?Krecursive, ?Kskip, ?Kdownload, ?Koutput, ?Ktoken.

Ltac read_manifests Hread :=
  apply traced_log;
  apply (traced_bind _ _ _ _ (reading_traced w f _ _ Hread));
  [intros t1 read (Hresult & Hquiet1); injection Hresult as ->; cbn [fst snd]
  |intros t1 msg (Hresult & _); discriminate Hresult].

Ltac count_calls :=
  unfold http_calls in *;
  repeat (rewrite ?filter_app, ?app_nil_r; cbn [filter is_http app]);
  repeat match goal with
    | H : filter is_http ?t = [] |- context [filter is_http ?t] => rewrite H
    end;
  cbn [app List.length].

(** X21.  An e-mail address that is given and does not match the pattern
    ends the run, in both variants, with [ErrInvalidEmailFormat] before
    any outbound call. *)
Theorem kanvasSnapshotRunE_invalid_email
    (Hgiven : email f <> "")
    (Hbad : isValidEmail (email f) = false) :
  ((exists st, result (LenientCommand.kanvasSnapshotRunE disk w f)
               = Returns (Some (Err (ErrInvalidEmailFormat (email f))),
                          Download.Untouched, st))
   /\ http_calls (trace (LenientCommand.kanvasSnapshotRunE disk w f)) = [])
  /\ ((exists st, result (StrictCommand.kanvasSnapshotRunE w f)
                  = Returns (Some (ErrInvalidEmailFormat (email f)), st))
      /\ http_calls (trace (StrictCommand.kanvasSnapshotRunE w f)) = []).
Proof.
  apply String.eqb_neq in Hgiven.
  split.
  - change (traced (LenientCommand.kanvasSnapshotRunE disk w f)
              (fun t o => (exists st, o = Returns (Some (Err (ErrInvalidEmailFormat (email f))),
                                                   Download.Untouched, st))
                          /\ http_calls t = [])).
    enter_run. rewrite Hgiven, Hbad. cbn [negb andb]. apply traced_ret.
    split; [eexists; reflexivity | count_calls; reflexivity].
  - change (traced (StrictCommand.kanvasSnapshotRunE w f)
              (fun t o => (exists st, o = Returns (Some (ErrInvalidEmailFormat (email f)), st))
                          /\ http_calls t = [])).
    enter_run. rewrite Hgiven, Hbad. cbn [negb andb]. apply traced_ret.
    split; [eexists; reflexivity | count_calls; reflexivity].
Qed.

(** X22.  When no manifest can be read, the run returns the error of the
    reading as it is, in both variants, and makes no outbound call. *)
Theorem kanvasSnapshotRunE_no_manifest (err : error)
    (Hemail : negb (String.eqb (email f) "") && negb (isValidEmail (email f)) = false)
    (Hread : result (getManifestContents w (manifestPath w) (recursive f))
             = Returns ([], Some err)) :
  ((exists st, result (LenientCommand.kanvasSnapshotRunE disk w f)
               = Returns (Some (Err err), Download.Untouched, st))
   /\ http_calls (trace (LenientCommand.kanvasSnapshotRunE disk w f)) = [])
  /\ ((exists st, result (StrictCommand.kanvasSnapshotRunE w f) = Returns (Some err, st))
      /\ http_calls (trace (StrictCommand.kanvasSnapshotRunE w f)) = []).
Proof.
  split.
  - change (traced (LenientCommand.kanvasSnapshotRunE disk w f)
              (fun t o => (exists st, o = Returns (Some (Err err), Download.Untouched, st))
                          /\ http_calls t = [])).
    enter_run. rewrite Hemail. read_manifests Hread. apply traced_ret.
    split; [eexists; reflexivity | count_calls; reflexivity].
  - change (traced (StrictCommand.kanvasSnapshotRunE w f)
              (fun t o => (exists st, o = Returns (Some err, st)) /\ http_calls t = [])).
    enter_run. rewrite Hemail. read_manifests Hread. apply traced_ret.
    split; [eexists; reflexivity | count_calls; reflexivity].
Qed.

Ltac find_line :=
  solve [repeat first [left; reflexivity | apply in_or_app; right | right]].

Ltac submit stage :=
  repeat apply traced_log;
  apply (traced_bind _ _ _ _ stage).

(** X23.  With manifests read and a network that cannot be reached, the
    lenient run goes on in offline mode: it makes the one call of the
    submission and no other, and returns no error, unless a placeholder
    asked for cannot be written; the strict run ends with
    [ErrCreatingMesheryDesign] after the same call. *)
Theorem kanvasSnapshotRunE_unreachable (err : error) (manifests : list string)
    (Hemail : negb (String.eqb (email f) "") && negb (isValidEmail (email f)) = false)
    (Hread : result (getManifestContents w (manifestPath w) (recursive f))
             = Returns (manifests, None))
    (Hurl : url_parses w (submissionTarget w) = true)
    (Hnet : forall c r, transport w c r = inr err) :
  ((exists effect st,
       result (LenientCommand.kanvasSnapshotRunE disk w f) = Returns (None, effect, st)
       \/ (downloadPattern f = true
           /\ exists cause,
                result (LenientCommand.kanvasSnapshotRunE disk w f)
                = Returns (Some (DownloadErr (Download.PlaceholderFailed cause)),
                           effect, st)))
   /\ List.length (http_calls (trace (LenientCommand.kanvasSnapshotRunE disk w f))) = 1)
  /\ ((exists st,
          result (StrictCommand.kanvasSnapshotRunE w f)
          = Returns (Some (ErrCreatingMesheryDesign (ErrHTTPPostRequest err)), st))
      /\ List.length (http_calls (trace (StrictCommand.kanvasSnapshotRunE w f))) = 1).
Proof.
  destruct (prepared_world_keeps w) as (_ & Knet & Kurl & _).
  assert (Hurl' : url_parses (prepared_world w) (submissionURL (prepared_world w)) = true)
    by now rewrite Kurl, submissionURL_prepared.
  assert (Hnet' : forall c r, transport (prepared_world w) c r = inr err)
    by (intros c r; now rewrite Knet).
  split.
  - change (traced (LenientCommand.kanvasSnapshotRunE disk w f)
              (fun t o =>
                 (exists effect st,
                     o = Returns (None, effect, st)
                     \/ (downloadPattern f = true
                         /\ exists cause,
                              o = Returns (Some (DownloadErr (Download.PlaceholderFailed cause)),
                                           effect, st)))
                 /\ List.length (http_calls t) = 1)).
    enter_run. rewrite Hemail. read_manifests Hread.
    submit (proj1 (submission_unreachable (prepared_world w) (Join manifests separator)
                     (designName (prepared_flags w f)) (email f) err Hurl' Hnet'));
      [|intros t2 msg [Hresult _]; discriminate Hresult].
    intros t2 created [Hresult Hone]. injection Hresult as ->. cbn [fst snd].
    apply traced_log. destruct (downloadPattern f).
    + apply traced_log.
      apply (traced_bind _ _ _ _
               (download_offline disk (prepared_world w) _ (outputFile f)
                  (generateDummyID_prefix (prepared_world w) _)));
        [|intros t3 msg [_ [[data Hgot] | (cause & effect & Hgot)]]; discriminate Hgot].
      intros t3 got [Hquiet3 [[data Hgot] | (cause & effect & Hgot)]];
        injection Hgot as ->; cbn [fst snd].
      * apply traced_ret. split; [do 2 eexists; left; reflexivity|].
        count_calls. rewrite ?app_nil_r. exact Hone.
      * apply traced_log, traced_ret.
        split; [do 2 eexists; right; split; [reflexivity | eexists; reflexivity]|].
        count_calls. rewrite ?app_nil_r. exact Hone.
    + destruct (skipWorkflow f).
      * repeat apply traced_log. apply traced_ret.
        split; [do 2 eexists; left; reflexivity|].
        count_calls. rewrite ?app_nil_r. exact Hone.
      * apply traced_log.
        apply (traced_bind _ _ _ _
                 (trigger_offline (prepared_world w) _ "" (WorkflowAccessToken f)
                    (generateDummyID_prefix (prepared_world w) _)));
          [|intros t3 msg [Hgot _]; discriminate Hgot].
        intros t3 triggered [Hgot Hquiet3]. injection Hgot as ->.
        repeat apply traced_log. apply traced_ret.
        split; [do 2 eexists; left; reflexivity|].
        count_calls. rewrite ?app_nil_r. exact Hone.
  - change (traced (StrictCommand.kanvasSnapshotRunE w f)
              (fun t o =>
                 (exists st,
                     o = Returns (Some (ErrCreatingMesheryDesign (ErrHTTPPostRequest err)), st))
                 /\ List.length (http_calls t) = 1)).
    enter_run. rewrite Hemail. read_manifests Hread.
    submit (proj2 (submission_unreachable (prepared_world w) (Join manifests separator)
                     (designName (prepared_flags w f)) (email f) err Hurl' Hnet'));
      [|intros t2 msg [Hresult _]; discriminate Hresult].
    intros t2 created [Hresult Hone]. injection Hresult as ->. cbn [fst snd].
    apply traced_log, traced_ret. split; [eexists; reflexivity|].
    count_calls. rewrite ?app_nil_r. exact Hone.
Qed.

(** X24.  With manifests read and a submission URL that parses, the first
    call of a run is the submission, in both variants to the same URL:
    the base URL, by default [https://playground.meshery.io], and the
    endpoint of the configuration, by default [/api/pattern/import].
    The line that announces the endpoint names that default in the
    strict variant, and [/api/pattern/kanvas] in the lenient one. *)
Theorem kanvasSnapshotRunE_submission_target (manifests : list string)
    (Hemail : negb (String.eqb (email f) "") && negb (isValidEmail (email f)) = false)
    (Hread : result (getManifestContents w (manifestPath w) (recursive f))
             = Returns (manifests, None))
    (Hurl : url_parses w (submissionTarget w) = true) :
  (first_call_to (submissionTarget w) (trace (LenientCommand.kanvasSnapshotRunE disk w f))
   /\ In (EvLog LInfo "Using API endpoint: %s" [AStr (endpointOr w "/api/pattern/kanvas")])
         (trace (LenientCommand.kanvasSnapshotRunE disk w f)))
  /\ (first_call_to (submissionTarget w) (trace (StrictCommand.kanvasSnapshotRunE w f))
      /\ In (EvLog LInfo "Using API endpoint: %s" [AStr (endpointOr w "/api/pattern/import")])
            (trace (StrictCommand.kanvasSnapshotRunE w f))).
Proof.
  destruct (prepared_world_keeps w) as (_ & _ & Kurl & _).
  assert (Hurl' : url_parses (prepared_world w) (submissionURL (prepared_world w)) = true)
    by now rewrite Kurl, submissionURL_prepared.
  split.
  - change (traced (LenientCommand.kanvasSnapshotRunE disk w f)
              (fun t o =>
                 first_call_to (submissionTarget w) t
                 /\ In (EvLog LInfo "Using API endpoint: %s"
                          [AStr (endpointOr w LenientCommand.apiEndpoint)]) t)).
    enter_run. rewrite Hemail. read_manifests Hread.
    submit (proj1 (submission_traced (prepared_world w) (Join manifests separator)
                     (designName (prepared_flags w f)) (email f)));
      [intros t2 created [_ Hwire]; apply traced_any; intros t3 o
      |intros t2 msg [_ Hwire]];
      (split; [|apply in_or_app; left; exact Hannounced]);
      (destruct Hwire as [[Hno _] | [_ (req & Hcall & _ & Htarget & _)]];
       [congruence|]);
      exists (mkClient 30 true), req;
      (split; [|rewrite <- submissionURL_prepared; exact Htarget]);
      count_calls; rewrite Hcall; reflexivity.
  - change (traced (StrictCommand.kanvasSnapshotRunE w f)
              (fun t o =>
                 first_call_to (submissionTarget w) t
                 /\ In (EvLog LInfo "Using API endpoint: %s"
                          [AStr (endpointOr w StrictCommand.apiEndpoint)]) t)).
    enter_run. rewrite Hemail. read_manifests Hread.
    submit (proj2 (submission_traced (prepared_world w) (Join manifests separator)
                     (designName (prepared_flags w f)) (email f)));
      [intros t2 created [_ Hwire]; apply traced_any; intros t3 o
      |intros t2 msg [_ Hwire]];
      (split; [|apply in_or_app; left; exact Hannounced]);
      (destruct Hwire as [[Hno _] | [_ (req & Hcall & _ & Htarget & _)]];
       [congruence|]);
      exists (mkClient 30 true), req;
      (split; [|rewrite <- submissionURL_prepared; exact Htarget]);
      count_calls; rewrite Hcall; reflexivity.
Qed.

(** X25.  Without an access token, a run that is to trigger the workflow
    and returns no error has logged that the workflow has been
    triggered, although it has made no call but the submission. *)
Theorem kanvasSnapshotRunE_reports_trigger
    (Htoken : WorkflowAccessToken f = "")
    (Hskip : skipWorkflow f = false)
    (Hdownload : downloadPattern f = false) :
  (forall effect st,
      result (LenientCommand.kanvasSnapshotRunE disk w f) = Returns (None, effect, st) ->
      In (EvLog LInfo "GitHub workflow has been triggered to generate a snapshot." [])
         (trace (LenientCommand.kanvasSnapshotRunE disk w f))
      /\ List.length (http_calls (trace (LenientCommand.kanvasSnapshotRunE disk w f))) <= 1)
  /\ (forall st,
         result (StrictCommand.kanvasSnapshotRunE w f) = Returns (None, st) ->
         In (EvLog LInfo "GitHub workflow has been triggered to generate a snapshot." [])
            (trace (StrictCommand.kanvasSnapshotRunE w f))
         /\ List.length (http_calls (trace (StrictCommand.kanvasSnapshotRunE w f))) <= 1).
Proof.
  assert (Hreading :
            traced (getManifestContents (prepared_world w) (manifestPath (prepared_world w))
                      (recursive f))
              (fun t o => manifests_outcome o /\ http_calls t = []))
    by (split; apply reading_ends).
  split.
  - change (traced (LenientCommand.kanvasSnapshotRunE disk w f)
              (fun t o =>
                 forall effect st, o = Returns (None, effect, st) ->
                 In (EvLog LInfo "GitHub workflow has been triggered to generate a snapshot." [])
                    t
                 /\ List.length (http_calls t) <= 1)).
    enter_run. rewrite Hskip, Hdownload, Htoken.
    destruct (negb (String.eqb (email f) "") && negb (isValidEmail (email f)));
      [apply traced_ret; intros effect st Hdone; discriminate Hdone|].
    apply traced_log. apply (traced_bind _ _ _ _ Hreading); [|intros t1 msg [[] _]].
    intros t1 [manifests [err|]] [_ Hquiet1]; cbn [fst snd];
      [apply traced_ret; intros effect st Hdone; discriminate Hdone|].
    submit (proj1 (submission_traced (prepared_world w) (Join manifests separator)
                     (designName (prepared_flags w f)) (email f)));
      [|intros t2 msg _ effect st Hdone; discriminate Hdone].
    intros t2 [designID [err|]] [_ Hwire]; cbn [fst snd];
      [apply traced_log, traced_ret; intros effect st Hdone; discriminate Hdone|].
    apply wire_at_most_one in Hwire.
    do 2 apply traced_log.
    apply (traced_bind _ _ _ _ (proj1 (trigger_without_token (prepared_world w) designID "")));
      [|intros t3 msg [Hgot _]; discriminate Hgot].
    intros t3 triggered [Hgot Hquiet3]. injection Hgot as ->.
    repeat apply traced_log. apply traced_ret. intros effect st _.
    split; [find_line|]. count_calls. rewrite ?app_nil_r. exact Hwire.
  - change (traced (StrictCommand.kanvasSnapshotRunE w f)
              (fun t o =>
                 forall st, o = Returns (None, st) ->
                 In (EvLog LInfo "GitHub workflow has been triggered to generate a snapshot." [])
                    t
                 /\ List.length (http_calls t) <= 1)).
    enter_run. rewrite Hskip, Htoken.
    destruct (negb (String.eqb (email f) "") && negb (isValidEmail (email f)));
      [apply traced_ret; intros st Hdone; discriminate Hdone|].
    apply traced_log. apply (traced_bind _ _ _ _ Hreading); [|intros t1 msg [[] _]].
    intros t1 [manifests [err|]] [_ Hquiet1]; cbn [fst snd];
      [apply traced_ret; intros st Hdone; discriminate Hdone|].
    submit (proj2 (submission_traced (prepared_world w) (Join manifests separator)
                     (designName (prepared_flags w f)) (email f)));
      [|intros t2 msg _ st Hdone; discriminate Hdone].
    intros t2 [designID [err|]] [_ Hwire]; cbn [fst snd];
      [apply traced_log, traced_ret; intros st Hdone; discriminate Hdone|].
    apply wire_at_most_one in Hwire.
    do 2 apply traced_log.
    apply (traced_bind _ _ _ _ (proj2 (trigger_without_token (prepared_world w) designID "")));
      [|intros t3 msg [Hgot _]; discriminate Hgot].
    intros t3 triggered [Hgot Hquiet3]. injection Hgot as ->.
    repeat apply traced_log. apply traced_ret. intros st _.
    split; [find_line|]. count_calls. rewrite ?app_nil_r. exact Hwire.
Qed.

End RunCases.

Section RunWitnesses.

Import GoStrings Runtime Kanvas Spec Props Command.

Lemma kanvasSnapshotRunE_invalid_email_witness :
  ((exists st, result (LenientCommand.kanvasSnapshotRunE Cases.writable Examples.offline
                         Cases.shouting)
               = Returns (Some (Err (ErrInvalidEmailFormat (email Cases.shouting))),
                          Download.Untouched, st))
   /\ http_calls (trace (LenientCommand.kanvasSnapshotRunE Cases.writable Examples.offline
                           Cases.shouting)) = [])
  /\ ((exists st, result (StrictCommand.kanvasSnapshotRunE Examples.offline Cases.shouting)
                  = Returns (Some (ErrInvalidEmailFormat (email Cases.shouting)), st))
      /\ http_calls (trace (StrictCommand.kanvasSnapshotRunE Examples.offline
                              Cases.shouting)) = []).
Proof.
  apply (kanvasSnapshotRunE_invalid_email Cases.writable Examples.offline Cases.shouting);
    [discriminate | reflexivity].
Defined.

Lemma kanvasSnapshotRunE_no_manifest_witness :
  ((exists st, result (LenientCommand.kanvasSnapshotRunE Cases.writable Examples.offline
                         Cases.only_file)
               = Returns (Some (Err (ErrReadingManifestFile
                                       (FSError (GoFS.ErrStat "manifests")))),
                          Download.Untouched, st))
   /\ http_calls (trace (LenientCommand.kanvasSnapshotRunE Cases.writable Examples.offline
                           Cases.only_file)) = [])
  /\ ((exists st, result (StrictCommand.kanvasSnapshotRunE Examples.offline Cases.only_file)
                  = Returns (Some (ErrReadingManifestFile
                                     (FSError (GoFS.ErrStat "manifests"))), st))
      /\ http_calls (trace (StrictCommand.kanvasSnapshotRunE Examples.offline
                              Cases.only_file)) = []).
Proof.
  apply (kanvasSnapshotRunE_no_manifest Cases.writable Examples.offline Cases.only_file
           (ErrReadingManifestFile (FSError (GoFS.ErrStat "manifests"))));
    reflexivity.
Defined.

Lemma kanvasSnapshotRunE_unreachable_witness :
  ((exists effect st,
       result (LenientCommand.kanvasSnapshotRunE Cases.writable
                 (Examples.on_disk Examples.manifests_dir) Cases.only_file)
       = Returns (None, effect, st)
       \/ (downloadPattern Cases.only_file = true
           /\ exists cause,
                result (LenientCommand.kanvasSnapshotRunE Cases.writable
                          (Examples.on_disk Examples.manifests_dir) Cases.only_file)
                = Returns (Some (DownloadErr (Download.PlaceholderFailed cause)),
                           effect, st)))
   /\ List.length
        (http_calls (trace (LenientCommand.kanvasSnapshotRunE Cases.writable
                              (Examples.on_disk Examples.manifests_dir) Cases.only_file)))
      = 1)
  /\ ((exists st,
          result (StrictCommand.kanvasSnapshotRunE
                    (Examples.on_disk Examples.manifests_dir) Cases.only_file)
          = Returns (Some (ErrCreatingMesheryDesign
                             (ErrHTTPPostRequest
                                (TransportError "dial tcp: connection refused"))), st))
      /\ List.length
           (http_calls (trace (StrictCommand.kanvasSnapshotRunE
                                 (Examples.on_disk Examples.manifests_dir) Cases.only_file)))
         = 1).
Proof.
  apply (kanvasSnapshotRunE_unreachable Cases.writable
           (Examples.on_disk Examples.manifests_dir) Cases.only_file
           (TransportError "dial tcp: connection refused") Cases.two_manifests);
    reflexivity.
Defined.

Lemma kanvasSnapshotRunE_submission_target_witness :
  (first_call_to (submissionTarget (Examples.on_disk Examples.manifests_dir))
     (trace (LenientCommand.kanvasSnapshotRunE Cases.writable
               (Examples.on_disk Examples.manifests_dir) Cases.only_file))
   /\ In (EvLog LInfo "Using API endpoint: %s"
            [AStr (endpointOr (Examples.on_disk Examples.manifests_dir)
                     "/api/pattern/kanvas")])
         (trace (LenientCommand.kanvasSnapshotRunE Cases.writable
                   (Examples.on_disk Examples.manifests_dir) Cases.only_file)))
  /\ (first_call_to (submissionTarget (Examples.on_disk Examples.manifests_dir))
        (trace (StrictCommand.kanvasSnapshotRunE
                  (Examples.on_disk Examples.manifests_dir) Cases.only_file))
      /\ In (EvLog LInfo "Using API endpoint: %s"
               [AStr (endpointOr (Examples.on_disk Examples.manifests_dir)
                        "/api/pattern/import")])
            (trace (StrictCommand.kanvasSnapshotRunE
                      (Examples.on_disk Examples.manifests_dir) Cases.only_file))).
Proof.
  apply (kanvasSnapshotRunE_submission_target Cases.writable
           (Examples.on_disk Examples.manifests_dir) Cases.only_file Cases.two_manifests);
    reflexivity.
Defined.

Lemma kanvasSnapshotRunE_reports_trigger_witness :
  (exists effect st,
      result (LenientCommand.kanvasSnapshotRunE Cases.writable Cases.served Cases.only_file)
      = Returns (None, effect, st)
      /\ In (EvLog LInfo "GitHub workflow has been triggered to generate a snapshot." [])
            (trace (LenientCommand.kanvasSnapshotRunE Cases.writable Cases.served
                      Cases.only_file))
      /\ List.length
           (http_calls (trace (LenientCommand.kanvasSnapshotRunE Cases.writable
                                 Cases.served Cases.only_file)))
         <= 1)
  /\ (exists st,
         result (StrictCommand.kanvasSnapshotRunE Cases.served Cases.only_file)
         = Returns (None, st)
         /\ In (EvLog LInfo "GitHub workflow has been triggered to generate a snapshot." [])
               (trace (StrictCommand.kanvasSnapshotRunE Cases.served Cases.only_file))
         /\ List.length
              (http_calls (trace (StrictCommand.kanvasSnapshotRunE Cases.served
                                    Cases.only_file)))
            <= 1).
Proof.
  destruct (kanvasSnapshotRunE_reports_trigger Cases.writable Cases.served Cases.only_file
              eq_refl eq_refl eq_refl) as [Hlenient Hstrict].
  split.
  - eexists. eexists. split; [vm_compute; reflexivity|].
    eapply Hlenient. vm_compute. reflexivity.
  - eexists. split; [vm_compute; reflexivity|].
    eapply Hstrict. vm_compute. reflexivity.
Defined.

End RunWitnesses.

(* ================================================================== *)
(** ** The configuration and the environment *)
(* ================================================================== *)

Section Configuration.

Import GoStrings Runtime Kanvas Spec Props.

Lemma LoadConfig_filled (h : GoConfig.Host) (c : GoConfig.Config) :
  GoConfig.LoadConfig h = inl c ->
  ConfigURL (GoConfig.Meshery c) <> "" /\ SnapshotEndpoint (GoConfig.Meshery c) <> "".
Proof.
  assert (Hread :
            match GoConfig.readFile h (GoConfig.GetConfigFilePath h) with
            | None => inr (GoConfig.ErrReadingConfig (GoConfig.GetConfigFilePath h))
            | Some data =>
                match GoConfig.parse h data with
                | None => inr (GoConfig.ErrParsingConfig (GoConfig.GetConfigFilePath h))
                | Some config =>
                    inl (GoConfig.mkConfig
                           (mkMesheryConfig
                              (if String.eqb (ConfigURL (GoConfig.Meshery config)) ""
                               then "http://localhost:9081"
                               else ConfigURL (GoConfig.Meshery config))
                              (if String.eqb (SnapshotEndpoint (GoConfig.Meshery config)) ""
                               then "/api/k8scontext/manifest"
                               else SnapshotEndpoint (GoConfig.Meshery config)))
                           (GoConfig.Defaults config))
                end
            end = inl c ->
            ConfigURL (GoConfig.Meshery c) <> ""
            /\ SnapshotEndpoint (GoConfig.Meshery c) <> "").
  { destruct (GoConfig.readFile h (GoConfig.GetConfigFilePath h)) as [data|];
      [|discriminate].
    destruct (GoConfig.parse h data) as [parsed|]; [|discriminate].
    intros [= <-]. cbn [GoConfig.Meshery ConfigURL SnapshotEndpoint].
    split.
    - destruct (String.eqb_spec (ConfigURL (GoConfig.Meshery parsed)) "");
        [discriminate | assumption].
    - destruct (String.eqb_spec (SnapshotEndpoint (GoConfig.Meshery parsed)) "");
        [discriminate | assumption]. }
  unfold GoConfig.LoadConfig.
  destruct (GoConfig.stat h (GoConfig.GetConfigFilePath h)); try exact Hread.
  intros [= <-]. split; discriminate.
Qed.

(** X26.  A configuration that [LoadConfig] returns has a URL and an
    endpoint that are not empty.  So, once it is the configuration of
    the process, [CreateMesheryDesign] of either variant posts to the
    base URL followed by that endpoint, in one call, whenever the
    request can be built: the endpoint built into the function is not
    used. *)
Theorem LoadConfig_complete (h : GoConfig.Host) (c : GoConfig.Config)
    (Hload : GoConfig.LoadConfig h = inl c) :
  ConfigURL (GoConfig.Meshery c) <> ""
  /\ SnapshotEndpoint (GoConfig.Meshery c) <> ""
  /\ forall (w : World) (manifest name address : string),
       Config w = Some (GoConfig.Meshery c) ->
       url_parses w (MesheryAPIBaseURL w ++ SnapshotEndpoint (GoConfig.Meshery c)) = true ->
       (exists req : Request,
           http_calls (trace (Lenient.CreateMesheryDesign w manifest name address))
           = [EvHTTP (mkClient 30 true) req]
           /\ URL req = MesheryAPIBaseURL w ++ SnapshotEndpoint (GoConfig.Meshery c))
       /\ (exists req : Request,
              http_calls (trace (Strict.CreateMesheryDesign w manifest name address))
              = [EvHTTP (mkClient 30 true) req]
              /\ URL req = MesheryAPIBaseURL w ++ SnapshotEndpoint (GoConfig.Meshery c)).
Proof.
  destruct (LoadConfig_filled h c Hload) as [Hurl Hendpoint].
  split; [exact Hurl|]. split; [exact Hendpoint|].
  intros w manifest name address Hconfig Hparses.
  assert (Htarget : submissionURL w
                    = MesheryAPIBaseURL w ++ SnapshotEndpoint (GoConfig.Meshery c)).
  { unfold submissionURL, endpointOr. rewrite Hconfig.
    apply String.eqb_neq in Hendpoint. now rewrite Hendpoint. }
  destruct (submission_calls w manifest name address) as [Hl Hs].
  unfold submission_wire in Hl, Hs. rewrite Htarget in Hl, Hs.
  split.
  - destruct Hl as [[Hno _] | [_ (req & Hcall & _ & Hurl' & _)]]; [congruence|].
    now exists req.
  - destruct Hs as [[Hno _] | [_ (req & Hcall & _ & Hurl' & _)]]; [congruence|].
    now exists req.
Qed.

End Configuration.

Lemma LoadConfig_complete_witness :
  Runtime.ConfigURL (GoConfig.Meshery GoConfig.DefaultConfig) <> ""
  /\ Runtime.SnapshotEndpoint (GoConfig.Meshery GoConfig.DefaultConfig) <> ""
  /\ (exists req : Runtime.Request,
         Runtime.http_calls
           (Runtime.trace (Lenient.CreateMesheryDesign Cases.configured "kind: Pod"
                             "my app" ""))
         = [Runtime.EvHTTP (Runtime.mkClient 30 true) req]
         /\ Runtime.URL req = "http://localhost:9081/api/k8scontext/manifest")
  /\ (exists req : Runtime.Request,
         Runtime.http_calls
           (Runtime.trace (Strict.CreateMesheryDesign Cases.configured "kind: Pod"
                             "my app" ""))
         = [Runtime.EvHTTP (Runtime.mkClient 30 true) req]
         /\ Runtime.URL req = "http://localhost:9081/api/k8scontext/manifest").
Proof.
  destruct (LoadConfig_complete Cases.bare GoConfig.DefaultConfig eq_refl)
    as (Hurl & Hendpoint & Hposts).
  split; [exact Hurl|]. split; [exact Hendpoint|].
  apply (Hposts Cases.configured "kind: Pod" "my app" ""); reflexivity.
Defined.

Section Environment.

Import GoStrings Runtime Props EnvFile.

Lemma kept_refl (v : Vars) : kept v v.
Proof. repeat split. Qed.

Lemma kept_trans (a b c : Vars) : kept a b -> kept b c -> kept a c.
Proof.
  intros (H1 & H2 & H3 & H4) (K1 & K2 & K3 & K4).
  repeat split; intros Hset.
  - rewrite <- (H1 Hset). apply K1. now rewrite (H1 Hset).
  - rewrite <- (H2 Hset). apply K2. now rewrite (H2 Hset).
  - rewrite <- (H3 Hset). apply K3. now rewrite (H3 Hset).
  - rewrite <- (H4 Hset). apply K4. now rewrite (H4 Hset).
Qed.

Lemma assign_kept (key value : string) (v : Vars) :
  exists t v', assign key value v = (t, Returns v') /\ kept v v' /\ http_calls t = [].
Proof.
  unfold assign.
  destruct (String.eqb key "MESHERY_TOKEN");
    [destruct (String.eqb_spec (providerToken v) "") as [Hempty | Hset]|
     destruct (String.eqb key "MESHERY_CLOUD_URL");
     [destruct (String.eqb_spec (mesheryCloudAPIBaseURL v) "") as [Hempty | Hset]|
      destruct (String.eqb key "GITHUB_TOKEN");
      [destruct (String.eqb_spec (workflowAccessToken v) "") as [Hempty | Hset]|
       destruct (String.eqb key "MESHERY_API_URL");
       [destruct (String.eqb_spec (mesheryAPIBaseURL v) "") as [Hempty | Hset]|]]]];
    cbn; do 2 eexists; (split; [reflexivity|]); (split; [|reflexivity]);
    try apply kept_refl;
    repeat split; cbn; intros Hne; congruence.
Qed.

Lemma scanLine_kept (line : string) (v : Vars) :
  exists t v', scanLine line v = (t, Returns v') /\ kept v v' /\ http_calls t = [].
Proof.
  unfold scanLine.
  destruct (HasPrefix line "#" || (String.length (TrimSpace line) =? 0)%nat);
    [exists [], v; repeat split|].
  destruct (cut line) as [[k rest]|]; [apply assign_kept | exists [], v; repeat split].
Qed.

Lemma scanLines_kept (lines : list string) :
  forall v, exists t v',
    scanLines lines v = (t, Returns v') /\ kept v v' /\ http_calls t = [].
Proof.
  induction lines as [|line rest IH]; intros v.
  - exists [], v. repeat split.
  - cbn [scanLines]. destruct (scanLine_kept line v) as (t1 & v1 & -> & K1 & Q1).
    destruct (IH v1) as (t2 & v2 & E2 & K2 & Q2). cbn [bind]. rewrite E2.
    exists (t1 ++ t2)%list, v2. repeat split; try apply (kept_trans v v1 v2 K1 K2).
    now rewrite http_calls_app, Q1, Q2.
Qed.

Lemma loadEnvFile_kept (file : option (list string * option error)) (v : Vars) :
  exists v', result (loadEnvFile file v) = Returns v'
             /\ kept v v'
             /\ http_calls (trace (loadEnvFile file v)) = [].
Proof.
  unfold loadEnvFile. destruct file as [[lines scanned]|].
  - destruct (scanLines_kept lines v) as (t & v' & -> & K & Q). exists v'.
    destruct scanned; cbn; rewrite ?http_calls_app, ?Q; repeat split; apply K.
  - exists v. cbn. repeat split.
Qed.

(** X27.  Whatever the file [.env] holds, [loadEnvFile] ends without a panic
    and without an outbound call, and a variable that was set before
    keeps its value: the file fills only the variables that are empty. *)
Theorem loadEnvFile_keeps_set (file : option (list string * option error)) (v : Vars) :
  exists v', result (loadEnvFile file v) = Returns v'
             /\ kept v v'
             /\ http_calls (trace (loadEnvFile file v)) = [].
Proof. exact (loadEnvFile_kept file v). Qed.

(** X28.  When [main] reaches its call of [Main], the configuration was
    loaded and the API URL it passes is the URL of the configuration,
    which is not empty: a line [MESHERY_API_URL] of the file [.env] is
    never taken.  The other three variables are those of the
    environment where these are set.  When the configuration cannot be
    loaded, the process exits. *)
Theorem main_sources (h : GoConfig.Host) (logger : option string)
    (getenv : string -> string) (file : option (list string * option error)) :
  match result (Entry.main h logger getenv file) with
  | Returns (Some v) =>
      exists cfg,
        GoConfig.LoadConfig h = inl cfg
        /\ mesheryAPIBaseURL v = ConfigURL (GoConfig.Meshery cfg)
        /\ mesheryAPIBaseURL v <> ""
        /\ kept (Entry.setEnvironmentVariables getenv
                   (mkVars "" "" (ConfigURL (GoConfig.Meshery cfg)) "")) v
  | Returns None => exists e, GoConfig.LoadConfig h = inr e
  | Panics _ => False
  end.
Proof.
  unfold Entry.main, Entry.newLogger.
  destruct (GoConfig.LoadConfig h) as [cfg | e] eqn:Hload.
  - destruct (LoadConfig_filled h cfg Hload) as [Hurl _].
    destruct (loadEnvFile_kept file
                (Entry.setEnvironmentVariables getenv
                   (mkVars "" "" (ConfigURL (GoConfig.Meshery cfg)) "")))
      as (v' & Hres & K & _).
    cbv zeta.
    destruct (loadEnvFile file _) as [t o]. cbn [result snd] in Hres. subst o.
    assert (Hsame : mesheryAPIBaseURL v' = ConfigURL (GoConfig.Meshery cfg))
      by (destruct K as (_ & _ & K3 & _); now apply K3).
    cbn [bind log ret].
    destruct logger, (String.eqb (providerToken v') ""),
      (String.eqb (workflowAccessToken v') ""); cbn;
      (exists cfg; repeat split; try assumption; try apply K; now rewrite Hsame).
  - destruct logger; cbn; now exists e.
Qed.

(** X29.  Whatever [main] passes, [Main] hands over to the parsing of the
    command line with an empty provider token and an empty base URL:
    registering the flags [meshery-token] and [meshery-url] on these two
    variables stores their default in them.  The access token is
    kept.  A run that is given neither flag then takes the default base
    URL and warns that the token is not set. *)
Theorem Main_hands_over (h : GoConfig.Host) (logger : option string)
    (w : World) (v : Vars) :
  exists (w' : World) (f' : Command.Flags),
    result (Entry.Main h logger w v) = Returns (w', f')
    /\ ProviderToken w' = ""
    /\ MesheryAPIBaseURL w' = ""
    /\ Command.WorkflowAccessToken f' = workflowAccessToken v
    /\ Config w' = match GoConfig.LoadConfig h with
                   | inl c => Some (GoConfig.Meshery c)
                   | inr _ => None
                   end
    /\ MesheryAPIBaseURL (prepared_world w') = Command.defaultMesheryURL
    /\ In (EvLog LWarn "MESHERY_TOKEN environment variable not set. Working in offline mode." [])
          (trace (LenientCommand.prepare w' f')).
Proof.
  unfold Entry.Main, Entry.newLogger.
  destruct (GoConfig.LoadConfig h) as [c | e];
    [destruct (String.eqb (ConfigURL (GoConfig.Meshery c)) "")|];
    destruct logger; cbn; do 2 eexists; (split; [reflexivity|]);
    cbn; repeat split; auto.
Qed.

End Environment.

Section Fallback.

Import GoStrings Runtime Kanvas Spec Props.

(** X16.  What follows a fallback makes no call: on the identifier that
    [generateDummyID] gives, for every name and clock, the trigger of
    the lenient variant returns no error without a call, and the
    download writes its placeholder without a call. *)
Theorem generateDummyID_stays_offline (w v : World) (disk : Download.Disk)
    (name assetLocation token outputFile : string) :
  (result (Lenient.GenerateSnapshot v (Lenient.generateDummyID w name) assetLocation token)
   = Returns None
   /\ http_calls
        (trace (Lenient.GenerateSnapshot v (Lenient.generateDummyID w name)
                  assetLocation token)) = [])
  /\ http_calls
       (trace (Download.DownloadPatternAsImage v disk (Lenient.generateDummyID w name)
                 outputFile)) = [].
Proof.
  pose proof (generateDummyID_prefix w name) as Hprefix.
  split.
  - apply (trigger_offline v _ assetLocation token Hprefix).
  - apply (download_offline disk v _ outputFile Hprefix).
Qed.

End Fallback.
